(** * YouTube data fetcher: a shallow embedding of
      [src/preprocessing/gather_data.py] and the properties of its
      collection loop, duration decoder, channel resolver and sampler.

    The Python code talks to three collaborators that are not part of the
    repository: the platform API client ([googleapiclient]), the
    interpreter's own library ([int], [isodate], [datetime]) and the
    random generator of [numpy].  They are interfaces here (type classes
    [World] and [PyLib]); the code of the repository is written on top of
    them in a small state-and-exception monad, so that a statement about
    it holds for every behaviour of the collaborators.

    A [while] loop that pages through the API ends only if the API stops
    handing out continuation tokens; the loops take fuel, one unit per
    page.  Statements that say that [fetch_channel_videos] returns are
    made in worlds whose search endpoint answers from a finite script of
    pages ([scripted]), where fuel for one more page than the script holds
    is always enough.

    The file has the model first (values, collaborators, monad, the
    methods of [YouTubeDataFetcher] under their names, worlds to run them
    in), then the vocabulary of the statements, then the proofs.
    [save_to_csv], which only hands the frame to [pandas] and prints one
    line, is the one method that is not modelled. *)

From stdpp Require Import base option strings list gmap pretty sorting.
From Stdlib Require Import Ascii ZArith QArith Lia.

Local Open Scope string_scope.
Local Open Scope list_scope.
Local Open Scope Z_scope.

(** ** Python values, exceptions and results *)

(** The exceptions the code can meet.  All of them are instances of
    Python's [Exception], which is what [except Exception] catches. *)
Inductive exn : Type :=
  | HttpError (msg : string)       (* raised by [request.execute()] *)
  | KeyError (key : string)        (* [d[k]] with [k] missing *)
  | IndexError (msg : string)      (* [l[0]] on an empty list *)
  | ValueError (msg : string)      (* [int("x")], negative sizes *)
  | TypeError (msg : string)
  | ISO8601Error (msg : string)    (* raised by [isodate] *)
  | StopIteration.                 (* an exhausted scripted mock *)

(** [str(e)], as interpolated by the f-strings of the handlers. *)
Definition str_exn (e : exn) : string :=
  match e with
  | HttpError m | IndexError m | ValueError m | TypeError m | ISO8601Error m => m
  | KeyError k => "'" +:+ k +:+ "'"
  | StopIteration => ""
  end.

(** The outcome of running a piece of code: a value, a raised exception, or
    [OutOfFuel] when a [while] loop was cut by the fuel of the model. *)
Inductive result (A : Type) : Type :=
  | Ok (a : A)
  | Raise (e : exn)
  | OutOfFuel.
Arguments Ok {A} a.
Arguments Raise {A} e.
Arguments OutOfFuel {A}.

(** Python truthiness of an optional string: [None] and [""] are falsy. *)
Definition truthy (o : option string) : bool :=
  match o with
  | Some s => negb (String.eqb s "")
  | None => false
  end.

(** ** The shapes of the API responses

    A response is a JSON object; a field that the code reads with
    [d[k]] is an [option] here ([None]: the key is missing, which raises
    [KeyError]). *)

Record id_obj := {
  videoId : option string;
  channelId : option string }.

Record snippet := {
  sn_channelId : option string;
  sn_title : option string;
  sn_description : option string;
  sn_publishedAt : option string;
  sn_thumbnail_high_url : option string;    (* ['thumbnails']['high']['url'] *)
  sn_categoryId : option string;
  sn_tags : option (list string);
  sn_defaultLanguage : option string;
  sn_defaultAudioLanguage : option string }.

Record statistics := {
  viewCount : option string;
  likeCount : option string;
  commentCount : option string;
  subscriberCount : option string;
  videoCount : option string }.

Record content_details := { duration : option string }.

(** An item of a [search().list] response. *)
Record search_item := {
  si_id : option id_obj;
  si_snippet : option snippet }.

Record search_response := {
  sr_items : option (list search_item);
  sr_nextPageToken : option string }.

(** An item of a [videos().list] or [channels().list] response. *)
Record resource := {
  rs_id : option string;
  rs_snippet : option snippet;
  rs_statistics : option statistics;
  rs_contentDetails : option content_details }.

Record list_response := { lr_items : option (list resource) }.

(** The keyword arguments of [search().list]. *)
Record search_request := {
  rq_part : string;
  rq_q : option string;
  rq_type : string;
  rq_channelId : option string;
  rq_order : option string;
  rq_maxResults : Z;
  rq_publishedAfter : option string;
  rq_publishedBefore : option string;
  rq_pageToken : option string;
  rq_regionCode : option string;
  rq_videoCategoryId : option string }.

(** ** The collaborators *)

(** The world outside the program: the platform API behind
    [self.youtube], the clock and the random generator.  Every call may
    change the world and may raise. *)
Class World (W : Type) := {
  search_list : search_request → W → W * (exn + search_response);
  videos_list : string → string → W → W * (exn + list_response);
  channels_list : string → string → W → W * (exn + list_response);
  commentThreads_list : string → string → Z → W → W * (exn + unit);
  videoCategories_list : string → string → W → W * (exn + list_response);
  datetime_now : W → W * Z;                 (* microseconds since the epoch *)
  standard_normal : W → W * Q               (* one draw of N(0,1) *)
}.

(** [datetime.timedelta], normalised as Python keeps it. *)
Record timedelta := {
  td_days : Z;
  td_seconds : Z;
  td_microseconds : Z }.

(** Library functions of the interpreter. *)
Class PyLib := {
  py_int : string → exn + Z;                            (* [int(s)] *)
  isodate_parse_duration : string → exn + timedelta;    (* [isodate.parse_duration] *)
  isoformat : Z → string                                (* [datetime.isoformat] *)
}.

(** ** The records the program builds *)

Record video_record := {
  video_id : string;
  title : string;
  description : string;
  published_at : string;
  thumbnail_url : string;
  views : Z;
  likes : Z;
  comments_count : Z;
  current_subscriber_count : Z;
  duration_seconds : Z;
  comments_enabled : bool;
  category_id : string;
  category_name : string;
  tags : list string;
  default_language : string;
  default_audio_language : string }.

Record channel_summary := {
  cs_channel_id : string;
  cs_title : string;
  subscriber_count : Z;
  video_count : Z;
  view_count : Z }.

Record channel_hit := {
  ch_channel_id : string;
  ch_channel_title : string;
  ch_description : string }.

(** ** A monad for Python's effects

    A piece of code runs in a [state]: the world, what was printed so far,
    and the mutable local variables of the running function (the list a
    loop appends to).  A raised exception leaves the state as it is at the
    raise: what was appended before stays appended. *)

Record state (W L : Type) := State {
  world : W;
  stdout : list string;
  locals : L }.
Arguments State {W L} _ _ _.
Arguments world {W L} _.
Arguments stdout {W L} _.
Arguments locals {W L} _.

Definition M (W L A : Type) : Type := state W L → state W L * result A.

Section monad.
Context {W L : Type}.

Definition ret {A} (a : A) : M W L A := λ s, (s, Ok a).

Definition bind {A B} (m : M W L A) (k : A → M W L B) : M W L B :=
  λ s, match m s with
       | (s', Ok a) => k a s'
       | (s', Raise e) => (s', Raise e)
       | (s', OutOfFuel) => (s', OutOfFuel)
       end.

Definition raise {A} (e : exn) : M W L A := λ s, (s, Raise e).

Definition out_of_fuel {A} : M W L A := λ s, (s, OutOfFuel).

(** [try: body  except Exception as e: handler e] (and the bare
    [except:], which catches the same exceptions here). *)
Definition try_except {A} (body : M W L A) (handler : exn → M W L A) : M W L A :=
  λ s, match body s with
       | (s', Raise e) => handler e s'
       | r => r
       end.

Definition print (line : string) : M W L unit :=
  λ s, (State (world s) (stdout s ++ [line]) (locals s), Ok tt).

(** A call into the world that may raise. *)
Definition call {A} (f : W → W * (exn + A)) : M W L A :=
  λ s, let (w', r) := f (world s) in
       (State w' (stdout s) (locals s),
        match r with inl e => Raise e | inr a => Ok a end).

(** A call into the world that cannot raise. *)
Definition ask {A} (f : W → W * A) : M W L A :=
  λ s, let (w', a) := f (world s) in (State w' (stdout s) (locals s), Ok a).

(** A library function that may raise. *)
Definition lift {A} (r : exn + A) : M W L A :=
  match r with inl e => raise e | inr a => ret a end.

Definition get_locals : M W L L := λ s, (s, Ok (locals s)).

Definition set_locals (l : L) : M W L unit :=
  λ s, (State (world s) (stdout s) l, Ok tt).

(** [d[key]] *)
Definition getitem {A} (key : string) (o : option A) : M W L A :=
  match o with
  | Some a => ret a
  | None => raise (KeyError key)
  end.

(** [l[0]] *)
Definition first {A} (l : list A) : M W L A :=
  match l with
  | a :: _ => ret a
  | [] => raise (IndexError "list index out of range")
  end.
End monad.

#[global] Instance M_ret {W L} : MRet (M W L) := @ret W L.
#[global] Instance M_bind {W L} : MBind (M W L) := λ A B k m, bind m k.

(** A function call: the body runs with local variables of its own, which
    are gone when it returns or raises. *)
Definition frame {W L L' A} (init : L') (body : M W L' A) : M W L A :=
  λ s, let (s', r) := body (State (world s) (stdout s) init) in
       (State (world s') (stdout s') (locals s), r).

(** What a [for] body tells its loop. *)
Inductive ctrl : Type := Next | Break.

(** [for x in xs: body x], where the body may [break]. *)
Fixpoint for_each {W L A} (body : A → M W L ctrl) (xs : list A) : M W L unit :=
  match xs with
  | [] => mret tt
  | x :: xs' =>
      c ← body x;
      match c with
      | Break => mret tt
      | Next => for_each body xs'
      end
  end.

(** A list comprehension [[f x for x in xs]]. *)
Fixpoint comprehension {W L A B} (f : A → M W L B) (xs : list A) : M W L (list B) :=
  match xs with
  | [] => mret []
  | x :: xs' => y ← f x; ys ← comprehension f xs'; mret (y :: ys)
  end.

Definition len {A} (l : list A) : Z := Z.of_nat (length l).

(** [str(x)] for [x] an integer or [None]. *)
Definition py_str (o : option Z) : string :=
  match o with
  | Some z => pretty z
  | None => "None"
  end.

(** ** The fetcher *)

(** [self.category_ids], in the order of the source. *)
Definition category_table : list (string * Z) :=
  [ ("film_animation", 1); ("autos", 2); ("music", 10);
    ("pets_animals", 15); ("sports", 17); ("gaming", 20);
    ("blogging", 22); ("comedy", 23); ("entertainment", 24);
    ("news_politics", 25); ("howto_style", 26); ("education", 27);
    ("science_tech", 28); ("nonprofits", 29) ].

Definition category_ids : gmap string Z := list_to_map category_table.

(** [{str(v): k for k, v in self.category_ids.items()}]: a later entry
    overrides an earlier one with the same key. *)
Definition category_names : gmap string string :=
  list_to_map (reverse (map (λ kv, (pretty (kv.2), kv.1)) category_table)).

(** [int(td.total_seconds())]: the whole seconds, truncated towards zero. *)
Definition total_seconds_int (td : timedelta) : Z :=
  Z.quot ((td_days td * 86400 + td_seconds td) * 1000000 + td_microseconds td) 1000000.

Section fetcher.
Context {W : Type} `{!World W} `{!PyLib}.

(** The request of [get_channel_id]. *)
Definition channel_search (channel_name : string) : search_request :=
  {| rq_part := "id,snippet"; rq_q := Some channel_name;
     rq_type := "channel"; rq_channelId := None; rq_order := None;
     rq_maxResults := 1; rq_publishedAfter := None;
     rq_publishedBefore := None; rq_pageToken := None;
     rq_regionCode := None; rq_videoCategoryId := None |}.

(** The request of [search_channels_by_category]. *)
Definition category_search (category_id : string) (max_results : Z)
    : search_request :=
  {| rq_part := "snippet"; rq_q := None; rq_type := "channel";
     rq_channelId := None; rq_order := None; rq_maxResults := max_results;
     rq_publishedAfter := None; rq_publishedBefore := None;
     rq_pageToken := None; rq_regionCode := Some "US";
     rq_videoCategoryId := Some category_id |}.

(** [get_channel_id(self, channel_name)] *)
Definition get_channel_id {L} (channel_name : string) : M W L (option string) :=
  try_except
    (response ← call (search_list (channel_search channel_name));
     items ← getitem "items" (sr_items response);
     match items with
     | item :: _ =>
         id ← getitem "id" (si_id item);
         cid ← getitem "channelId" (channelId id);
         mret (Some cid)
     | [] => mret None
     end)
    (λ e, print ("Error finding channel ID: " +:+ str_exn e);; mret None).

(** [get_video_category(self, video_id)] *)
Definition get_video_category {L} (video_id : string) : M W L (option string) :=
  try_except
    (response ← call (videos_list "snippet" video_id);
     items ← getitem "items" (lr_items response);
     match items with
     | item :: _ =>
         sn ← getitem "snippet" (rs_snippet item);
         cid ← getitem "categoryId" (sn_categoryId sn);
         mret (Some cid)
     | [] => mret None
     end)
    (λ e, print ("Error getting video category: " +:+ str_exn e);; mret None).

(** [_parse_duration(self, duration_str)] *)
Definition _parse_duration {L} (duration_str : string) : M W L Z :=
  try_except
    (td ← lift (isodate_parse_duration duration_str);
     mret (total_seconds_int td))
    (λ _, mret 0).

(** [int(stats.get(key, 0))] *)
Definition int_get {L} (o : option string) : M W L Z :=
  match o with
  | Some s => lift (py_int s)
  | None => mret 0
  end.

(** [str(self.category_ids.get(category)) if category else None] *)
Definition resolve_category (category : option string) : option string :=
  match category with
  | Some c => if truthy (Some c) then Some (py_str (category_ids !! c)) else None
  | None => None
  end.

(** [target_category_id and video_category_id != target_category_id] *)
Definition category_mismatch (target_category_id : option string)
    (video_category_id : string) : bool :=
  match target_category_id with
  | Some t => truthy (Some t) && negb (bool_decide (video_category_id = t))
  | None => false
  end.

(** The body of [for item in response.get('items', [])] in
    [fetch_channel_videos]; the local variable is [video_details]. *)
Definition fetch_item (max_videos : Z) (target_category_id : option string)
    (subscriber_count : Z) (item : search_item) : M W (list video_record) ctrl :=
  id ← getitem "id" (si_id item);
  video_id ← getitem "videoId" (videoId id);
  stats_response ← call (videos_list "statistics,snippet,contentDetails" video_id);
  items ← getitem "items" (lr_items stats_response);
  match items with
  | [] => mret Next
  | video_info :: _ =>
      vsn ← getitem "snippet" (rs_snippet video_info);
      video_category_id ← getitem "categoryId" (sn_categoryId vsn);
      if category_mismatch target_category_id video_category_id then mret Next
      else
        cd ← getitem "contentDetails" (rs_contentDetails video_info);
        duration_str ← getitem "duration" (duration cd);
        duration_seconds ← _parse_duration duration_str;
        has_comments_enabled ←
          try_except
            (call (commentThreads_list "snippet" video_id 1);; mret true)
            (λ _, mret false);
        isn ← getitem "snippet" (si_snippet item);
        title ← getitem "title" (sn_title isn);
        description ← getitem "description" (sn_description isn);
        published_at ← getitem "publishedAt" (sn_publishedAt isn);
        thumbnail_url ← getitem "thumbnails" (sn_thumbnail_high_url isn);
        st ← getitem "statistics" (rs_statistics video_info);
        views ← int_get (viewCount st);
        likes ← int_get (likeCount st);
        comments_count ← int_get (commentCount st);
        video_details ← get_locals;
        set_locals (video_details ++
          [ {| video_id := video_id;
               title := title;
               description := description;
               published_at := published_at;
               thumbnail_url := thumbnail_url;
               views := views;
               likes := likes;
               comments_count := comments_count;
               current_subscriber_count := subscriber_count;
               duration_seconds := duration_seconds;
               comments_enabled := has_comments_enabled;
               category_id := video_category_id;
               category_name := default "Unknown" (category_names !! video_category_id);
               tags := default [] (sn_tags vsn);
               default_language := default "Unknown" (sn_defaultLanguage vsn);
               default_audio_language :=
                 default "Unknown" (sn_defaultAudioLanguage vsn) |} ]);;
        video_details ← get_locals;
        if len video_details >=? max_videos then mret Break else mret Next
  end.

(** [while len(video_details) < max_videos: ...]; one unit of fuel per
    page. *)
Fixpoint page_loop (fuel : nat) (channel_id published_after published_before : string)
    (max_videos : Z) (target_category_id : option string) (subscriber_count : Z)
    (next_page_token : option string) : M W (list video_record) unit :=
  video_details ← get_locals;
  if len video_details <? max_videos then
    match fuel with
    | O => out_of_fuel
    | S fuel' =>
        response ← call (search_list
          {| rq_part := "id,snippet"; rq_q := None; rq_type := "video";
             rq_channelId := Some channel_id; rq_order := Some "date";
             rq_maxResults := Z.min 50 (max_videos - len video_details);
             rq_publishedAfter := Some published_after;
             rq_publishedBefore := Some published_before;
             rq_pageToken := next_page_token;
             rq_regionCode := None; rq_videoCategoryId := None |});
        for_each (fetch_item max_videos target_category_id subscriber_count)
                 (default [] (sr_items response));;
        let next_page_token := sr_nextPageToken response in
        if truthy next_page_token
        then page_loop fuel' channel_id published_after published_before
               max_videos target_category_id subscriber_count next_page_token
        else mret tt
    end
  else mret tt.

Definition days_365 : Z := 365 * 86400 * 1000000.

(** The first two steps of [fetch_channel_videos]: the dates of the
    window, read from the clock where they are not given. *)
Definition default_dates {L} (start_date end_date : option Z) : M W L (Z * Z) :=
  start_date ← match start_date with
               | Some d => mret d
               | None => now ← ask datetime_now; mret (now - days_365)
               end;
  end_date ← match end_date with
             | Some d => mret d
             | None => ask datetime_now
             end;
  mret (start_date, end_date).

(** The first part of [fetch_channel_videos], up to the page loop: the
    default dates, their RFC 3339 form and the subscriber count of the
    channel (0 when the call or the decoding fails). *)
Definition fetch_setup {L} (channel_id : string) (start_date end_date : option Z)
    : M W L (string * string * Z) :=
  start_date ← match start_date with
               | Some d => mret d
               | None => now ← ask datetime_now; mret (now - days_365)
               end;
  end_date ← match end_date with
             | Some d => mret d
             | None => ask datetime_now
             end;
  let published_after := isoformat start_date +:+ "Z" in
  let published_before := isoformat end_date +:+ "Z" in
  subscriber_count ←
    try_except
      (channel_response ← call (channels_list "statistics" channel_id);
       items ← getitem "items" (lr_items channel_response);
       ch ← first items;
       st ← getitem "statistics" (rs_statistics ch);
       sc ← getitem "subscriberCount" (subscriberCount st);
       lift (py_int sc))
      (λ e, print ("Error fetching channel statistics: " +:+ str_exn e);;
            mret 0);
  mret (published_after, published_before, subscriber_count).

(** [fetch_channel_videos(self, channel_id, start_date, end_date,
    max_videos, category)]; the data frame is the list of its rows. *)
Definition fetch_channel_videos {L} (fuel : nat) (channel_id : string)
    (start_date end_date : option Z) (max_videos : Z)
    (category : option string) : M W L (list video_record) :=
  frame []
    (setup ← fetch_setup channel_id start_date end_date;
     let '(published_after, published_before, subscriber_count) := setup in
     let target_category_id := resolve_category category in
     try_except
       (page_loop fuel channel_id published_after published_before
          max_videos target_category_id subscriber_count None)
       (λ e, print ("Error fetching videos: " +:+ str_exn e));;
     get_locals).

(** [get_guide_categories(self, part, region_code)]: no handler around
    the call. *)
Definition get_guide_categories {L} (part region_code : string)
    : M W L (gmap string string) :=
  response ← call (videoCategories_list part region_code);
  frame (∅ : gmap string string)
    (for_each
       (λ category,
          sn ← getitem "snippet" (rs_snippet category);
          t ← getitem "title" (sn_title sn);
          id ← getitem "id" (rs_id category);
          categories ← get_locals;
          set_locals (<[id := t]> categories);;
          mret Next)
       (default [] (lr_items response));;
     get_locals).

(** [search_channels_by_category(self, category_id, max_results)]: no
    handler around the call. *)
Definition search_channels_by_category {L} (category_id : string)
    (max_results : Z) : M W L (list channel_hit) :=
  response ← call (search_list (category_search category_id max_results));
  frame ([] : list channel_hit)
    (for_each
       (λ item,
          sn ← getitem "snippet" (si_snippet item);
          cid ← getitem "channelId" (sn_channelId sn);
          t ← getitem "title" (sn_title sn);
          d ← getitem "description" (sn_description sn);
          channels ← get_locals;
          set_locals (channels ++
            [ {| ch_channel_id := cid; ch_channel_title := t;
                 ch_description := d |} ]);;
          mret Next)
       (default [] (sr_items response));;
     get_locals).

(** *** numpy and list primitives used by the sampler *)

Fixpoint draws {L} (n : nat) : M W L (list Q) :=
  match n with
  | O => mret []
  | S n' => z ← ask standard_normal; zs ← draws n'; mret (z :: zs)
  end.

(** [np.random.normal(mu, sigma, size)]: the scale is checked, then the
    array is allocated, then it is filled with [mu + sigma * z] for
    standard draws [z]. *)
Definition np_random_normal {L} (mu sigma : Q) (size : Z) : M W L (list Q) :=
  if Qle_bool 0 sigma then
    if size <? 0 then raise (ValueError "negative dimensions are not allowed")
    else
      zs ← draws (Z.to_nat size);
      mret (map (λ z, (mu + sigma * z)%Q) zs)
  else raise (ValueError "scale < 0").

(** [np.clip(x, lo, hi)] on one element: [minimum(maximum(x, lo), hi)]. *)
Definition np_clip (lo hi : Z) (x : Q) : Q :=
  let m := if Qle_bool x (inject_Z lo) then inject_Z lo else x in
  if Qle_bool m (inject_Z hi) then m else inject_Z hi.

(** [.astype(int)] on one element: truncation towards zero. *)
Definition astype_int (x : Q) : Z := Z.quot (Qnum x) (Z.pos (Qden x)).

(** [np.unique]: the distinct values, ascending. *)
Definition np_unique (l : list Z) : list Z := merge_sort Z.le (remove_dups l).

(** [sorted(l)] *)
Definition sorted (l : list Z) : list Z := merge_sort Z.le l.

(** [l[i]], with Python's negative indices. *)
Definition py_index {L A} (l : list A) (i : Z) : M W L A :=
  let j := if i <? 0 then len l + i else i in
  if (0 <=? j) && (j <? len l) then
    match l !! Z.to_nat j with
    | Some a => mret a
    | None => raise (IndexError "list index out of range")
    end
  else raise (IndexError "list index out of range").

(** [l[:n]] *)
Definition py_slice_to {A} (n : Z) (l : list A) : list A :=
  if 0 <=? n then take (Z.to_nat n) l
  else take (Z.to_nat (len l + n)) l.

(** [channels.sort(key=lambda x: x['subscriber_count'], reverse=True)]:
    descending, and stable as Python's sort is. *)
Fixpoint insert_desc (x : channel_summary) (l : list channel_summary)
    : list channel_summary :=
  match l with
  | [] => [x]
  | y :: l' =>
      if subscriber_count x <? subscriber_count y
      then y :: insert_desc x l'
      else x :: l
  end.

Definition sort_desc (l : list channel_summary) : list channel_summary :=
  foldr insert_desc [] l.

(** The body of one iteration of the [while] loop of
    [get_top_channels_by_category], inside its [try]; the local variable
    is [channels].  It yields the next page token, or [None] after
    [break]. *)
Definition channel_page (category_id : Z) (next_page_token : option string)
    : M W (list channel_summary) (option string) :=
  response ← call (search_list
    {| rq_part := "snippet"; rq_q := None; rq_type := "channel";
       rq_channelId := None; rq_order := Some "viewCount"; rq_maxResults := 50;
       rq_publishedAfter := None; rq_publishedBefore := None;
       rq_pageToken := next_page_token; rq_regionCode := None;
       rq_videoCategoryId := Some (pretty category_id) |});
  items ← getitem "items" (sr_items response);
  channel_ids ← comprehension
    (λ item, sn ← getitem "snippet" (si_snippet item);
             getitem "channelId" (sn_channelId sn)) items;
  channel_response ← call (channels_list "statistics,snippet"
                             (String.concat "," channel_ids));
  chs ← getitem "items" (lr_items channel_response);
  for_each
    (λ channel,
       id ← getitem "id" (rs_id channel);
       sn ← getitem "snippet" (rs_snippet channel);
       t ← getitem "title" (sn_title sn);
       st ← getitem "statistics" (rs_statistics channel);
       sc ← getitem "subscriberCount" (subscriberCount st);
       sc ← lift (py_int sc);
       vc ← getitem "videoCount" (videoCount st);
       vc ← lift (py_int vc);
       wc ← getitem "viewCount" (viewCount st);
       wc ← lift (py_int wc);
       channels ← get_locals;
       set_locals (channels ++
         [ {| cs_channel_id := id; cs_title := t; subscriber_count := sc;
              video_count := vc; view_count := wc |} ]);;
       mret Next)
    chs;;
  let next_page_token := sr_nextPageToken response in
  if truthy next_page_token then mret next_page_token else mret None.

(** [while len(channels) < sample_size * 2: try: ... except: ... break] *)
Fixpoint channel_loop (fuel : nat) (category_id sample_size : Z)
    (next_page_token : option string) : M W (list channel_summary) unit :=
  channels ← get_locals;
  if len channels <? sample_size * 2 then
    match fuel with
    | O => out_of_fuel
    | S fuel' =>
        next ← try_except
                 (channel_page category_id next_page_token)
                 (λ e, print ("Error fetching channels: " +:+ str_exn e);;
                       mret None);
        match next with
        | Some tok => channel_loop fuel' category_id sample_size (Some tok)
        | None => mret tt
        end
    end
  else mret tt.

(** The sampling step, from [if len(channels) > sample_size:] on. *)
Definition sample_channels {L} (sample_size : Z) (channels : list channel_summary)
    : M W L (list channel_summary) :=
  if len channels >? sample_size then
    let mu := 0%Q in
    let sigma := (len channels # 4)%Q in
    indices ← np_random_normal mu sigma sample_size;
    let indices := map astype_int (map (np_clip 0 (len channels - 1)) indices) in
    let indices := np_unique indices in
    sampled_channels ← comprehension (py_index channels) (sorted indices);
    mret (py_slice_to sample_size sampled_channels)
  else mret channels.

(** [get_top_channels_by_category(category_id, api_key, sample_size)]
    (written in the class body without [self], so a plain function); the
    client that it builds from [api_key] is the world. *)
Definition get_top_channels_by_category {L} (fuel : nat) (category_id : Z)
    (api_key : string) (sample_size : Z) : M W L (list channel_summary) :=
  frame []
    (channel_loop fuel category_id sample_size None;;
     channels ← get_locals;
     set_locals (sort_desc channels);;
     channels ← get_locals;
     sample_channels sample_size channels).

End fetcher.

(** ** Worlds to run the code in *)

(** A stub with canned answers: every endpoint is a function of its
    arguments and the clock stands still.  The state of the stubbed world
    is the list of the draws the random generator has yet to yield (it
    yields 0 once the list is empty). *)
Record stub := Stub {
  st_search : search_request → exn + search_response;
  st_videos : string → string → exn + list_response;
  st_channels : string → string → exn + list_response;
  st_comments : string → exn + unit;
  st_categories : string → string → exn + list_response;
  st_now : Z }.

Definition stub_world (api : stub) : World (list Q) := {|
  search_list rq w := (w, st_search api rq);
  videos_list part id w := (w, st_videos api part id);
  channels_list part id w := (w, st_channels api part id);
  commentThreads_list part videoId maxResults w := (w, st_comments api videoId);
  videoCategories_list part region w := (w, st_categories api part region);
  datetime_now w := (w, st_now api);
  standard_normal w :=
    match w with
    | [] => (w, 0%Q)
    | z :: zs => (zs, z)
    end |}.

(** A world whose search endpoint answers from a finite script of page
    responses, one per call, whatever the request, and raises
    [StopIteration] once the script is exhausted (a mock with a list as
    [side_effect]); the other endpoints are those of the inner world. *)
Record scripted (W : Type) := Scripted {
  script : list (exn + search_response);
  inner : W }.
Arguments Scripted {W} _ _.
Arguments script {W} _.
Arguments inner {W} _.

Definition on_inner {W A} (f : W → W * A) (w : scripted W) : scripted W * A :=
  let (i', a) := f (inner w) in (Scripted (script w) i', a).

#[global] Instance scripted_world {W} `{!World W} : World (scripted W) := {|
  search_list rq w :=
    match script w with
    | [] => (w, inl StopIteration)
    | page :: pages => (Scripted pages (inner w), page)
    end;
  videos_list part id := on_inner (videos_list part id);
  channels_list part id := on_inner (channels_list part id);
  commentThreads_list part videoId maxResults :=
    on_inner (commentThreads_list part videoId maxResults);
  videoCategories_list part region := on_inner (videoCategories_list part region);
  datetime_now := on_inner datetime_now;
  standard_normal := on_inner standard_normal |}.

(** The stub behind a scripted search endpoint. *)
Definition mock_world (api : stub) : World (scripted (list Q)) :=
  @scripted_world (list Q) (stub_world api).

(** *** A reference interpreter library *)

Definition digit_of (c : ascii) : option Z :=
  let n := Z.of_N (Ascii.N_of_ascii c) in
  if (48 <=? n) && (n <=? 57) then Some (n - 48) else None.

(** Reads a non-empty run of digits. *)
Fixpoint read_digits (acc : option Z) (l : list ascii) : option Z * list ascii :=
  match l with
  | c :: l' =>
      match digit_of c with
      | Some d => read_digits (Some (default 0 acc * 10 + d)) l'
      | None => (acc, l)
      end
  | [] => (acc, l)
  end.

Definition chars (s : string) : list ascii := String.list_ascii_of_string s.

(** [int(s)] for a decimal numeral with an optional sign. *)
Definition int_of_string (s : string) : exn + Z :=
  let bad := inl (ValueError ("invalid literal for int() with base 10: '" +:+ s +:+ "'")) in
  let digits l := match read_digits None l with
                  | (Some n, []) => Some n
                  | _ => None
                  end in
  match chars s with
  | "-"%char :: l => match digits l with Some n => inr (- n) | None => bad end
  | "+"%char :: l => match digits l with Some n => inr n | None => bad end
  | l => match digits l with Some n => inr n | None => bad end
  end.

(** Reads [<digits><designator>] if it is there. *)
Definition read_field (designator : ascii) (l : list ascii) : Z * list ascii :=
  match read_digits None l with
  | (Some n, c :: l') => if Ascii.eqb c designator then (n, l') else (0, l)
  | _ => (0, l)
  end.

(** ISO 8601 durations of the form [P[nD][T[nH][nM][nS]]] with integer
    fields; anything else is refused. *)
Definition parse_duration_PnDTnHnMnS (s : string) : exn + timedelta :=
  let bad := inl (ISO8601Error ("Unable to parse duration string '" +:+ s +:+ "'")) in
  match chars s with
  | "P"%char :: l =>
      let (d, l) := read_field "D" l in
      match l with
      | [] => if bool_decide (chars s = ["P"%char]) then bad
              else inr {| td_days := d; td_seconds := 0; td_microseconds := 0 |}
      | "T"%char :: l =>
          let (h, l) := read_field "H" l in
          let (m, l) := read_field "M" l in
          let (sec, l) := read_field "S" l in
          match l with
          | [] =>
              let total := h * 3600 + m * 60 + sec in
              inr {| td_days := d + total / 86400;
                     td_seconds := total mod 86400;
                     td_microseconds := 0 |}
          | _ => bad
          end
      | _ => bad
      end
  | _ => bad
  end.

Definition reference_lib : PyLib := {|
  py_int := int_of_string;
  isodate_parse_duration := parse_duration_PnDTnHnMnS;
  isoformat := pretty |}.

(** ** Weakest preconditions

    The properties of the monadic code are stated and proved through its
    weakest preconditions. *)

Section wp_definitions.
Context {W L : Type}.

(** [wp m Q s]: running [m] from [s] ends in a state and a result that
    satisfy [Q]. *)
Definition wp {A} (m : M W L A) (Q : state W L → result A → Prop)
    (s : state W L) : Prop :=
  Q (m s).1 (m s).2.

(** What [Q] has to say about the result of the first half of a bind. *)
Definition then_wp {A B} (k : A → M W L B) (Q : state W L → result B → Prop)
    (s : state W L) (r : result A) : Prop :=
  match r with
  | Ok a => wp (k a) Q s
  | Raise e => Q s (Raise e)
  | OutOfFuel => Q s OutOfFuel
  end.

(** What [Q] has to say about the result of the body of a [try]. *)
Definition catch_wp {A} (handler : exn → M W L A)
    (Q : state W L → result A → Prop) (s : state W L) (r : result A) : Prop :=
  match r with
  | Raise e => wp (handler e) Q s
  | _ => Q s r
  end.

End wp_definitions.

(** ** What the loops of [fetch_channel_videos] maintain *)

Section vocabulary.
Context {W : Type} `{!World W}.

(** [detail_calls w w']: the world goes from [w] to [w'] by calls of the
    two endpoints that the body of the item loop uses. *)
Inductive detail_calls : W → W → Prop :=
  | dc_refl w : detail_calls w w
  | dc_videos part id w w' r w'' :
      videos_list part id w = (w', r) → detail_calls w' w'' → detail_calls w w''
  | dc_comments part id n w w' r w'' :
      commentThreads_list part id n w = (w', r) → detail_calls w' w'' →
      detail_calls w w''.

(** The platform can serve a video whose category id is [cat]. *)
Definition served (cat : string) : Prop :=
  ∃ part id w w' resp video_info rest sn,
    videos_list part id w = (w', inr resp) ∧
    lr_items resp = Some (video_info :: rest) ∧
    rs_snippet video_info = Some sn ∧
    sn_categoryId sn = Some cat.

(** What one run of the body of the item loop does: nothing is printed;
    either [video_details] is as before and the body goes on to the next
    item or raises, or one record that passes the filter is appended and
    the body breaks exactly when the maximum is reached. *)
Definition item_post (max_videos : Z) (target : option string)
    (s s' : state W (list video_record)) (r : result ctrl) : Prop :=
  stdout s' = stdout s ∧
  detail_calls (world s) (world s') ∧
  ((locals s' = locals s ∧ (r = Ok Next ∨ ∃ e, r = Raise e)) ∨
   (∃ rec, locals s' = locals s ++ [rec] ∧
      category_mismatch target (category_id rec) = false ∧
      served (category_id rec) ∧
      r = Ok (if len (locals s ++ [rec]) >=? max_videos then Break else Next))).

(** A record passes the category filter [target]. *)
Definition passes (target : option string) (rec : video_record) : Prop :=
  category_mismatch target (category_id rec) = false ∧ served (category_id rec).

(** What the item loop does to [video_details]. *)
Definition items_post (max_videos : Z) (target : option string)
    (s s' : state W (list video_record)) (r : result unit) : Prop :=
  stdout s' = stdout s ∧
  detail_calls (world s) (world s') ∧
  (∃ added, locals s' = locals s ++ added ∧ Forall (passes target) added) ∧
  (len (locals s) < max_videos → len (locals s') ≤ max_videos) ∧
  (r = Ok tt ∨ ∃ e, r = Raise e).

(** What the page loop does to [video_details]. *)
Definition loop_post (max_videos : Z) (target : option string)
    (s s' : state W (list video_record)) (r : result unit) : Prop :=
  stdout s' = stdout s ∧
  (∃ added, locals s' = locals s ++ added ∧ Forall (passes target) added) ∧
  (len (locals s) ≤ max_videos → len (locals s') ≤ max_videos) ∧
  (max_videos ≤ len (locals s) → s' = s ∧ r = Ok tt).

(** What [fetch_channel_videos] guarantees in every world, with any fuel. *)
Definition fetch_post {L} (max_videos : Z) (category : option string)
    (s s' : state W L) (r : result (list video_record)) : Prop :=
  locals s' = locals s ∧
  (r = OutOfFuel ∨
   ∃ df, r = Ok df ∧ Forall (passes (resolve_category category)) df ∧
         (0 ≤ max_videos → len df ≤ max_videos) ∧
         (max_videos ≤ 0 → df = [])).

End vocabulary.

(** ** Vocabulary of the other statements *)

(** [timedelta(minutes=1, seconds=30)] *)
Definition minute_and_a_half : timedelta :=
  {| td_days := 0; td_seconds := 90; td_microseconds := 0 |}.

(** The candidates only grow. *)
Definition extends {A} (l l' : list A) : Prop := ∃ added, l' = l ++ added.

(** Descending by subscriber count. *)
Definition descending (l : list channel_summary) : Prop :=
  Sorted (λ a b, subscriber_count b ≤ subscriber_count a) l.

(** [x] is the element of [l] at the Python index [i], which is in range. *)
Definition at_index {A} (l : list A) (i : Z) (x : A) : Prop :=
  0 ≤ i < len l ∧ l !! Z.to_nat i = Some x.

(** [item['id']['videoId']], when it is there. *)
Definition item_video_id (item : search_item) : option string :=
  id ← si_id item; videoId id.

(** [int(stats.get(key, 0))], when it does not raise. *)
Definition count_of `{!PyLib} (o : option string) : option Z :=
  match o with
  | Some n => match py_int n with inr z => Some z | inl _ => None end
  | None => Some 0
  end.

(** The stub serves details for the video of [item], and the item and the
    details have every field that the record is built from. *)
Definition complete `{!PyLib} (api : stub) (item : search_item) : bool :=
  bool_decide (is_Some (
    vid ← item_video_id item;
    response ← match st_videos api "statistics,snippet,contentDetails" vid with
               | inr response => Some response
               | inl _ => None
               end;
    items ← lr_items response;
    video_info ← head items;
    vsn ← rs_snippet video_info;
    _ ← sn_categoryId vsn;
    cd ← rs_contentDetails video_info;
    _ ← duration cd;
    isn ← si_snippet item;
    _ ← sn_title isn;
    _ ← sn_description isn;
    _ ← sn_publishedAt isn;
    _ ← sn_thumbnail_high_url isn;
    st ← rs_statistics video_info;
    _ ← count_of (viewCount st);
    _ ← count_of (likeCount st);
    count_of (commentCount st))).

(** What the body of the item loop does on a complete item: the record of
    the item is appended. *)
Definition complete_post (max_videos : Z) (item : search_item)
    (s s' : state (scripted (list Q)) (list video_record)) (r : result ctrl) : Prop :=
  world s' = world s ∧ stdout s' = stdout s ∧
  ∃ rec, locals s' = locals s ++ [rec] ∧
         Some (video_id rec) = item_video_id item ∧
         r = Ok (if len (locals s ++ [rec]) >=? max_videos then Break else Next).

(** A page of a search response. *)
Definition page (items : list search_item) (next_page_token : option string)
    : exn + search_response :=
  inr {| sr_items := Some items; sr_nextPageToken := next_page_token |}.

(** ** Vocabulary of the further properties *)

(** *** Records and the search results they come from *)

(** The id, title, description, publish date and thumbnail of the record
    [rec] are those of the search result [item]. *)
Definition copied_from (item : search_item) (rec : video_record) : Prop :=
  item_video_id item = Some (video_id rec) ∧
  ∃ sn, si_snippet item = Some sn ∧
        sn_title sn = Some (title rec) ∧
        sn_description sn = Some (description rec) ∧
        sn_publishedAt sn = Some (published_at rec) ∧
        sn_thumbnail_high_url sn = Some (thumbnail_url rec).

(** [rec] is a record that [fetch_channel_videos] builds for the search
    result [item] when the channel has [sc] subscribers: besides the
    fields of the item it carries [sc], and as category name what
    [category_names] has for its category id. *)
Definition from_item (sc : Z) (item : search_item) (rec : video_record) : Prop :=
  copied_from item rec ∧
  current_subscriber_count rec = sc ∧
  category_name rec = default "Unknown" (category_names !! category_id rec).

(** The search results that a script of pages holds, in order. *)
Definition script_items (pages : list (exn + search_response)) : list search_item :=
  pages ≫= (λ p, match p with
                 | inr response => default [] (sr_items response)
                 | inl _ => []
                 end).

Section origin_vocabulary.
Context {W : Type} `{!World W} `{!PyLib}.

(** The body of the item loop appends nothing, or the record of its item. *)
Definition origin_post (sc : Z) (item : search_item)
    (s s' : state W (list video_record)) (r : result ctrl) : Prop :=
  stdout s' = stdout s ∧
  detail_calls (world s) (world s') ∧
  (locals s' = locals s ∨
   ∃ rec, locals s' = locals s ++ [rec] ∧ from_item sc item rec).

(** The item loop appends the records of some of its items, in order. *)
Definition origins_post (sc : Z) (items : list search_item)
    (s s' : state W (list video_record)) (r : result unit) : Prop :=
  stdout s' = stdout s ∧
  detail_calls (world s) (world s') ∧
  ∃ sub added, sub `sublist_of` items ∧ Forall2 (from_item sc) sub added ∧
               locals s' = locals s ++ added.
End origin_vocabulary.

Section origin_scripted_vocabulary.
Context {W : Type} `{!World W} `{!PyLib}.

(** The page loop, over a script: the records appended are those of
    some of the search results of the pages it has consumed. *)
Definition pages_origin_post (sc : Z)
    (s s' : state (scripted W) (list video_record)) (r : result unit) : Prop :=
  stdout s' = stdout s ∧
  ∃ consumed sub added,
    script (world s) = consumed ++ script (world s') ∧
    sub `sublist_of` script_items consumed ∧
    Forall2 (from_item sc) sub added ∧
    locals s' = locals s ++ added.
End origin_scripted_vocabulary.

Section subscribers_vocabulary.
Context {W : Type} `{!World W} `{!PyLib}.

(** The platform can answer the statistics request for channel [cid] with
    a first item whose [subscriberCount] reads [sc]. *)
Definition subscribers_served (cid : string) (sc : Z) : Prop :=
  ∃ w w' response ch rest st n,
    channels_list "statistics" cid w = (w', inr response) ∧
    lr_items response = Some (ch :: rest) ∧
    rs_statistics ch = Some st ∧
    subscriberCount st = Some n ∧
    py_int n = inr sc.
End subscribers_vocabulary.

Section origin_function_vocabulary.
Context {W : Type} `{!World W} `{!PyLib}.

(** What a run over a script returns, if it returns: the records of some
    of the search results of the script, in order, all with the subscriber
    count [sc], which is 0 or was served for the channel. *)
Definition origin_function_post (cid : string)
    (pages : list (exn + search_response)) {L}
    (s' : state (scripted W) L) (r : result (list video_record)) : Prop :=
  ∀ df, r = Ok df →
    ∃ sc sub,
      (sc = 0 ∨ subscribers_served (W := W) cid sc) ∧
      sub `sublist_of` script_items pages ∧
      Forall2 (from_item sc) sub df.
End origin_function_vocabulary.

(** [name] is what a record carries as category name when its category id
    is [id]: the name of the table whose id prints as [id], or ["Unknown"]
    when there is none. *)
Definition table_name (id name : string) : Prop :=
  (∃ z, category_ids !! name = Some z ∧ id = pretty z) ∨
  (name = "Unknown" ∧ ∀ c z, category_ids !! c = Some z → id ≠ pretty z).

(** *** A world that records the search calls *)

(** A world that keeps the list of the search calls made so far, each
    request with what the inner world answered. *)
Record recording (W : Type) := Recording {
  calls : list (search_request * (exn + search_response));
  recorded : W }.
Arguments Recording {W} _ _.
Arguments calls {W} _.
Arguments recorded {W} _.

(** A call that the record does not keep: it goes to the inner world. *)
Definition on_recorded {W A} (f : W → W * A) (w : recording W) : recording W * A :=
  let (i', a) := f (recorded w) in (Recording (calls w) i', a).

#[global] Instance recording_world {W} `{!World W} : World (recording W) := {|
  search_list rq w :=
    let (i', r) := search_list rq (recorded w) in
    (Recording (calls w ++ [(rq, r)]) i', r);
  videos_list part id := on_recorded (videos_list part id);
  channels_list part id := on_recorded (channels_list part id);
  commentThreads_list part videoId maxResults :=
    on_recorded (commentThreads_list part videoId maxResults);
  videoCategories_list part region := on_recorded (videoCategories_list part region);
  datetime_now := on_recorded datetime_now;
  standard_normal := on_recorded standard_normal |}.

(** A request of the page loop of [fetch_channel_videos]: videos of the
    channel, newest first, within the window, between 1 and 50 of them and
    no more than the maximum. *)
Definition video_request (cid pa pb : string) (max_videos : Z)
    (rq : search_request) : Prop :=
  rq_part rq = "id,snippet" ∧ rq_type rq = "video" ∧
  rq_channelId rq = Some cid ∧ rq_order rq = Some "date" ∧
  rq_publishedAfter rq = Some pa ∧ rq_publishedBefore rq = Some pb ∧
  rq_q rq = None ∧ rq_regionCode rq = None ∧ rq_videoCategoryId rq = None ∧
  1 ≤ rq_maxResults rq ≤ 50 ∧ rq_maxResults rq ≤ max_videos.

(** The calls follow the continuation tokens: the first carries [tok], and
    a call is followed by another only if it was answered with a
    non-empty token, which the next call carries. *)
Fixpoint chained (tok : option string)
    (log : list (search_request * (exn + search_response))) : Prop :=
  match log with
  | [] => True
  | (rq, r) :: rest =>
      rq_pageToken rq = tok ∧
      (rest = [] ∨
       ∃ response, r = inr response ∧
                   truthy (sr_nextPageToken response) = true ∧
                   chained (sr_nextPageToken response) rest)
  end.

Section requests_vocabulary.
Context {W : Type} `{!World W} `{!PyLib}.

(** The bound of the date window that the requests carry: the date given,
    or else one taken from a reading of the clock. *)
Definition window_bound (date : option Z) (back : Z) (bound : string) : Prop :=
  match date with
  | Some d => bound = isoformat d +:+ "Z"
  | None => ∃ w w' now, datetime_now (W := W) w = (w', now) ∧
                        bound = isoformat (now - back) +:+ "Z"
  end.

(** What the page loop adds to the recorded calls. *)
Definition requests_post (fuel : nat) (cid pa pb : string) (max_videos : Z)
    (tok : option string)
    (s s' : state (recording W) (list video_record)) (r : result unit) : Prop :=
  ∃ new,
    calls (world s') = calls (world s) ++ new ∧
    Forall (video_request cid pa pb max_videos) new.*1 ∧
    chained tok new ∧
    (length new ≤ fuel)%nat ∧
    (max_videos ≤ len (locals s) → new = [] ∧ r = Ok tt).

(** What a run of [fetch_channel_videos] adds to the recorded calls. *)
Definition fetch_requests_post {L} (fuel : nat) (cid : string)
    (sd ed : option Z) (max_videos : Z)
    (s s' : state (recording W) L) (r : result (list video_record)) : Prop :=
  ∃ new pa pb,
    calls (world s') = calls (world s) ++ new ∧
    window_bound sd days_365 pa ∧ window_bound ed 0 pb ∧
    Forall (video_request cid pa pb max_videos) new.*1 ∧
    chained None new ∧
    (length new ≤ fuel)%nat ∧
    (max_videos ≤ 0 → new = [] ∧ r = Ok []).
End requests_vocabulary.

(** *** Entries of the directory functions *)

(** The id and title of an item of the category listing, when it has
    both. *)
Definition category_entry (category : resource) : option (string * string) :=
  sn ← rs_snippet category; t ← sn_title sn; id ← rs_id category; Some (id, t).

(** The channel, title and description of a search result, when it has
    all three. *)
Definition hit_of (item : search_item) : option channel_hit :=
  sn ← si_snippet item;
  cid ← sn_channelId sn;
  t ← sn_title sn;
  d ← sn_description sn;
  Some {| ch_channel_id := cid; ch_channel_title := t; ch_description := d |}.

(** The dictionary that assigning the entries in order builds: a later
    entry overrides an earlier one with the same key. *)
Definition assigned (entries : list (string * string)) : gmap string string :=
  list_to_map (reverse entries).

(** *** Entries of [get_top_channels_by_category] *)

(** The search request of one page of [get_top_channels_by_category]. *)
Definition top_channels_request (category_id : Z)
    (next_page_token : option string) : search_request :=
  {| rq_part := "snippet"; rq_q := None; rq_type := "channel";
     rq_channelId := None; rq_order := Some "viewCount"; rq_maxResults := 50;
     rq_publishedAfter := None; rq_publishedBefore := None;
     rq_pageToken := next_page_token; rq_regionCode := None;
     rq_videoCategoryId := Some (pretty category_id) |}.

(** [item['snippet']['channelId']], when it is there. *)
Definition hit_channel_id (item : search_item) : option string :=
  sn ← si_snippet item; sn_channelId sn.

(** [int(s)], when it does not raise. *)
Definition int_value `{!PyLib} (s : string) : option Z :=
  match py_int s with inr z => Some z | inl _ => None end.

(** The entry that [get_top_channels_by_category] builds from a channel of
    the listing, when the channel has every field and its counts are
    numerals. *)
Definition summary_of `{!PyLib} (channel : resource) : option channel_summary :=
  id ← rs_id channel;
  sn ← rs_snippet channel;
  t ← sn_title sn;
  st ← rs_statistics channel;
  sc ← subscriberCount st;
  sc ← int_value sc;
  vc ← videoCount st;
  vc ← int_value vc;
  wc ← viewCount st;
  wc ← int_value wc;
  Some {| cs_channel_id := id; cs_title := t; subscriber_count := sc;
          video_count := vc; view_count := wc |}.

(** *** Printed lines *)

(** [after] is [before] followed by one line for each of [headers], in
    order: the header followed by the text of an error. *)
Definition printed (before after : list string) (headers : list string) : Prop :=
  ∃ lines, after = before ++ lines ∧
           Forall2 (λ line header, ∃ e, line = header +:+ str_exn e)
                   lines headers.

(** A search request of [get_top_channels_by_category] for the category
    [category_id]. *)
Definition top_request (category_id : Z) (rq : search_request) : Prop :=
  ∃ tok, rq = top_channels_request category_id tok.

(** ** A stubbed channel to run the code on *)

#[local] Existing Instance reference_lib.

(** The [n]-th video of the channel, as a search result. *)
Definition demo_item (n : nat) : search_item :=
  {| si_id := Some {| videoId := Some ("v" +:+ pretty n); channelId := None |};
     si_snippet := Some
       {| sn_channelId := Some "UC1"; sn_title := Some ("video " +:+ pretty n);
          sn_description := Some "";
          sn_publishedAt := Some "2024-01-01T00:00:00Z";
          sn_thumbnail_high_url := Some "https://i.ytimg.com/hq.jpg";
          sn_categoryId := None; sn_tags := None;
          sn_defaultLanguage := None; sn_defaultAudioLanguage := None |} |}.

(** The details of a video. *)
Definition demo_details : resource :=
  {| rs_id := None;
     rs_snippet := Some
       {| sn_channelId := None; sn_title := None; sn_description := None;
          sn_publishedAt := None; sn_thumbnail_high_url := None;
          sn_categoryId := Some "20"; sn_tags := None;
          sn_defaultLanguage := Some "en"; sn_defaultAudioLanguage := None |};
     rs_statistics := Some
       {| viewCount := Some "100"; likeCount := Some "7"; commentCount := None;
          subscriberCount := None; videoCount := None |};
     rs_contentDetails := Some {| duration := Some "PT1M30S" |} |}.

(** The statistics of a channel. *)
Definition demo_channel (id subscribers : string) : resource :=
  {| rs_id := Some id;
     rs_snippet := Some
       {| sn_channelId := None; sn_title := Some ("channel " +:+ id);
          sn_description := None; sn_publishedAt := None;
          sn_thumbnail_high_url := None; sn_categoryId := None;
          sn_tags := None; sn_defaultLanguage := None;
          sn_defaultAudioLanguage := None |};
     rs_statistics := Some
       {| viewCount := Some "5000"; likeCount := None; commentCount := None;
          subscriberCount := Some subscribers; videoCount := Some "12" |};
     rs_contentDetails := None |}.

(** A channel, as a search result. *)
Definition demo_hit (id : string) : search_item :=
  {| si_id := None;
     si_snippet := Some
       {| sn_channelId := Some id; sn_title := None; sn_description := None;
          sn_publishedAt := None; sn_thumbnail_high_url := None;
          sn_categoryId := None; sn_tags := None; sn_defaultLanguage := None;
          sn_defaultAudioLanguage := None |} |}.

(** Every video is a gaming video with complete details; a search finds
    five channels on one page, and the channel listing gives their
    statistics (10 subscribers for the first); the category listing is
    over quota. *)
Definition demo_api : stub :=
  {| st_search := λ _,
       inr {| sr_items := Some (map demo_hit ["a"; "b"; "c"; "d"; "e"]);
              sr_nextPageToken := None |};
     st_videos := λ _ _, inr {| lr_items := Some [demo_details] |};
     st_channels := λ _ _,
       inr {| lr_items := Some
                [ demo_channel "a" "10"; demo_channel "b" "50";
                  demo_channel "c" "30"; demo_channel "d" "40";
                  demo_channel "e" "20" ] |};
     st_comments := λ _, inr tt;
     st_categories := λ _ _, inl (HttpError "quotaExceeded");
     st_now := 1700000000000000 |}.

(** The page of the videos [from], ..., [from + n - 1]. *)
Definition demo_page (from n : nat) (tok : option string) : exn + search_response :=
  page (map demo_item (seq from n)) tok.

(** Pages of 50, 50 and 10 videos. *)
Definition three_pages : list (exn + search_response) :=
  [ demo_page 0 50 (Some "CDIQAA"); demo_page 50 50 (Some "CGQQAA");
    demo_page 100 10 None ].

(** One page of one video. *)
Definition one_page : list (exn + search_response) := [ demo_page 0 1 None ].


(** The state before a run: the script, nothing drawn, nothing printed. *)
Definition start {L} (pages : list (exn + search_response)) (l : L)
    : state (scripted (list Q)) L :=
  State (Scripted pages []) [] l.

(** A run of [fetch_channel_videos] on the stubbed channel. *)
Definition demo_fetch (fuel : nat) (max_videos : Z) (category : option string)
    (pages : list (exn + search_response))
    : state (scripted (list Q)) unit * result (list video_record) :=
  fetch_channel_videos (World0 := mock_world demo_api) fuel "UC1" (Some 0) (Some 1)
    max_videos category (start pages tt).



(** The candidates that the page loop gathers from the stub. *)
Definition gathered (sample_size : Z) (normals : list Q)
    : state (list Q) (list channel_summary) :=
  (channel_loop (World0 := stub_world demo_api) 2 20 sample_size None
     (State normals [] [])).1.

(** Draws of the random generator. *)
Definition demo_normals : list Q := [(1 # 2)%Q; (-1 # 1)%Q; (3 # 1)%Q; (7 # 10)%Q].

(** ** A stubbed directory to run the other functions on *)

(** An item of the category listing. *)
Definition demo_category (id : string) (title : option string) : resource :=
  {| rs_id := Some id;
     rs_snippet := Some
       {| sn_channelId := None; sn_title := title; sn_description := None;
          sn_publishedAt := None; sn_thumbnail_high_url := None;
          sn_categoryId := None; sn_tags := None; sn_defaultLanguage := None;
          sn_defaultAudioLanguage := None |};
     rs_statistics := None;
     rs_contentDetails := None |}.

(** A channel, as a result of the search by category. *)
Definition demo_listed (id : string) (description : option string) : search_item :=
  {| si_id := None;
     si_snippet := Some
       {| sn_channelId := Some id; sn_title := Some ("channel " +:+ id);
          sn_description := description; sn_publishedAt := None;
          sn_thumbnail_high_url := None; sn_categoryId := None;
          sn_tags := None; sn_defaultLanguage := None;
          sn_defaultAudioLanguage := None |} |}.

(** A channel that hides its subscriber count. *)
Definition hidden_channel (id : string) : resource :=
  {| rs_id := Some id;
     rs_snippet := Some
       {| sn_channelId := None; sn_title := Some ("channel " +:+ id);
          sn_description := None; sn_publishedAt := None;
          sn_thumbnail_high_url := None; sn_categoryId := None;
          sn_tags := None; sn_defaultLanguage := None;
          sn_defaultAudioLanguage := None |};
     rs_statistics := Some
       {| viewCount := Some "5000"; likeCount := None; commentCount := None;
          subscriberCount := None; videoCount := Some "12" |};
     rs_contentDetails := None |}.

(** A search in category 20 finds two channels with all their fields, and
    names a next page; any other search finds three, the second without a
    description.  The channel listing has four channels, the third with a
    hidden subscriber count.  The category listing of the region US has
    two categories; that of any other region has three, the second
    without a title. *)
Definition directory_api : stub :=
  {| st_search := λ rq,
       inr {| sr_items := Some
                (if bool_decide (rq_videoCategoryId rq = Some "20")
                 then [ demo_listed "a" (Some "first"); demo_listed "b" (Some "") ]
                 else [ demo_listed "a" (Some "first"); demo_listed "b" None;
                        demo_listed "c" (Some "third") ]);
              sr_nextPageToken := Some "CDIQAA" |};
     st_videos := λ _ _, inl (HttpError "notFound");
     st_channels := λ _ _,
       inr {| lr_items := Some
                [ demo_channel "a" "10"; demo_channel "b" "50";
                  hidden_channel "c"; demo_channel "d" "40" ] |};
     st_comments := λ _, inr tt;
     st_categories := λ _ region,
       inr {| lr_items := Some
                (if String.eqb region "US"
                 then [ demo_category "1" (Some "Film & Animation");
                        demo_category "20" (Some "Gaming") ]
                 else [ demo_category "1" (Some "Film & Animation");
                        demo_category "2" None;
                        demo_category "20" (Some "Gaming") ]) |};
     st_now := 0 |}.

(** The entries of the category listing of the region US. *)
Definition demo_entries : list (string * string) :=
  [ ("1", "Film & Animation"); ("20", "Gaming") ].

(** The entry of a channel of the search by category. *)
Definition demo_listing (id description : string) : channel_hit :=
  {| ch_channel_id := id; ch_channel_title := "channel " +:+ id;
     ch_description := description |}.

(** The entry of a channel of the channel listing. *)
Definition demo_summary (id : string) (subscribers : Z) : channel_summary :=
  {| cs_channel_id := id; cs_title := "channel " +:+ id;
     subscriber_count := subscribers; video_count := 12; view_count := 5000 |}.

(** The entries of the five channels of [demo_api]. *)
Definition demo_summaries : list channel_summary :=
  [ demo_summary "a" 10; demo_summary "b" 50; demo_summary "c" 30;
    demo_summary "d" 40; demo_summary "e" 20 ].

(** One page of five channels. *)
Definition channel_pages : list (exn + search_response) :=
  [ page (map demo_hit ["a"; "b"; "c"; "d"; "e"]) None ].

(** The state before a run in the recording world: nothing called,
    nothing drawn, nothing printed. *)
Definition recording_start {L} (l : L) : state (recording (list Q)) L :=
  State (Recording [] []) [] l.

(** * Proofs *)

(** ** Rules for weakest preconditions *)

Section wp.
Context {W L : Type}.

Lemma wp_mono {A} (m : M W L A) (Q Q' : state W L → result A → Prop) (s : state W L) :
  wp m Q s → (∀ s' r, Q s' r → Q' s' r) → wp m Q' s.
Proof. unfold wp. auto. Qed.

Lemma wp_ret {A} (a : A) Q (s : state W L) : Q s (Ok a) → wp (mret a) Q s.
Proof. done. Qed.

Lemma wp_bind {A B} (m : M W L A) (k : A → M W L B) Q (s : state W L) :
  wp m (then_wp k Q) s → wp (m ≫= k) Q s.
Proof.
  unfold wp, then_wp, mbind, M_bind, bind.
  by destruct (m s) as [s' [a|e|]].
Qed.

Lemma wp_raise {A} e (Q : state W L → result A → Prop) (s : state W L) :
  Q s (Raise e) → wp (raise e) Q s.
Proof. done. Qed.

Lemma wp_out_of_fuel {A} (Q : state W L → result A → Prop) (s : state W L) :
  Q s OutOfFuel → wp out_of_fuel Q s.
Proof. done. Qed.

Lemma wp_try_except {A} (body : M W L A) handler Q (s : state W L) :
  wp body (catch_wp handler Q) s → wp (try_except body handler) Q s.
Proof.
  unfold wp, catch_wp, try_except.
  by destruct (body s) as [s' [a|e|]].
Qed.

Lemma wp_print line (Q : state W L → result unit → Prop) (s : state W L) :
  Q (State (world s) (stdout s ++ [line]) (locals s)) (Ok tt) →
  wp (print line) Q s.
Proof. done. Qed.

Lemma wp_call {A} (f : W → W * (exn + A)) Q (s : state W L) :
  (∀ w' e, f (world s) = (w', inl e) →
     Q (State w' (stdout s) (locals s)) (Raise e)) →
  (∀ w' a, f (world s) = (w', inr a) →
     Q (State w' (stdout s) (locals s)) (Ok a)) →
  wp (call f) Q s.
Proof.
  unfold wp, call. intros He Ha.
  destruct (f (world s)) as [w' [e|a]]; simpl; eauto.
Qed.

Lemma wp_ask {A} (f : W → W * A) Q (s : state W L) :
  (∀ w' a, f (world s) = (w', a) →
     Q (State w' (stdout s) (locals s)) (Ok a)) →
  wp (ask f) Q s.
Proof.
  unfold wp, ask. intros Ha.
  destruct (f (world s)) as [w' a]; simpl; eauto.
Qed.

Lemma wp_lift {A} (x : exn + A) Q (s : state W L) :
  (∀ e, x = inl e → Q s (Raise e)) →
  (∀ a, x = inr a → Q s (Ok a)) →
  wp (lift x) Q s.
Proof. destruct x; unfold wp; simpl; eauto. Qed.

Lemma wp_get_locals (Q : state W L → result L → Prop) (s : state W L) :
  Q s (Ok (locals s)) → wp get_locals Q s.
Proof. done. Qed.

Lemma wp_set_locals l (Q : state W L → result unit → Prop) (s : state W L) :
  Q (State (world s) (stdout s) l) (Ok tt) → wp (set_locals l) Q s.
Proof. done. Qed.

Lemma wp_getitem {A} key (o : option A) Q (s : state W L) :
  (o = None → Q s (Raise (KeyError key))) →
  (∀ a, o = Some a → Q s (Ok a)) →
  wp (getitem key o) Q s.
Proof. destruct o; unfold wp; simpl; eauto. Qed.

Lemma wp_first {A} (l : list A) Q (s : state W L) :
  (l = [] → Q s (Raise (IndexError "list index out of range"))) →
  (∀ a l', l = a :: l' → Q s (Ok a)) →
  wp (first l) Q s.
Proof. destruct l; unfold wp; simpl; eauto. Qed.
End wp.

Lemma wp_frame {W L L' A} (init : L') (body : M W L' A)
    (Q : state W L → result A → Prop) s :
  wp body (λ s' r, Q (State (world s') (stdout s') (locals s)) r)
     (State (world s) (stdout s) init) →
  wp (frame init body) Q s.
Proof.
  unfold wp, frame.
  by destruct (body (State (world s) (stdout s) init)) as [s' r].
Qed.

(** One step of symbolic execution. *)
Ltac wp_step :=
  lazymatch goal with
  | |- wp (mret _) _ _ => apply wp_ret
  | |- wp (_ ≫= _) _ _ => apply wp_bind
  | |- wp (raise _) _ _ => apply wp_raise
  | |- wp out_of_fuel _ _ => apply wp_out_of_fuel
  | |- wp (try_except _ _) _ _ => apply wp_try_except
  | |- wp (print _) _ _ => apply wp_print
  | |- wp (call _) _ _ => apply wp_call; intros ? ? ?
  | |- wp (ask _) _ _ => apply wp_ask; intros ? ? ?
  | |- wp (lift _) _ _ => apply wp_lift; intros ? ?
  | |- wp get_locals _ _ => apply wp_get_locals
  | |- wp (set_locals _) _ _ => apply wp_set_locals
  | |- wp (getitem _ _) _ _ => apply wp_getitem; [intros ?|intros ? ?]
  | |- wp (first _) _ _ => apply wp_first; [intros ?|intros ? ? ?]
  | |- wp (frame _ _) _ _ => apply wp_frame
  | |- wp (match ?x with _ => _ end) _ _ => destruct x eqn:?
  | |- then_wp _ _ _ _ => unfold then_wp at 1
  | |- catch_wp _ _ _ _ => unfold catch_wp at 1
  end; cbn [world stdout locals] in *.

Ltac wp_go := repeat wp_step.

Arguments category_ids : simpl never.
Arguments category_names : simpl never.

(** ** The page loop of [fetch_channel_videos] *)

Section item.
Context {W : Type} `{!World W} `{!PyLib}.

Ltac solve_calls :=
  repeat first
    [ apply dc_refl
    | eapply dc_videos; [eassumption|]
    | eapply dc_comments; [eassumption|] ].

Lemma fetch_item_cases max_videos target sc item s :
  wp (fetch_item max_videos target sc item) (item_post max_videos target s) s.
Proof.
  unfold fetch_item, _parse_duration, int_get.
  wp_go.
  all: unfold item_post; cbn [world stdout locals].
  all: (split; [reflexivity|split; [solve_calls|]]).
  all: first
    [ left; split; [reflexivity|]; first [by left | by right; eexists]
    | right; eexists; split; [reflexivity|]; cbn [category_id];
      split; [assumption|];
      split; [subst; unfold served; do 8 eexists; repeat split; eassumption|];
      match goal with Hge : (_ >=? _) = _ |- _ => by rewrite Hge end ].
Qed.

Lemma detail_calls_trans w1 w2 w3 :
  detail_calls w1 w2 → detail_calls w2 w3 → detail_calls w1 w3.
Proof. induction 1; eauto using detail_calls. Qed.

Lemma len_app {A} (l k : list A) : len (l ++ k) = len l + len k.
Proof. unfold len. rewrite length_app. lia. Qed.

Lemma for_each_fetch_item max_videos target sc items s :
  wp (for_each (fetch_item max_videos target sc) items)
     (items_post max_videos target s) s.
Proof.
  revert s. induction items as [|item items IH]; intros s; cbn [for_each].
  { apply wp_ret. split_and!; eauto using detail_calls; [|lia].
    exists []. by rewrite app_nil_r. }
  apply wp_bind. eapply wp_mono; [apply fetch_item_cases|].
  intros s1 r1 (Hout & Hcalls & Hcase). unfold then_wp.
  destruct Hcase as [[Hl [->|[e ->]]] | (rec & Hl & Hm & Hsv & ->)].
  - eapply wp_mono; [apply IH|].
    intros s2 r2 (Hout2 & Hcalls2 & (added & Hadd & Hpass) & Hlen & Hr).
    split_and!; eauto using detail_calls_trans; try congruence.
    + exists added. split; [congruence|done].
    + rewrite <- Hl. done.
  - split_and!; eauto.
    + exists []. by rewrite app_nil_r.
    + rewrite Hl. lia.
  - destruct (len (locals s ++ [rec]) >=? max_videos) eqn:Hge.
    + apply wp_ret. split_and!; eauto.
      * exists [rec]. split; [done|]. by repeat constructor.
      * rewrite Hl, len_app. change (len [rec]) with 1. lia.
    + eapply wp_mono; [apply IH|].
      intros s2 r2 (Hout2 & Hcalls2 & (added & Hadd & Hpass) & Hlen & Hr).
      split_and!; eauto using detail_calls_trans; try congruence.
      * exists (rec :: added). split.
        -- rewrite Hadd, Hl, <- app_assoc. done.
        -- by repeat constructor.
      * intros _. apply Hlen. rewrite Hl. lia.
Qed.

Ltac post_triv :=
  unfold loop_post; cbn [world stdout locals];
  split_and!; try lia; try (exists []; by rewrite app_nil_r); eauto.

Lemma page_loop_post fuel cid pa pb max_videos target sc tok s :
  wp (page_loop fuel cid pa pb max_videos target sc tok)
     (loop_post max_videos target s) s.
Proof.
  revert tok s. induction fuel as [|fuel IH]; intros tok s; cbn [page_loop].
  - wp_go; post_triv.
  - apply wp_bind, wp_get_locals. unfold then_wp.
    destruct (len (locals s) <? max_videos) eqn:Hlt; [|apply wp_ret; post_triv].
    apply Z.ltb_lt in Hlt.
    apply wp_bind, wp_call; intros w' x Hcall; unfold then_wp; [post_triv|].
    apply wp_bind. eapply wp_mono; [apply for_each_fetch_item|].
    intros s1 r1 (Hout & Hcalls & (added & Hadd & Hpass) & Hlen & Hr).
    cbn [world stdout locals] in *.
    destruct Hr as [->|[e ->]]; cbn; [|post_triv].
    destruct (truthy (sr_nextPageToken x)); [|apply wp_ret; post_triv].
    eapply wp_mono; [apply IH|].
    intros s2 r2 (Hout2 & (added2 & Hadd2 & Hpass2) & Hlen2 & _).
    post_triv; try congruence.
    exists (added ++ added2). split.
    + by rewrite Hadd2, Hadd, <- app_assoc.
    + by apply Forall_app.
Qed.
End item.

(** ** From weakest preconditions to runs *)

Lemma wp_and {W L A} (m : M W L A) (Q1 Q2 : state W L → result A → Prop) s :
  wp m Q1 s → wp m Q2 s → wp m (λ s' r, Q1 s' r ∧ Q2 s' r) s.
Proof. unfold wp. auto. Qed.

Lemma wp_exists {W L A} (m : M W L A) (Q : state W L → result A → Prop) s :
  wp m Q s → ∃ s' r, m s = (s', r) ∧ Q s' r.
Proof. unfold wp. intros HQ. exists (m s).1, (m s).2. by destruct (m s). Qed.

Lemma wp_returns {W L A} (m : M W L A) (P : state W L → A → Prop) s :
  wp m (λ s' r, ∃ a, r = Ok a ∧ P s' a) s →
  ∃ s' a, m s = (s', Ok a) ∧ P s' a.
Proof.
  intros (s' & r & Hrun & a & -> & HP)%wp_exists. by exists s', a.
Qed.

(** ** The resolved filter id *)

Lemma pretty_N_go_nonempty x s : s ≠ "" → pretty_N_go x s ≠ "".
Proof.
  revert s. induction (N.lt_wf_0 x) as [x _ IH]; intros s Hs.
  destruct (decide (x = 0)%N) as [->|Hx]; [by rewrite pretty_N_go_0|].
  rewrite pretty_N_go_step by lia.
  apply IH; [apply N.div_lt; lia|done].
Qed.

Lemma pretty_positive_nonempty (p : positive) : pretty p ≠ "".
Proof.
  unfold pretty, pretty_positive, pretty, pretty_N.
  case_decide; [done|].
  rewrite pretty_N_go_step by lia. by apply pretty_N_go_nonempty.
Qed.

Lemma py_str_nonempty o : py_str o ≠ "".
Proof.
  destruct o as [[|p|p]|]; unfold py_str, pretty, pretty_Z;
    [done|apply pretty_positive_nonempty|done|done].
Qed.

Lemma truthy_Some s : s ≠ "" → truthy (Some s) = true.
Proof.
  intros Hs. unfold truthy. destruct (String.eqb_spec s ""); done.
Qed.

Lemma resolve_category_Some c :
  c ≠ "" → resolve_category (Some c) = Some (py_str (category_ids !! c)).
Proof. intros Hc. unfold resolve_category. by rewrite truthy_Some. Qed.

(** ** [fetch_channel_videos] in every world *)

Section fetch.
Context {W : Type} `{!World W} `{!PyLib}.

Lemma passes_Some t rec : t ≠ "" → passes (Some t) rec → category_id rec = t.
Proof.
  unfold passes, category_mismatch. intros Ht [Hm _]. revert Hm.
  rewrite truthy_Some by done.
  simpl. by intros ?%negb_false_iff%bool_decide_eq_true.
Qed.

Lemma fetch_setup_ok {L} cid sd ed (s : state W L) :
  wp (fetch_setup cid sd ed) (λ s' r, locals s' = locals s ∧ ∃ x, r = Ok x) s.
Proof. unfold fetch_setup. wp_go; eauto. Qed.

Lemma fetch_channel_videos_post {L} fuel cid sd ed max_videos category (s : state W L) :
  wp (fetch_channel_videos fuel cid sd ed max_videos category)
     (fetch_post max_videos category s) s.
Proof.
  unfold fetch_channel_videos. apply wp_frame, wp_bind.
  eapply wp_mono; [apply fetch_setup_ok|].
  intros s1 r1 [Hl [[[pa pb] sc] ->]]. cbn [locals then_wp] in *.
  apply wp_bind, wp_try_except.
  eapply wp_mono; [apply page_loop_post|].
  intros s2 r2 (_ & (added & Hadd & Hpass) & Hlen & Hstay).
  rewrite Hl in *. cbn [app] in *. unfold len in Hlen, Hstay. cbn in Hlen, Hstay.
  assert (Hfinal : ∀ out, fetch_post max_videos category s
            (State (world s2) out (locals s)) (Ok (locals s2))).
  { intros out. split; [done|]. right. exists (locals s2).
    rewrite Hadd. repeat split; try done.
    - rewrite <- Hadd. done.
    - intros Hneg. destruct (Hstay Hneg) as [Hs _].
      rewrite <- Hadd, Hs, Hl. done. }
  destruct r2 as [[]|e|]; cbn [catch_wp then_wp].
  - wp_go. destruct s2. apply Hfinal.
  - wp_go. apply Hfinal.
  - split; [done|by left].
Qed.

End fetch.

(** ** [fetch_channel_videos] over a finite script of pages *)

Section scripted.
Context {W : Type} `{!World W} `{!PyLib}.

Lemma on_inner_script {A} (f : W → W * A) w w' a :
  on_inner f w = (w', a) → script w' = script w.
Proof. unfold on_inner. destruct (f (inner w)). by intros [= <- _]. Qed.

Lemma detail_calls_script (w w' : scripted W) :
  detail_calls w w' → script w' = script w.
Proof.
  induction 1 as [|part id w w' r w'' Hcall _ IH|part id n w w' r w'' Hcall _ IH];
    [done|..]; rewrite IH; exact (on_inner_script _ _ _ _ Hcall).
Qed.

Lemma search_list_script rq (w w' : scripted W) r :
  search_list rq w = (w', r) →
  (length (script w') < length (script w))%nat ∨ (∃ e, r = inl e).
Proof.
  cbn. destruct (script w) as [|page pages] eqn:Hs; intros [= <- <-].
  - right. eauto.
  - left. cbn. lia.
Qed.

Lemma fetch_setup_script {L} cid sd ed (s : state (scripted W) L) :
  wp (fetch_setup cid sd ed)
     (λ s' _, script (world s') = script (world s)) s.
Proof.
  unfold fetch_setup. wp_go.
  all: repeat match goal with
         | Hc : _ = (_, _) |- _ => apply on_inner_script in Hc
         end.
  all: congruence.
Qed.

Lemma page_loop_scripted fuel cid pa pb max_videos target sc tok
    (s : state (scripted W) (list video_record)) :
  (length (script (world s)) < fuel)%nat →
  wp (page_loop fuel cid pa pb max_videos target sc tok)
     (λ _ r, r ≠ OutOfFuel) s.
Proof.
  revert tok s. induction fuel as [|fuel IH]; intros tok s Hfuel; [lia|].
  cbn [page_loop]. apply wp_bind, wp_get_locals. unfold then_wp.
  destruct (_ <? _); [|by apply wp_ret].
  apply wp_bind, wp_call; intros w' x Hcall; unfold then_wp; [done|].
  apply search_list_script in Hcall as [Hcall|[? [=]]].
  apply wp_bind. eapply wp_mono; [apply for_each_fetch_item|].
  intros s1 r1 (_ & Hcalls%detail_calls_script & _ & _ & Hr).
  cbn [world] in Hcalls.
  destruct Hr as [->|[e ->]]; cbn; [|done].
  destruct (truthy _); [|by apply wp_ret].
  apply IH. rewrite Hcalls. lia.
Qed.

Lemma fetch_channel_videos_scripted {L} fuel cid sd ed max_videos category
    (s : state (scripted W) L) :
  (length (script (world s)) < fuel)%nat →
  wp (fetch_channel_videos fuel cid sd ed max_videos category)
     (λ _ r, r ≠ OutOfFuel) s.
Proof.
  intros Hfuel. unfold fetch_channel_videos. apply wp_frame, wp_bind.
  eapply wp_mono; [apply wp_and; [apply fetch_setup_ok|apply fetch_setup_script]|].
  intros s1 r1 [[_ [[[pa pb] sc] ->]] Hscript]. cbn [world then_wp] in *.
  apply wp_bind, wp_try_except.
  eapply wp_mono; [apply page_loop_scripted; by rewrite Hscript|].
  intros s2 [[]|e|] Hr; [| |done]; cbn [catch_wp then_wp]; by wp_go.
Qed.

Lemma served_scripted cat : served (W := scripted W) cat → served (W := W) cat.
Proof.
  intros (part & id & w & w' & resp & vi & rest & sn & Hcall & Hrest).
  cbn in Hcall. unfold on_inner in Hcall.
  destruct (videos_list part id (inner w)) as [i' r] eqn:Hinner.
  injection Hcall as _ ->.
  by exists part, id, (inner w), i', resp, vi, rest, sn.
Qed.

Lemma passes_scripted target rec :
  passes (W := scripted W) target rec → passes (W := W) target rec.
Proof. intros [? ?%served_scripted]. by split. Qed.

(** In a scripted world a run returns, and what it returns is what
    [fetch_post] says. *)
Lemma fetch_channel_videos_returns {L} pages (w : W) out (l : L)
    cid sd ed max_videos category :
  ∃ s' df,
    fetch_channel_videos (S (length pages)) cid sd ed max_videos category
      (State (Scripted pages w) out l) = (s', Ok df) ∧
    Forall (passes (W := W) (resolve_category category)) df ∧
    (0 ≤ max_videos → len df ≤ max_videos) ∧
    (max_videos ≤ 0 → df = []).
Proof.
  destruct (wp_exists _ _ _
    (wp_and _ _ _ _
       (fetch_channel_videos_post (S (length pages)) cid sd ed max_videos category
          (State (Scripted pages w) out l))
       (fetch_channel_videos_scripted (S (length pages)) cid sd ed max_videos
          category (State (Scripted pages w) out l) ltac:(cbn; lia))))
    as (s' & r & Hrun & [_ [->|(df & -> & Hpass & Hdf)]] & Hr);
    [by destruct Hr|].
  exists s', df. split_and!; [exact Hrun| |apply Hdf..].
  eapply Forall_impl; [exact Hpass|]. apply passes_scripted.
Qed.

(** C1. For every requested maximum and every sequence of page responses
    (and whatever the other endpoints answer), [fetch_channel_videos]
    returns, and returns at most [max_videos] records. *)
Theorem fetch_channel_videos_at_most_max {L} pages (w : W) out (l : L)
    cid sd ed max_videos category :
  0 ≤ max_videos →
  ∃ s' df,
    fetch_channel_videos (S (length pages)) cid sd ed max_videos category
      (State (Scripted pages w) out l) = (s', Ok df) ∧
    len df ≤ max_videos.
Proof.
  intros Hmax.
  destruct (fetch_channel_videos_returns pages w out l cid sd ed max_videos category)
    as (s' & df & Hrun & _ & Hlen & _).
  exists s', df. auto.
Qed.

(** C3 (amended). With a non-empty category argument, every returned
    record carries the filter id resolved from the category table. *)
Theorem fetch_channel_videos_category_filter {L} pages (w : W) out (l : L)
    cid sd ed max_videos c :
  c ≠ "" →
  ∃ s' df,
    fetch_channel_videos (S (length pages)) cid sd ed max_videos (Some c)
      (State (Scripted pages w) out l) = (s', Ok df) ∧
    resolve_category (Some c) = Some (py_str (category_ids !! c)) ∧
    ∀ rec, rec ∈ df → category_id rec = py_str (category_ids !! c).
Proof.
  intros Hc.
  destruct (fetch_channel_videos_returns pages w out l cid sd ed max_videos (Some c))
    as (s' & df & Hrun & Hpass & _).
  exists s', df. split_and!; [done|by apply resolve_category_Some|].
  rewrite resolve_category_Some in Hpass by done.
  intros rec Hrec. rewrite Forall_forall in Hpass.
  eapply passes_Some; [apply py_str_nonempty|]. by apply Hpass.
Qed.

(** C10 (amended). A non-empty category name that is not in the table
    resolves to the filter id ["None"]; as long as the platform serves no
    video whose category id is that string, every video is skipped and
    the result is empty. *)
Theorem fetch_channel_videos_unknown_category {L} pages (w : W) out (l : L)
    cid sd ed max_videos c :
  c ≠ "" →
  category_ids !! c = None →
  ¬ served (W := W) "None" →
  resolve_category (Some c) = Some "None" ∧
  ∃ s',
    fetch_channel_videos (S (length pages)) cid sd ed max_videos (Some c)
      (State (Scripted pages w) out l) = (s', Ok []).
Proof.
  intros Hc Hnone Hserved.
  assert (Hres : resolve_category (Some c) = Some "None").
  { rewrite resolve_category_Some by done. by rewrite Hnone. }
  split; [done|].
  destruct (fetch_channel_videos_returns pages w out l cid sd ed max_videos (Some c))
    as (s' & df & Hrun & Hpass & _).
  exists s'. rewrite Hres in Hpass.
  destruct df as [|rec df]; [done|].
  apply Forall_cons in Hpass as [Hrec _].
  destruct Hserved.
  rewrite <- (passes_Some "None" rec); [apply Hrec|done|done].
Qed.
End scripted.

(** ** The duration decoder, the resolver and the handlers *)

Section handlers.
Context {W : Type} `{!World W} `{!PyLib}.

(** C6. A code that the duration library decodes to one minute and thirty
    seconds gives 90, ["PT1M30S"] among them, and a code that the library
    refuses gives 0; in neither case is anything raised or printed. *)
Theorem parse_duration_spec {L} (s : state W L) :
  isodate_parse_duration "PT1M30S" = inr minute_and_a_half →
  _parse_duration "PT1M30S" s = (s, Ok 90) ∧
  (∀ code, isodate_parse_duration code = inr minute_and_a_half →
     _parse_duration code s = (s, Ok 90)) ∧
  (∀ code e, isodate_parse_duration code = inl e →
     _parse_duration code s = (s, Ok 0)).
Proof.
  assert (Hcode : ∀ code, isodate_parse_duration code = inr minute_and_a_half →
            _parse_duration code s = (s, Ok 90)).
  { intros code Hcode. unfold _parse_duration, try_except, mbind, M_bind, bind.
    by rewrite Hcode. }
  intros H90. split_and!; [by apply Hcode|done|].
  intros code e Hcode'. unfold _parse_duration, try_except, mbind, M_bind, bind.
  by rewrite Hcode'.
Qed.

(** C7. [get_channel_id] never raises: it returns [None] when the search
    call raises and when the response has no items, and the channel id of
    the first item when there is one; it returns an id in no other case. *)
Theorem get_channel_id_spec {L} channel_name (s : state W L) :
  ∃ s' v,
    get_channel_id channel_name s = (s', Ok v) ∧
    (∀ w' e, search_list (channel_search channel_name) (world s) = (w', inl e) →
       v = None) ∧
    (∀ w' response,
       search_list (channel_search channel_name) (world s) = (w', inr response) →
       sr_items response = Some [] → v = None) ∧
    (∀ w' response item rest id cid,
       search_list (channel_search channel_name) (world s) = (w', inr response) →
       sr_items response = Some (item :: rest) →
       si_id item = Some id → channelId id = Some cid →
       v = Some cid) ∧
    (∀ cid, v = Some cid →
       ∃ w' response item rest id,
         search_list (channel_search channel_name) (world s) = (w', inr response) ∧
         sr_items response = Some (item :: rest) ∧
         si_id item = Some id ∧ channelId id = Some cid).
Proof.
  apply wp_returns. unfold get_channel_id. wp_go.
  all: eexists; split; [reflexivity|].
  all: split_and!; intros; try congruence.
  all: subst; repeat eexists; eauto; congruence.
Qed.

Lemma get_video_category_ok {L} video_id (s : state W L) :
  wp (get_video_category video_id)
     (λ s' r, ∃ v, r = Ok v ∧
        ∀ w' e, videos_list "snippet" video_id (world s) = (w', inl e) →
          v = None ∧
          s' = State w' (stdout s ++ ["Error getting video category: " +:+ str_exn e])
                     (locals s)) s.
Proof.
  unfold get_video_category. wp_go.
  all: eexists; split; [reflexivity|]; intros; split; congruence.
Qed.

Lemma get_channel_id_ok {L} channel_name (s : state W L) :
  wp (get_channel_id channel_name)
     (λ s' r, ∃ v, r = Ok v ∧
        ∀ w' e, search_list (channel_search channel_name) (world s) = (w', inl e) →
          v = None ∧
          s' = State w' (stdout s ++ ["Error finding channel ID: " +:+ str_exn e])
                     (locals s)) s.
Proof.
  unfold get_channel_id. wp_go.
  all: eexists; split; [reflexivity|]; intros; split; congruence.
Qed.

Lemma extends_refl {A} (l : list A) : extends l l.
Proof. exists []. by rewrite app_nil_r. Qed.

Lemma extends_trans {A} (l1 l2 l3 : list A) :
  extends l1 l2 → extends l2 l3 → extends l1 l3.
Proof. intros [a ->] [b ->]. exists (a ++ b). by rewrite app_assoc. Qed.

Lemma extends_snoc {A} (l : list A) x : extends l (l ++ [x]).
Proof. by exists [x]. Qed.

Lemma wp_comprehension_locals {L A B} (f : A → M W L B) xs (s : state W L) :
  (∀ x s, wp (f x) (λ s' _, locals s' = locals s) s) →
  wp (comprehension f xs) (λ s' _, locals s' = locals s) s.
Proof.
  intros Hf. revert s. induction xs as [|x xs IH]; intros s; cbn [comprehension].
  { by apply wp_ret. }
  apply wp_bind. eapply wp_mono; [apply Hf|].
  intros s1 [b| |] Hl; cbn [then_wp]; [|done..].
  apply wp_bind. eapply wp_mono; [apply IH|].
  intros s2 [bs| |] Hl2; cbn [then_wp]; [|congruence..].
  apply wp_ret. congruence.
Qed.

Lemma wp_for_each_extends {A B} (body : A → M W (list B) ctrl) xs
    (s : state W (list B)) :
  (∀ x s, wp (body x) (λ s' _, extends (locals s) (locals s')) s) →
  wp (for_each body xs) (λ s' _, extends (locals s) (locals s')) s.
Proof.
  intros Hbody. revert s.
  induction xs as [|x xs IH]; intros s; cbn [for_each].
  { apply wp_ret, extends_refl. }
  apply wp_bind. eapply wp_mono; [apply Hbody|].
  intros s1 [[]| |] Hl; cbn [then_wp]; [|by apply wp_ret|done..].
  eapply wp_mono; [apply IH|]. intros s2 r2 Hl2. by eapply extends_trans.
Qed.

Lemma channel_page_extends category_id tok s :
  wp (channel_page category_id tok) (λ s' _, extends (locals s) (locals s')) s.
Proof.
  unfold channel_page.
  apply wp_bind, wp_call; intros w' x Hcall; cbn [then_wp];
    [apply extends_refl|].
  apply wp_bind, wp_getitem; [intros _|intros items _]; cbn [then_wp];
    [apply extends_refl|].
  apply wp_bind.
  eapply wp_mono;
    [apply wp_comprehension_locals; intros; wp_go; reflexivity|].
  intros s1 [ids| |] Hl1; cbn [then_wp locals] in *;
    [|rewrite Hl1; apply extends_refl..].
  apply wp_bind, wp_call; intros w'' y Hcall'; cbn [then_wp locals];
    [rewrite Hl1; apply extends_refl|].
  apply wp_bind, wp_getitem; [intros _|intros chs _]; cbn [then_wp locals];
    [rewrite Hl1; apply extends_refl|].
  apply wp_bind.
  eapply wp_mono;
    [apply wp_for_each_extends; intros; wp_go;
     first [apply extends_refl|apply extends_snoc]|].
  cbn [locals]. rewrite Hl1.
  intros s2 [[]| |] Hl2; cbn [then_wp locals] in *; [|done..].
  destruct (truthy _); by apply wp_ret.
Qed.

Lemma channel_loop_post fuel category_id sample_size tok s :
  wp (channel_loop fuel category_id sample_size tok)
     (λ s' r, extends (locals s) (locals s') ∧ ∀ e, r ≠ Raise e) s.
Proof.
  revert tok s. induction fuel as [|fuel IH]; intros tok s; cbn [channel_loop].
  { wp_go; split; try done; apply extends_refl. }
  apply wp_bind, wp_get_locals. cbn [then_wp].
  destruct (_ <? _); [|apply wp_ret; split; [apply extends_refl|done]].
  apply wp_bind, wp_try_except.
  eapply wp_mono; [apply channel_page_extends|].
  intros s1 [[tok'|]|e|] Hl; cbn [catch_wp then_wp].
  - eapply wp_mono; [apply IH|].
    intros s2 r2 [Hl2 Hr]. split; [by eapply extends_trans|done].
  - by apply wp_ret.
  - wp_go. done.
  - done.
Qed.
End handlers.

(** ** Sorting, clipping and deduplication *)

Lemma insert_desc_perm x l : insert_desc x l ≡ₚ x :: l.
Proof.
  induction l as [|y l IH]; cbn [insert_desc]; [done|].
  destruct (_ <? _); [|done].
  rewrite IH. apply Permutation_swap.
Qed.

Lemma sort_desc_perm l : sort_desc l ≡ₚ l.
Proof.
  induction l as [|x l IH]; cbn; [done|].
  fold (sort_desc l). by rewrite insert_desc_perm, IH.
Qed.

Lemma sort_desc_descending l : descending l → sort_desc l = l.
Proof.
  induction 1 as [|x l Hl IH Hx]; cbn; [done|].
  fold (sort_desc l). rewrite IH.
  destruct Hx as [|y l' Hxy]; cbn [insert_desc]; [done|].
  destruct (Z.ltb_spec (subscriber_count x) (subscriber_count y)); [lia|done].
Qed.

Lemma len_perm {A} (l k : list A) : l ≡ₚ k → len l = len k.
Proof. unfold len. by intros ->. Qed.

Lemma length_remove_dups `{EqDecision A} (l : list A) :
  (length (remove_dups l) ≤ length l)%nat.
Proof.
  induction l as [|x l IH]; cbn; [done|].
  destruct (decide_rel _ _ _); cbn; lia.
Qed.

Lemma np_clip_range lo hi x :
  lo ≤ hi → (inject_Z lo <= np_clip lo hi x <= inject_Z hi)%Q.
Proof.
  intros Hle. unfold np_clip.
  assert (Hlohi : (inject_Z lo <= inject_Z hi)%Q) by by rewrite <- Zle_Qle.
  destruct (Qle_bool x (inject_Z lo)) eqn:Hlo.
  - rewrite (proj2 (Qle_bool_iff _ _) Hlohi). split; [apply Qle_refl|done].
  - assert (Hx : (inject_Z lo <= x)%Q).
    { apply Qlt_le_weak, Qnot_le_lt. rewrite <- Qle_bool_iff. by rewrite Hlo. }
    destruct (Qle_bool x (inject_Z hi)) eqn:Hhi.
    + split; [done|]. by apply Qle_bool_iff.
    + split; [done|apply Qle_refl].
Qed.

Lemma astype_int_range lo hi x :
  0 ≤ lo → (inject_Z lo <= x <= inject_Z hi)%Q → lo ≤ astype_int x ≤ hi.
Proof.
  intros H0 [Hlo Hhi]. unfold astype_int.
  destruct x as [n d]. unfold Qle in *. cbn in *.
  assert (0 ≤ n) by nia.
  rewrite Z.quot_div_nonneg by lia. split.
  - apply Z.div_le_lower_bound; lia.
  - apply Z.div_le_upper_bound; lia.
Qed.

Lemma np_unique_spec l :
  NoDup (np_unique l) ∧ Sorted Z.le (np_unique l) ∧
  (∀ i, i ∈ np_unique l ↔ i ∈ l) ∧
  (length (np_unique l) ≤ length l)%nat.
Proof.
  unfold np_unique.
  pose proof (merge_sort_Permutation Z.le (remove_dups l)) as Hperm.
  split_and!.
  - rewrite Hperm. apply NoDup_remove_dups.
  - apply (Sorted_merge_sort Z.le).
  - intros i. by rewrite Hperm, elem_of_remove_dups.
  - rewrite Hperm. apply length_remove_dups.
Qed.

Lemma sorted_perm l : sorted l ≡ₚ l.
Proof. apply merge_sort_Permutation. Qed.

(** ** The sampling step *)

Section sampler.
Context {W : Type} `{!World W} `{!PyLib}.

Lemma wp_draws {L} n (s : state W L) :
  wp (draws n)
     (λ s' r, stdout s' = stdout s ∧ locals s' = locals s ∧
              ∃ zs, r = Ok zs ∧ length zs = n) s.
Proof.
  revert s. induction n as [|n IH]; intros s; cbn [draws].
  { apply wp_ret. eauto. }
  apply wp_bind, wp_ask. intros w' z _. cbn [then_wp].
  apply wp_bind. eapply wp_mono; [apply IH|].
  intros s1 r1 (Hout & Hl & zs & -> & Hlen). cbn [then_wp world stdout locals] in *.
  apply wp_ret. split_and!; [done..|]. exists (z :: zs). cbn. auto.
Qed.

Lemma wp_np_random_normal {L} mu sigma size (s : state W L) :
  0 ≤ size → (0 <= sigma)%Q →
  wp (np_random_normal mu sigma size)
     (λ s' r, stdout s' = stdout s ∧ locals s' = locals s ∧
              ∃ xs, r = Ok xs ∧ length xs = Z.to_nat size) s.
Proof.
  intros Hsize Hsigma. unfold np_random_normal.
  rewrite (proj2 (Qle_bool_iff _ _) Hsigma).
  destruct (Z.ltb_spec size 0); [lia|].
  apply wp_bind. eapply wp_mono; [apply wp_draws|].
  intros s1 r1 (Hout & Hl & zs & -> & Hlen). cbn [then_wp].
  apply wp_ret. split_and!; [done..|]. eexists. split; [done|].
  by rewrite length_map.
Qed.

Lemma wp_py_index {L A} (l : list A) i (s : state W L) :
  0 ≤ i < len l →
  wp (py_index l i) (λ s' r, s' = s ∧ ∃ x, r = Ok x ∧ at_index l i x) s.
Proof.
  intros Hi. unfold py_index.
  destruct (Z.ltb_spec i 0); [lia|].
  destruct (Z.leb_spec 0 i); [|lia].
  destruct (Z.ltb_spec i (len l)); [|lia]. cbn [andb].
  destruct (l !! Z.to_nat i) as [x|] eqn:Hx.
  - apply wp_ret. split; [done|]. exists x. by repeat split.
  - apply lookup_ge_None in Hx. unfold len in *. lia.
Qed.

Lemma wp_comprehension_index {L A} (l : list A) indices (s : state W L) :
  Forall (λ i, 0 ≤ i < len l) indices →
  wp (comprehension (py_index l) indices)
     (λ s' r, s' = s ∧ ∃ picked, r = Ok picked ∧ Forall2 (at_index l) indices picked) s.
Proof.
  induction 1 as [|i indices Hi _ IH]; cbn [comprehension].
  { apply wp_ret. eauto. }
  apply wp_bind. eapply wp_mono; [by apply wp_py_index|].
  intros s1 r1 (-> & x & -> & Hx). cbn [then_wp].
  apply wp_bind. eapply wp_mono; [apply IH|].
  intros s2 r2 (-> & picked & -> & Hpicked). cbn [then_wp].
  apply wp_ret. split; [done|]. exists (x :: picked). split; [done|].
  by constructor.
Qed.

(** The sampling step when there are more candidates than asked for. *)
Lemma sample_channels_sampled {L} sample_size channels (s : state W L) :
  0 ≤ sample_size → sample_size < len channels →
  wp (sample_channels sample_size channels)
     (λ s' r, stdout s' = stdout s ∧ locals s' = locals s ∧
        ∃ indices sampled,
          r = Ok sampled ∧ len sampled ≤ sample_size ∧
          NoDup indices ∧ Sorted Z.le indices ∧
          Forall2 (at_index channels) indices sampled) s.
Proof.
  intros Hsize Hlen. unfold sample_channels.
  destruct (Z.gtb_spec (len channels) sample_size); [|lia].
  apply wp_bind. eapply wp_mono.
  { apply wp_np_random_normal; [done|].
    unfold Qle. cbn [Qnum Qden]. unfold len. lia. }
  intros s1 r1 (Hout & Hl & xs & -> & Hxs). cbn [then_wp].
  set (raw := map astype_int (map (np_clip 0 (len channels - 1)) xs)).
  destruct (np_unique_spec raw) as (Hnodup & Hsorted & Hin & Hulen).
  assert (Hraw : Forall (λ i, 0 ≤ i < len channels) raw).
  { unfold raw. rewrite !Forall_map. apply Forall_true. intros x. cbn.
    pose proof (astype_int_range 0 (len channels - 1) _ ltac:(lia)
                  (np_clip_range 0 (len channels - 1) x ltac:(lia))).
    lia. }
  assert (Hidx : Forall (λ i, 0 ≤ i < len channels) (sorted (np_unique raw))).
  { rewrite Forall_forall in Hraw. apply Forall_forall. intros i Hi.
    apply Hraw, Hin. by rewrite <- (sorted_perm (np_unique raw)). }
  apply wp_bind. eapply wp_mono; [by apply wp_comprehension_index|].
  intros s2 r2 (-> & picked & -> & Hpicked). cbn [then_wp].
  apply wp_ret. split_and!; [done..|].
  assert (Hplen : (length picked ≤ Z.to_nat sample_size)%nat).
  { rewrite <- (Forall2_length _ _ _ Hpicked), (sorted_perm (np_unique raw)).
    assert (length raw = length xs) by (unfold raw; by rewrite !length_map).
    lia. }
  exists (sorted (np_unique raw)), picked.
  unfold py_slice_to. destruct (Z.leb_spec 0 sample_size); [|lia].
  rewrite take_ge by done. split_and!; [done| | | |done].
  - unfold len. lia.
  - by rewrite (sorted_perm (np_unique raw)).
  - apply (Sorted_merge_sort Z.le).
Qed.
End sampler.

Section sampler_theorems.
Context {W : Type} `{!World W} `{!PyLib}.

(** After the page loop has ended with the candidates [locals s1], the
    function sorts them and runs the sampling step. *)
Lemma get_top_channels_after_loop {L} fuel category_id api_key sample_size
    (s : state W L) s1 :
  channel_loop fuel category_id sample_size None (State (world s) (stdout s) [])
    = (s1, Ok tt) →
  get_top_channels_by_category fuel category_id api_key sample_size s =
    let (s2, r) := sample_channels sample_size (sort_desc (locals s1))
                     (State (world s1) (stdout s1) (sort_desc (locals s1))) in
    (State (world s2) (stdout s2) (locals s), r).
Proof.
  intros Hloop.
  unfold get_top_channels_by_category, frame, mbind, M_bind, bind.
  rewrite Hloop. reflexivity.
Qed.

(** C8. When the loop has gathered no more candidates than the sample
    size, the function returns all of them, in descending order of
    subscribers (as they are, if they came in that order), and draws no
    random number. *)
Theorem get_top_channels_returns_all {L} fuel category_id api_key sample_size
    (s : state W L) s1 :
  channel_loop fuel category_id sample_size None (State (world s) (stdout s) [])
    = (s1, Ok tt) →
  len (locals s1) ≤ sample_size →
  get_top_channels_by_category fuel category_id api_key sample_size s
    = (State (world s1) (stdout s1) (locals s), Ok (sort_desc (locals s1))) ∧
  sort_desc (locals s1) ≡ₚ locals s1 ∧
  (descending (locals s1) → sort_desc (locals s1) = locals s1).
Proof.
  intros Hloop Hlen. split_and!.
  - rewrite (get_top_channels_after_loop _ _ _ _ _ _ Hloop).
    unfold sample_channels.
    rewrite (len_perm _ _ (sort_desc_perm (locals s1))).
    destruct (Z.gtb_spec (len (locals s1)) sample_size); [lia|done].
  - apply sort_desc_perm.
  - apply sort_desc_descending.
Qed.

(** C9. When the loop has gathered more candidates than the sample size,
    the function returns the candidates at a list of distinct, ascending,
    in-range indices of the sorted candidate list, at most [sample_size]
    of them; each is one of the candidates. *)
Theorem get_top_channels_samples {L} fuel category_id api_key sample_size
    (s : state W L) s1 :
  channel_loop fuel category_id sample_size None (State (world s) (stdout s) [])
    = (s1, Ok tt) →
  0 ≤ sample_size →
  sample_size < len (locals s1) →
  ∃ s' indices sampled,
    get_top_channels_by_category fuel category_id api_key sample_size s
      = (s', Ok sampled) ∧
    len sampled ≤ sample_size ∧
    NoDup indices ∧
    Sorted Z.le indices ∧
    Forall2 (at_index (sort_desc (locals s1))) indices sampled ∧
    (∀ x, x ∈ sampled → x ∈ locals s1).
Proof.
  intros Hloop Hsize Hlen.
  rewrite (get_top_channels_after_loop _ _ _ _ _ _ Hloop).
  rewrite <- (len_perm _ _ (sort_desc_perm (locals s1))) in Hlen.
  pose proof (sample_channels_sampled sample_size (sort_desc (locals s1))
                (State (world s1) (stdout s1) (sort_desc (locals s1)))
                Hsize Hlen) as Hwp.
  apply wp_exists in Hwp
    as (s2 & r & -> & _ & _ & indices & sampled & -> & Hn & Hnd & Hsorted & Hat).
  exists (State (world s2) (stdout s2) (locals s)), indices, sampled.
  split_and!; try done.
  intros x Hx. rewrite <- (sort_desc_perm (locals s1)).
  apply list_elem_of_lookup in Hx as [k Hk].
  destruct (Forall2_lookup_r _ _ _ _ _ Hat Hk) as (i & _ & _ & Hi).
  by eapply list_elem_of_lookup_2.
Qed.
End sampler_theorems.

(** ** Pages of complete videos *)

Section mock.
Context (api : stub) `{!PyLib}.
Lemma mock_videos_list part id (w : scripted (list Q)) :
  videos_list (World := mock_world api) part id w = (w, st_videos api part id).
Proof. by destruct w. Qed.

Lemma mock_commentThreads_list part id n (w : scripted (list Q)) :
  commentThreads_list (World := mock_world api) part id n w
    = (w, st_comments api id).
Proof. by destruct w. Qed.

(** Reading the equations off [complete]. *)
Ltac option_step Hc :=
  match type of Hc with
  | context [mbind _ ?o] =>
      lazymatch o with
      | context [mbind _ _] => fail
      | _ => let E := fresh "E" in
             destruct o eqn:E; cbn [mbind option_bind] in Hc; [|by destruct Hc]
      end
  end.

Lemma fetch_item_complete max_videos sc item s :
  complete api item = true →
  wp (fetch_item (World0 := mock_world api) max_videos None sc item)
     (complete_post max_videos item s) s.
Proof.
  intros Hc%bool_decide_eq_true. unfold complete, item_video_id in Hc.
  repeat option_step Hc.
  destruct Hc as [z1 E16].
  destruct (st_videos api _ _) as [|response] eqn:Hvideos; [done|].
  destruct l0 as [|video_info rest]; [done|]. cbn in E3. simplify_eq.
  unfold fetch_item, _parse_duration, int_get. wp_go.
  all: repeat match goal with
         | Hv : videos_list _ _ _ = _ |- _ =>
             rewrite mock_videos_list in Hv; injection Hv as ? Hv; subst
         | Hv : commentThreads_list _ _ _ _ = _ |- _ =>
             rewrite mock_commentThreads_list in Hv; injection Hv as ? Hv; subst
         end.
  all: repeat match goal with
         | H1 : ?x = inr ?a, H2 : ?x = inr ?b |- _ =>
             assert (a = b) by congruence; clear H2; simplify_eq
         | H1 : ?x = Some ?a, H2 : ?x = Some ?b |- _ =>
             assert (a = b) by congruence; clear H2; simplify_eq
         end.
  all: unfold count_of in *.
  all: repeat match goal with
         | Hx : ?x = _, Ex : context [match ?x with _ => _ end] |- _ =>
             rewrite Hx in Ex
         end.
  all: try congruence.
  all: unfold complete_post, item_video_id; cbn [world stdout locals].
  all: split_and!; [done..|]; eexists; split_and!; [done| |].
  all: first
    [ by rewrite E; cbn; rewrite E0
    | by match goal with Hge : (_ >=? _) = _ |- _ => rewrite Hge end ].
Qed.

Lemma for_each_complete max_videos sc items s :
  forallb (complete api) items = true →
  len (locals s) + len items < max_videos →
  wp (for_each (fetch_item (World0 := mock_world api) max_videos None sc) items)
     (λ s' r, world s' = world s ∧ stdout s' = stdout s ∧ r = Ok tt ∧
        ∃ recs, locals s' = locals s ++ recs ∧
                map (λ rec, Some (video_id rec)) recs = map item_video_id items) s.
Proof.
  revert s. induction items as [|item items IH]; intros s Hc Hlen;
    cbn [for_each forallb] in *.
  { apply wp_ret. split_and!; [done..|]. exists []. by rewrite app_nil_r. }
  apply andb_true_iff in Hc as [Hitem Hitems].
  apply wp_bind. eapply wp_mono; [by apply fetch_item_complete|].
  intros s1 r1 (Hw & Hout & rec & Hl & Hid & ->). cbn [then_wp].
  assert (Hcons : len (item :: items) = 1 + len items)
    by (unfold len; cbn [length]; lia).
  rewrite Hcons in Hlen.
  destruct (Z.geb_spec (len (locals s ++ [rec])) max_videos) as [Hge|Hlt].
  { rewrite len_app in Hge. change (len [rec]) with 1 in Hge. unfold len in *. lia. }
  eapply wp_mono.
  { apply IH; [done|]. rewrite Hl, len_app. change (len [rec]) with 1. lia. }
  intros s2 r2 (Hw2 & Hout2 & -> & recs & Hl2 & Hids).
  split_and!; [congruence..|done|]. exists (rec :: recs). split.
  - by rewrite Hl2, Hl, <- app_assoc.
  - cbn [map]. by rewrite Hid, Hids.
Qed.

(** One iteration of the page loop over a page of complete items that
    does not fill the quota. *)
Lemma page_loop_complete_page fuel cid pa pb max_videos sc tok page rest
    (Q : state (scripted (list Q)) (list video_record) → result unit → Prop) s :
  script (world s) = inr page :: rest →
  forallb (complete api) (default [] (sr_items page)) = true →
  len (locals s) + len (default [] (sr_items page)) < max_videos →
  (∀ s1,
     script (world s1) = rest → stdout s1 = stdout s →
     (∃ recs, locals s1 = locals s ++ recs ∧
              map (λ rec, Some (video_id rec)) recs
                = map item_video_id (default [] (sr_items page))) →
     if truthy (sr_nextPageToken page)
     then wp (page_loop (World0 := mock_world api) fuel cid pa pb max_videos None sc
               (sr_nextPageToken page)) Q s1
     else Q s1 (Ok tt)) →
  wp (page_loop (World0 := mock_world api) (S fuel) cid pa pb max_videos None sc tok)
     Q s.
Proof.
  intros Hscript Hc Hlen HQ. cbn [page_loop].
  apply wp_bind, wp_get_locals. cbn [then_wp].
  destruct (Z.ltb_spec (len (locals s)) max_videos); [|unfold len in *; lia].
  apply wp_bind, wp_call; intros w' x Hcall; cbn in Hcall;
    rewrite Hscript in Hcall; simplify_eq.
  cbn [then_wp].
  apply wp_bind. eapply wp_mono; [by apply for_each_complete|].
  intros s1 r1 (Hw & Hout & -> & Hrecs). cbn [then_wp world stdout locals] in *.
  specialize (HQ s1). rewrite Hw in HQ. specialize (HQ eq_refl Hout Hrecs).
  destruct (truthy _); [done|by apply wp_ret].
Qed.

(** C2 (amended). Three pages of 50, 50 and 10 complete videos, no
    category filter and [max_videos = 120]: the function returns one
    record per video, in the order of the pages, 110 in all. *)
Theorem fetch_three_pages {L} fuel p1 p2 p3 t1 t2 t3 normals out (l : L)
    cid sd ed :
  (4 ≤ fuel)%nat →
  length p1 = 50%nat → length p2 = 50%nat → length p3 = 10%nat →
  truthy t1 = true → truthy t2 = true →
  forallb (complete api) (p1 ++ p2 ++ p3) = true →
  ∃ s' df,
    fetch_channel_videos (World0 := mock_world api) fuel cid sd ed 120 None
      (State (Scripted [page p1 t1; page p2 t2; page p3 t3] normals) out l)
      = (s', Ok df) ∧
    (length df = 110%nat ∧
     map (λ rec, Some (video_id rec)) df = map item_video_id (p1 ++ p2 ++ p3)).
Proof.
  intros Hfuel H1 H2 H3 Ht1 Ht2 Hc.
  rewrite !forallb_app in Hc. apply andb_true_iff in Hc as [Hc1 Hc23].
  apply andb_true_iff in Hc23 as [Hc2 Hc3].
  destruct fuel as [|[|[|[|fuel]]]]; try lia.
  assert (Hids : ∀ df : list video_record,
            map (λ rec, Some (video_id rec)) df = map item_video_id (p1 ++ p2 ++ p3) →
            length df = 110%nat ∧
            map (λ rec, Some (video_id rec)) df = map item_video_id (p1 ++ p2 ++ p3)).
  { intros df Hdf. split; [|done].
    apply (f_equal length) in Hdf. rewrite !length_map, !length_app in Hdf. lia. }
  apply wp_returns. unfold fetch_channel_videos. apply wp_frame, wp_bind.
  eapply wp_mono;
    [apply wp_and;
       [apply fetch_setup_ok|apply (fetch_setup_script (World0 := stub_world api))]|].
  intros s0 r0 [[Hl0 [[[pa pb] sc] ->]] Hscript]. cbn [world locals then_wp] in *.
  apply wp_bind, wp_try_except. cbn [resolve_category].
  eapply page_loop_complete_page; [exact Hscript|done|..].
  { rewrite Hl0. unfold len. cbn. lia. }
  intros s1 Hs1 _ (r1 & Hl1 & Hr1). cbn [from_option sr_items id] in Hl1, Hr1.
  cbn [page sr_nextPageToken]. rewrite Ht1.
  assert (Hlen1 : length r1 = 50%nat).
  { apply (f_equal length) in Hr1. rewrite !length_map in Hr1. lia. }
  eapply page_loop_complete_page; [exact Hs1|done|..].
  { rewrite Hl1, Hl0. unfold len. cbn. lia. }
  intros s2 Hs2 _ (r2 & Hl2 & Hr2). cbn [from_option sr_items id] in Hl2, Hr2.
  cbn [page sr_nextPageToken]. rewrite Ht2.
  assert (Hlen2 : length r2 = 50%nat).
  { apply (f_equal length) in Hr2. rewrite !length_map in Hr2. lia. }
  eapply page_loop_complete_page; [exact Hs2|done|..].
  { rewrite Hl2, Hl1, Hl0. unfold len. cbn. rewrite length_app. lia. }
  intros s3 Hs3 _ (r3 & Hl3 & Hr3). cbn [from_option sr_items id] in Hl3, Hr3.
  assert (Hdf : map (λ rec, Some (video_id rec)) (locals s3)
                = map item_video_id (p1 ++ p2 ++ p3)).
  { rewrite Hl3, Hl2, Hl1, Hl0. cbn [app].
    rewrite !map_app, <- !app_assoc. congruence. }
  assert (Hlen3 : length r3 = 10%nat).
  { apply (f_equal length) in Hr3. rewrite !length_map in Hr3. lia. }
  cbn [page sr_nextPageToken].
  destruct (truthy t3).
  - cbn [page_loop]. apply wp_bind, wp_get_locals. cbn [then_wp].
    destruct (Z.ltb_spec (len (locals s3)) 120).
    + apply wp_bind, wp_call; intros w' x Hcall; cbn in Hcall;
        rewrite Hs3 in Hcall; simplify_eq.
      cbn [then_wp catch_wp]. wp_go. eexists. split; [done|]. by apply Hids.
    + apply wp_ret. cbn [catch_wp then_wp]. wp_go.
      eexists. split; [done|]. by apply Hids.
  - cbn [catch_wp then_wp]. wp_go. eexists. split; [done|]. by apply Hids.
Qed.
End mock.

(** ** Which operations handle upstream errors *)

Section errors.
Context {W : Type} `{!World W} `{!PyLib}.

Lemma get_guide_categories_propagates {L} part region (s : state W L) w' e :
  videoCategories_list part region (world s) = (w', inl e) →
  get_guide_categories part region s = (State w' (stdout s) (locals s), Raise e).
Proof.
  intros Hcall. unfold get_guide_categories, mbind, M_bind, bind, call.
  by rewrite Hcall.
Qed.

Lemma search_channels_by_category_propagates {L} category_id max_results
    (s : state W L) w' e :
  search_list (category_search category_id max_results) (world s) = (w', inl e) →
  search_channels_by_category category_id max_results s
    = (State w' (stdout s) (locals s), Raise e).
Proof.
  intros Hcall. unfold search_channels_by_category, mbind, M_bind, bind, call.
  by rewrite Hcall.
Qed.

(** The statistics step of [fetch_channel_videos] never raises, and prints
    only together with the default count. *)
Lemma fetch_setup_default {L} cid sd ed (s : state W L) :
  wp (fetch_setup cid sd ed)
     (λ s' r, locals s' = locals s ∧
        ∃ pa pb sc, r = Ok (pa, pb, sc) ∧
          (stdout s' = stdout s ∨
           sc = 0 ∧
           ∃ e, stdout s' = stdout s
                  ++ ["Error fetching channel statistics: " +:+ str_exn e])) s.
Proof.
  unfold fetch_setup. wp_go.
  all: split; [reflexivity|]; eexists _, _, _; split; [reflexivity|].
  all: first [by left | right; split; [reflexivity|by eexists]].
Qed.

(** An error of the statistics call: the line and the default. *)
Lemma fetch_setup_error {L} cid sd ed (s : state W L) s0 d1 d2 w' e :
  default_dates sd ed s = (s0, Ok (d1, d2)) →
  channels_list "statistics" cid (world s0) = (w', inl e) →
  fetch_setup cid sd ed s
    = (State w' (stdout s0 ++ ["Error fetching channel statistics: " +:+ str_exn e])
             (locals s0),
       Ok (isoformat d1 +:+ "Z", isoformat d2 +:+ "Z", 0)).
Proof.
  intros Hdates Hcall. revert Hdates.
  unfold fetch_setup, default_dates, try_except, mbind, M_bind, bind, ask, call,
    mret, M_ret, ret.
  destruct sd as [sd|], ed as [ed|]; cbn [world stdout locals];
    repeat match goal with
           | |- context [datetime_now ?w] =>
               destruct (datetime_now w) as [? ?]; cbn [world stdout locals]
           end;
    intros [= <- <- <-]; cbn [world stdout locals] in *; by rewrite Hcall.
Qed.

(** With the dates given the window is read off them, and nothing else
    happens. *)
Lemma default_dates_given {L} d1 d2 (s : state W L) :
  default_dates (Some d1) (Some d2) s = (s, Ok (d1, d2)).
Proof. done. Qed.
(** An error of the search call of a page: the page loop raises it with
    the records as they were. *)
Lemma page_loop_search_error fuel cid pa pb max_videos target sc tok
    (s : state W (list video_record)) w' e :
  len (locals s) < max_videos →
  search_list
    {| rq_part := "id,snippet"; rq_q := None; rq_type := "video";
       rq_channelId := Some cid; rq_order := Some "date";
       rq_maxResults := Z.min 50 (max_videos - len (locals s));
       rq_publishedAfter := Some pa; rq_publishedBefore := Some pb;
       rq_pageToken := tok; rq_regionCode := None;
       rq_videoCategoryId := None |} (world s) = (w', inl e) →
  page_loop (S fuel) cid pa pb max_videos target sc tok s
    = (State w' (stdout s) (locals s), Raise e).
Proof.
  intros Hlen Hcall. cbn [page_loop].
  unfold mbind at 1, M_bind at 1, bind at 1, get_locals at 1.
  destruct (Z.ltb_spec (len (locals s)) max_videos); [|lia].
  unfold mbind at 1, M_bind at 1, bind at 1, call at 1.
  by rewrite Hcall.
Qed.

(** The handler of the page loop of [fetch_channel_videos]. *)
Lemma fetch_channel_videos_handler {L} fuel cid sd ed max_videos category
    (s : state W L) s1 pa pb sc s2 e :
  fetch_setup cid sd ed (State (world s) (stdout s) []) = (s1, Ok (pa, pb, sc)) →
  page_loop fuel cid pa pb max_videos (resolve_category category) sc None s1
    = (s2, Raise e) →
  fetch_channel_videos fuel cid sd ed max_videos category s
    = (State (world s2) (stdout s2 ++ ["Error fetching videos: " +:+ str_exn e])
             (locals s),
       Ok (locals s2)).
Proof.
  intros Hsetup Hloop.
  unfold fetch_channel_videos, frame, mbind, M_bind, bind, try_except.
  rewrite Hsetup. cbn. rewrite Hloop. done.
Qed.

(** An error of the search call of a page of channels: the line, and the
    loop ends with the channels as they were. *)
Lemma channel_loop_search_error fuel category_id sample_size tok
    (s : state W (list channel_summary)) w' e :
  len (locals s) < sample_size * 2 →
  search_list (top_channels_request category_id tok) (world s) = (w', inl e) →
  channel_loop (S fuel) category_id sample_size tok s
    = (State w' (stdout s ++ ["Error fetching channels: " +:+ str_exn e])
             (locals s),
       Ok tt).
Proof.
  intros Hlen Hcall. cbn [channel_loop].
  unfold mbind at 1, M_bind at 1, bind at 1, get_locals at 1.
  destruct (Z.ltb_spec (len (locals s)) (sample_size * 2)); [|lia].
  unfold top_channels_request in Hcall.
  unfold mbind at 1, M_bind at 1, bind at 1, try_except, channel_page.
  unfold mbind at 1, M_bind at 1, bind at 1, call at 1.
  by rewrite Hcall.
Qed.

(** C4 (amended). Upstream errors are caught, printed and converted where
    the code has a printing handler.  [get_channel_id] and
    [get_video_category] print the error and return [None].
    [fetch_channel_videos] never raises: its statistics step never raises
    and prints only together with the default count 0, which is what an
    error of the statistics call gives (whether the dates are given or
    read from the clock); an error of a search call stops
    the page loop with the records gathered so far untouched; and whenever
    the page loop is stopped by an error, the function prints it and
    returns the records gathered so far.  The page loop of
    [get_top_channels_by_category] never raises and only appends to what
    it has gathered; an error of the search call of a page is printed and
    ends the loop with the channels gathered so far.
    [get_guide_categories] and [search_channels_by_category] have no
    handler: the error of their upstream call reaches the caller, and
    nothing is printed. *)
Theorem upstream_errors_where_handled {L} :
  (∀ channel_name (s : state W L),
     ∃ s' v, get_channel_id channel_name s = (s', Ok v) ∧
       ∀ w' e, search_list (channel_search channel_name) (world s) = (w', inl e) →
         v = None ∧
         s' = State w' (stdout s ++ ["Error finding channel ID: " +:+ str_exn e])
                    (locals s)) ∧
  (∀ video_id (s : state W L),
     ∃ s' v, get_video_category video_id s = (s', Ok v) ∧
       ∀ w' e, videos_list "snippet" video_id (world s) = (w', inl e) →
         v = None ∧
         s' = State w' (stdout s ++ ["Error getting video category: " +:+ str_exn e])
                    (locals s)) ∧
  (∀ fuel cid sd ed max_videos category (s : state W L) e,
     (fetch_channel_videos fuel cid sd ed max_videos category s).2 ≠ Raise e) ∧
  (∀ cid sd ed (s : state W L),
     ∃ s' pa pb sc,
       fetch_setup cid sd ed s = (s', Ok (pa, pb, sc)) ∧
       locals s' = locals s ∧
       (stdout s' = stdout s ∨
        sc = 0 ∧
        ∃ e, stdout s' = stdout s
               ++ ["Error fetching channel statistics: " +:+ str_exn e])) ∧
  (∀ cid sd ed (s : state W L) s0 d1 d2 w' e,
     default_dates sd ed s = (s0, Ok (d1, d2)) →
     channels_list "statistics" cid (world s0) = (w', inl e) →
     fetch_setup cid sd ed s
       = (State w' (stdout s0
                      ++ ["Error fetching channel statistics: " +:+ str_exn e])
                (locals s0),
          Ok (isoformat d1 +:+ "Z", isoformat d2 +:+ "Z", 0))) ∧
  (∀ cid d1 d2 (s : state W L) w' e,
     channels_list "statistics" cid (world s) = (w', inl e) →
     fetch_setup cid (Some d1) (Some d2) s
       = (State w' (stdout s
                      ++ ["Error fetching channel statistics: " +:+ str_exn e])
                (locals s),
          Ok (isoformat d1 +:+ "Z", isoformat d2 +:+ "Z", 0))) ∧
  (∀ fuel cid pa pb max_videos target sc tok
      (s : state W (list video_record)) w' e,
     len (locals s) < max_videos →
     search_list
       {| rq_part := "id,snippet"; rq_q := None; rq_type := "video";
          rq_channelId := Some cid; rq_order := Some "date";
          rq_maxResults := Z.min 50 (max_videos - len (locals s));
          rq_publishedAfter := Some pa; rq_publishedBefore := Some pb;
          rq_pageToken := tok; rq_regionCode := None;
          rq_videoCategoryId := None |} (world s) = (w', inl e) →
     page_loop (S fuel) cid pa pb max_videos target sc tok s
       = (State w' (stdout s) (locals s), Raise e)) ∧
  (∀ fuel cid sd ed max_videos category (s : state W L) s1 pa pb sc s2 e,
     fetch_setup cid sd ed (State (world s) (stdout s) [])
       = (s1, Ok (pa, pb, sc)) →
     page_loop fuel cid pa pb max_videos (resolve_category category) sc None s1
       = (s2, Raise e) →
     fetch_channel_videos fuel cid sd ed max_videos category s
       = (State (world s2)
                (stdout s2 ++ ["Error fetching videos: " +:+ str_exn e])
                (locals s),
          Ok (locals s2))) ∧
  (∀ fuel category_id sample_size tok (s : state W (list channel_summary)) e,
     (channel_loop fuel category_id sample_size tok s).2 ≠ Raise e) ∧
  (∀ fuel category_id sample_size tok (s : state W (list channel_summary)),
     extends (locals s)
             (locals (channel_loop fuel category_id sample_size tok s).1)) ∧
  (∀ fuel category_id sample_size tok (s : state W (list channel_summary)) w' e,
     len (locals s) < sample_size * 2 →
     search_list (top_channels_request category_id tok) (world s) = (w', inl e) →
     channel_loop (S fuel) category_id sample_size tok s
       = (State w' (stdout s ++ ["Error fetching channels: " +:+ str_exn e])
                (locals s),
          Ok tt)) ∧
  (∀ part region (s : state W L) w' e,
     videoCategories_list part region (world s) = (w', inl e) →
     get_guide_categories part region s
       = (State w' (stdout s) (locals s), Raise e)) ∧
  (∀ category_id max_results (s : state W L) w' e,
     search_list (category_search category_id max_results) (world s) = (w', inl e) →
     search_channels_by_category category_id max_results s
       = (State w' (stdout s) (locals s), Raise e)).
Proof.
  split_and!.
  - intros name s. apply wp_returns, get_channel_id_ok.
  - intros vid s. apply wp_returns, get_video_category_ok.
  - intros fuel cid sd ed max_videos category s e.
    pose proof (fetch_channel_videos_post fuel cid sd ed max_videos category s)
      as [_ [Hr|(df & Hr & _)]]; rewrite Hr; done.
  - intros cid sd ed s.
    destruct (wp_exists _ _ _ (fetch_setup_default cid sd ed s))
      as (s' & r & Hrun & Hl & pa & pb & sc & -> & Hout).
    by exists s', pa, pb, sc.
  - intros. by apply fetch_setup_error.
  - intros cid d1 d2 s w' e Hcall.
    by apply (fetch_setup_error cid (Some d1) (Some d2) s s d1 d2 w' e
                (default_dates_given d1 d2 s)).
  - intros. by apply page_loop_search_error.
  - intros. by eapply fetch_channel_videos_handler.
  - intros fuel category_id sample_size tok s e.
    by pose proof (channel_loop_post fuel category_id sample_size tok s) as [_ Hr].
  - intros fuel category_id sample_size tok s.
    by pose proof (channel_loop_post fuel category_id sample_size tok s) as [Hl _].
  - intros. by apply channel_loop_search_error.
  - intros. by apply get_guide_categories_propagates.
  - intros. by apply search_channels_by_category_propagates.
Qed.
End errors.

(** ** Runs on the stubbed channel *)

(** C2, counterexample: the three pages hold 110 videos, and 110 records
    come back, not 120. *)
Lemma three_pages_not_120 :
  ¬ ∃ s' df, demo_fetch 4 120 None three_pages = (s', Ok df) ∧ length df = 120%nat.
Proof.
  intros (s' & df & Hrun & Hlen).
  assert (Hcount : match (demo_fetch 4 120 None three_pages).2 with
                   | Ok df => length df
                   | _ => 0%nat
                   end = 110%nat) by (vm_compute; reflexivity).
  rewrite Hrun in Hcount. cbn in Hcount. lia.
Qed.

(** C3, counterexample: the empty string is not [None], yet no filter is
    resolved from it and a record of category ["20"] comes back. *)
Lemma empty_category_not_filtered :
  ∃ s' rec,
    demo_fetch 2 50 (Some "") one_page = (s', Ok [rec]) ∧
    resolve_category (Some "") = None ∧
    category_id rec = "20" ∧
    category_id rec ≠ py_str (category_ids !! "").
Proof. vm_compute. eexists _, _. split_and!; [reflexivity..|discriminate]. Qed.

(** C10, counterexample: the empty string is not in the category table,
    yet the filter is ignored and the result is not empty. *)
Lemma empty_category_not_in_table :
  category_ids !! "" = None ∧
  ∃ s' df, demo_fetch 2 50 (Some "") one_page = (s', Ok df) ∧ length df = 1%nat.
Proof. vm_compute. split; [reflexivity|]. eexists _, _. split; reflexivity. Qed.

(** C4, counterexample: an upstream error in [get_guide_categories] and in
    [search_channels_by_category] reaches the caller, and nothing is
    printed. *)
Lemma unguarded_operations_raise :
  get_guide_categories (World0 := stub_world demo_api) "snippet" "US"
      (State [] [] tt)
    = (State [] [] tt, Raise (HttpError "quotaExceeded")) ∧
  search_channels_by_category (World0 := mock_world demo_api) "20" 50
      (start [inl (HttpError "quotaExceeded")] tt)
    = (start [] tt, Raise (HttpError "quotaExceeded")).
Proof. split; reflexivity. Qed.

(** C1, witness: three pages of 110 videos and a maximum of 70. *)
Lemma fetch_channel_videos_at_most_max_witness :
  0 ≤ 70 ∧
  ∃ s' df, demo_fetch 4 70 None three_pages = (s', Ok df) ∧ len df ≤ 70.
Proof.
  split; [lia|].
  apply (fetch_channel_videos_at_most_max (World0 := stub_world demo_api)
           three_pages [] [] tt "UC1" (Some 0) (Some 1) 70 None).
  lia.
Defined.

(** C2, witness: the three pages of the stubbed channel. *)
Lemma fetch_three_pages_witness :
  ∃ s' df,
    demo_fetch 4 120 None three_pages = (s', Ok df) ∧
    (length df = 110%nat ∧
     map (λ rec, Some (video_id rec)) df
       = map item_video_id (map demo_item (seq 0 50) ++ map demo_item (seq 50 50)
                            ++ map demo_item (seq 100 10))).
Proof.
  apply (fetch_three_pages demo_api 4 (map demo_item (seq 0 50))
           (map demo_item (seq 50 50)) (map demo_item (seq 100 10))
           (Some "CDIQAA") (Some "CGQQAA") None [] [] tt "UC1" (Some 0) (Some 1));
    first [lia | vm_compute; reflexivity].
Defined.

(** C3, witness: the filter ["gaming"]. *)
Lemma fetch_channel_videos_category_filter_witness :
  ∃ s' df,
    demo_fetch 4 70 (Some "gaming") three_pages = (s', Ok df) ∧
    resolve_category (Some "gaming") = Some (py_str (category_ids !! "gaming")) ∧
    ∀ rec, rec ∈ df → category_id rec = py_str (category_ids !! "gaming").
Proof.
  apply (fetch_channel_videos_category_filter (World0 := stub_world demo_api)
           three_pages [] [] tt "UC1" (Some 0) (Some 1) 70 "gaming").
  discriminate.
Defined.

(** The stub serves videos of category ["20"] only. *)
Lemma demo_api_serves_gaming cat :
  served (World0 := stub_world demo_api) cat → cat = "20".
Proof.
  intros (part & id & w & w' & resp & vi & rest & sn & Hcall & Hitems & Hsn & Hcat).
  cbn in Hcall. simplify_eq. cbn in Hitems. simplify_eq. cbn in Hsn.
  simplify_eq. cbn in Hcat. by simplify_eq.
Qed.

(** C10, witness: the filter ["cooking"], which is not in the table. *)
Lemma fetch_channel_videos_unknown_category_witness :
  resolve_category (Some "cooking") = Some "None" ∧
  ∃ s', demo_fetch 4 70 (Some "cooking") three_pages = (s', Ok []).
Proof.
  apply (fetch_channel_videos_unknown_category (World0 := stub_world demo_api)
           three_pages [] [] tt "UC1" (Some 0) (Some 1) 70 "cooking").
  - discriminate.
  - vm_compute. reflexivity.
  - intros Hserved. apply demo_api_serves_gaming in Hserved. discriminate.
Defined.


(** C6, witness: the reference library decodes ["PT1M30S"]. *)
Lemma parse_duration_spec_witness :
  _parse_duration (W := list Q) "PT1M30S" (State [] [] tt)
    = (State [] [] tt, Ok 90) ∧
  (∀ code, isodate_parse_duration code = inr minute_and_a_half →
     _parse_duration (W := list Q) code (State [] [] tt)
       = (State [] [] tt, Ok 90)) ∧
  (∀ code e, isodate_parse_duration code = inl e →
     _parse_duration (W := list Q) code (State [] [] tt)
       = (State [] [] tt, Ok 0)).
Proof.
  apply (parse_duration_spec (W := list Q) (State [] [] tt)).
  reflexivity.
Defined.

(** C8, witness: five candidates and a sample size of 1000. *)
Lemma get_top_channels_returns_all_witness :
  get_top_channels_by_category (World0 := stub_world demo_api) 2 20 "key" 1000
      (State [] [] tt)
    = (State (world (gathered 1000 [])) (stdout (gathered 1000 [])) tt,
       Ok (sort_desc (locals (gathered 1000 [])))) ∧
  sort_desc (locals (gathered 1000 [])) ≡ₚ locals (gathered 1000 []) ∧
  (descending (locals (gathered 1000 [])) →
   sort_desc (locals (gathered 1000 [])) = locals (gathered 1000 [])).
Proof.
  apply (get_top_channels_returns_all (World0 := stub_world demo_api)
           2 20 "key" 1000 (State [] [] tt) (gathered 1000 []));
    [vm_compute; reflexivity|vm_compute; discriminate].
Defined.

(** C9, witness: five candidates, a sample size of 3 and the draws
    [demo_normals]. *)
Lemma get_top_channels_samples_witness :
  ∃ s' indices sampled,
    get_top_channels_by_category (World0 := stub_world demo_api) 2 20 "key" 3
        (State demo_normals [] tt)
      = (s', Ok sampled) ∧
    len sampled ≤ 3 ∧
    NoDup indices ∧
    Sorted Z.le indices ∧
    Forall2 (at_index (sort_desc (locals (gathered 3 demo_normals)))) indices sampled ∧
    (∀ x, x ∈ sampled → x ∈ locals (gathered 3 demo_normals)).
Proof.
  apply (get_top_channels_samples (World0 := stub_world demo_api)
           2 20 "key" 3 (State demo_normals [] tt) (gathered 3 demo_normals));
    [vm_compute; reflexivity|lia|vm_compute; reflexivity].
Defined.

(** * Further properties of the code *)

(** ** Where the records of [fetch_channel_videos] come from *)

Section origin.
Context {W : Type} `{!World W} `{!PyLib}.

Ltac solve_detail_calls :=
  repeat first
    [ apply dc_refl
    | eapply dc_videos; [eassumption|]
    | eapply dc_comments; [eassumption|] ].

Lemma fetch_item_origin max_videos target sc item s :
  wp (fetch_item max_videos target sc item) (origin_post sc item s) s.
Proof.
  unfold fetch_item, _parse_duration, int_get.
  wp_go.
  all: unfold origin_post; cbn [world stdout locals].
  all: (split; [reflexivity|split; [solve_detail_calls|]]).
  all: first
    [ by left
    | right; eexists; split; [reflexivity|];
      unfold from_item, copied_from, item_video_id;
      cbn [video_id title description published_at thumbnail_url
           current_subscriber_count category_name category_id];
      split_and!; [| |reflexivity|reflexivity] ].
  all: first
    [ match goal with
      | Hi : si_id _ = Some _, Hv : videoId _ = Some _ |- _ =>
          by rewrite Hi; cbn; rewrite Hv
      end
    | eexists; split_and!; eassumption ].
Qed.

Lemma for_each_fetch_item_origin max_videos target sc items s :
  wp (for_each (fetch_item max_videos target sc) items)
     (origins_post sc items s) s.
Proof.
  revert s. induction items as [|item items IH]; intros s; cbn [for_each].
  { apply wp_ret. split_and!; [done|apply dc_refl|].
    exists [], []. split_and!; [done|constructor|by rewrite app_nil_r]. }
  apply wp_bind. eapply wp_mono; [apply fetch_item_origin|].
  intros s1 r1 (Hout & Hcalls & Hcase). unfold then_wp.
  assert (Hstop : ∀ r, origins_post sc (item :: items) s s1 r).
  { intros r. split_and!; [done..|].
    destruct Hcase as [Hl|(rec & Hl & Hrec)].
    - exists [], []. split_and!; [apply sublist_nil_l|constructor|].
      by rewrite Hl, app_nil_r.
    - exists [item], [rec]. split_and!; [|by apply Forall2_cons|done].
      apply sublist_skip, sublist_nil_l. }
  destruct r1 as [[|]|e|]; [|by apply wp_ret|done..].
  eapply wp_mono; [apply IH|].
  intros s2 r2 (Hout2 & Hcalls2 & sub & added & Hsub & Hrecs & Hl2).
  split_and!; [congruence|by eapply detail_calls_trans|].
  destruct Hcase as [Hl|(rec & Hl & Hrec)].
  - exists sub, added. split_and!; [by apply sublist_cons|done|congruence].
  - exists (item :: sub), (rec :: added).
    split_and!; [by apply sublist_skip|by constructor|].
    by rewrite Hl2, Hl, <- app_assoc.
Qed.
End origin.

Section origin_scripted.
Context {W : Type} `{!World W} `{!PyLib}.

Lemma script_items_app pages1 pages2 :
  script_items (pages1 ++ pages2) = script_items pages1 ++ script_items pages2.
Proof. unfold script_items. apply bind_app. Qed.

Lemma pages_origin_refl sc (s : state (scripted W) (list video_record)) r :
  pages_origin_post sc s s r.
Proof.
  split; [done|]. exists [], [], []. split_and!; [done|done|constructor|].
  by rewrite app_nil_r.
Qed.

Lemma page_loop_origin fuel cid pa pb max_videos target sc tok
    (s : state (scripted W) (list video_record)) :
  wp (page_loop fuel cid pa pb max_videos target sc tok)
     (pages_origin_post sc s) s.
Proof.
  revert tok s. induction fuel as [|fuel IH]; intros tok s; cbn [page_loop].
  { wp_go; apply pages_origin_refl. }
  apply wp_bind, wp_get_locals. unfold then_wp.
  destruct (_ <? _); [|apply wp_ret, pages_origin_refl].
  apply wp_bind, wp_call; intros w' x Hcall; unfold then_wp.
  { cbn in Hcall. destruct (script (world s)) eqn:Hs; simplify_eq.
    - destruct s; apply pages_origin_refl.
    - split; [done|]. exists [inl x], [], []. cbn.
      split_and!; [done|done|constructor|by rewrite app_nil_r]. }
  assert (Hs : script (world s) = inr x :: script w').
  { cbn in Hcall. destruct (script (world s)); by simplify_eq. }
  apply wp_bind. eapply wp_mono; [apply for_each_fetch_item_origin|].
  intros s1 r1 (Hout & Hcalls%detail_calls_script & sub & added & Hsub & Hrecs & Hl).
  cbn [world stdout locals] in *.
  assert (Hhere : ∀ r, pages_origin_post sc s s1 r).
  { intros r. split; [done|]. exists [inr x], sub, added.
    split_and!; [by rewrite Hcalls|by cbn; rewrite app_nil_r|done..]. }
  destruct r1 as [[]|e|]; cbn [then_wp]; [|done..].
  destruct (truthy _); [|by apply wp_ret].
  eapply wp_mono; [apply IH|].
  intros s2 r2 (Hout2 & consumed & sub2 & added2 & Hs2 & Hsub2 & Hrecs2 & Hl2).
  split; [congruence|].
  exists (inr x :: consumed), (sub ++ sub2), (added ++ added2).
  split_and!.
  - rewrite Hs, <- Hcalls, Hs2. done.
  - change (inr x :: consumed) with ([inr x] ++ consumed).
    rewrite script_items_app. apply sublist_app; [|done].
    by cbn; rewrite app_nil_r.
  - by apply Forall2_app.
  - by rewrite Hl2, Hl, <- app_assoc.
Qed.
End origin_scripted.

Lemma wp_run_eq {W L A} (m : M W L A) (Q : state W L → result A → Prop) s s' r :
  wp m Q s → m s = (s', r) → Q s' r.
Proof. unfold wp. intros HQ Hrun. by rewrite Hrun in HQ. Qed.

Lemma wp_run_post {W L A} (P : state W L → result A → Prop) (m : M W L A) s :
  wp m P s → P (m s).1 (m s).2.
Proof. done. Qed.

Section subscribers.
Context {W : Type} `{!World W} `{!PyLib}.

Lemma fetch_setup_subscribers {L} cid sd ed (s : state W L) :
  wp (fetch_setup cid sd ed)
     (λ s' r, locals s' = locals s ∧
        ∃ pa pb sc, r = Ok (pa, pb, sc) ∧ (sc = 0 ∨ subscribers_served cid sc)) s.
Proof.
  unfold fetch_setup. wp_go.
  all: split; [reflexivity|]; eexists _, _, _; split; [reflexivity|].
  all: first [by left | right; subst; unfold subscribers_served;
                        do 7 eexists; split_and!; eassumption].
Qed.
End subscribers.

Section origin_function.
Context {W : Type} `{!World W} `{!PyLib}.

Lemma subscribers_served_scripted cid sc :
  subscribers_served (W := scripted W) cid sc → subscribers_served (W := W) cid sc.
Proof.
  intros (w & w' & resp & ch & rest & st & n & Hcall & Hrest).
  cbn in Hcall. unfold on_inner in Hcall.
  destruct (channels_list "statistics" cid (inner w)) as [i' r] eqn:Hinner.
  injection Hcall as _ ->.
  by exists (inner w), i', resp, ch, rest, st, n.
Qed.

Lemma fetch_channel_videos_origin_wp {L} fuel cid sd ed max_videos category
    (s : state (scripted W) L) :
  wp (fetch_channel_videos fuel cid sd ed max_videos category)
     (origin_function_post cid (script (world s))) s.
Proof.
  unfold fetch_channel_videos. apply wp_frame, wp_bind.
  eapply wp_mono;
    [apply wp_and; [apply fetch_setup_subscribers|apply fetch_setup_script]|].
  intros s1 r1 [[Hl1 (pa & pb & sc & -> & Hsc)] Hscript].
  cbn [world stdout locals then_wp] in *.
  apply wp_bind, wp_try_except.
  eapply wp_mono; [apply page_loop_origin|].
  intros s2 r2 (_ & consumed & sub & added & Hs & Hsub & Hrecs & Hl2).
  rewrite Hl1 in Hl2. cbn [app] in Hl2.
  assert (Hfinal : ∀ out, origin_function_post cid (script (world s))
            (State (world s2) out (locals s)) (Ok (locals s2))).
  { intros out df [= <-]. exists sc, sub. split_and!.
    - destruct Hsc as [?|?%subscribers_served_scripted]; auto.
    - rewrite <- Hscript, Hs, script_items_app. by apply sublist_inserts_r.
    - by rewrite Hl2. }
  destruct r2 as [[]|e|]; cbn [catch_wp then_wp].
  - wp_go. destruct s2. apply Hfinal.
  - wp_go. apply Hfinal.
  - by intros df.
Qed.

Lemma fetch_channel_videos_origin {L} pages (w : W) out (l : L)
    cid sd ed max_videos category :
  ∃ s' df sc sub,
    fetch_channel_videos (S (length pages)) cid sd ed max_videos category
      (State (Scripted pages w) out l) = (s', Ok df) ∧
    (sc = 0 ∨ subscribers_served (W := W) cid sc) ∧
    sub `sublist_of` script_items pages ∧
    Forall2 (from_item sc) sub df ∧
    Forall (passes (W := W) (resolve_category category)) df.
Proof.
  destruct (fetch_channel_videos_returns pages w out l cid sd ed max_videos category)
    as (s' & df & Hrun & Hpass & _).
  pose proof (wp_run_eq _ _ _ _ _
    (fetch_channel_videos_origin_wp (S (length pages)) cid sd ed max_videos
       category (State (Scripted pages w) out l)) Hrun) as Horigin.
  destruct (Horigin df eq_refl) as (sc & sub & Hsc & Hsub & Hrecs).
  by exists s', df, sc, sub.
Qed.
End origin_function.

(** ** The category table and its reverse *)

Lemma category_table_keys : NoDup (category_table.*1).
Proof. apply (bool_decide_unpack _). by vm_compute. Qed.

Lemma category_ids_table c z :
  category_ids !! c = Some z ↔ (c, z) ∈ category_table.
Proof.
  unfold category_ids. symmetry.
  apply elem_of_list_to_map, category_table_keys.
Qed.

Lemma category_names_table id c :
  category_names !! id = Some c ↔ ∃ z, (c, z) ∈ category_table ∧ id = pretty z.
Proof.
  unfold category_names.
  rewrite <- elem_of_list_to_map.
  - rewrite elem_of_reverse, list_elem_of_In, in_map_iff.
    split.
    + intros ([c' z] & [= <- <-] & Hin%list_elem_of_In). by exists z.
    + intros (z & Hin%list_elem_of_In & ->). by exists (c, z).
  - apply (bool_decide_unpack _). by vm_compute.
Qed.

(** The reverse table undoes the table: the name that [category_names]
    has for the printed id of [c] is [c]. *)
Lemma category_names_of_id c z :
  category_ids !! c = Some z → category_names !! pretty z = Some c.
Proof.
  intros Hc%category_ids_table. apply category_names_table. by exists z.
Qed.

Lemma category_names_table_name id :
  table_name id (default "Unknown" (category_names !! id)).
Proof.
  destruct (category_names !! id) as [c|] eqn:Hid; cbn.
  - apply category_names_table in Hid as (z & Hin & ->).
    left. exists z. by rewrite category_ids_table.
  - right. split; [done|]. intros c z Hc ->.
    by rewrite (category_names_of_id c z) in Hid.
Qed.

Lemma category_ids_nonempty c z : category_ids !! c = Some z → c ≠ "".
Proof.
  intros Hc%category_ids_table ->. revert Hc.
  apply (bool_decide_unpack _). by vm_compute.
Qed.

Section record_theorems.
Context {W : Type} `{!World W} `{!PyLib}.

(** X1. Over any finite script of pages, [fetch_channel_videos] returns
    records of search results of the script, in the order of the script
    and each result at most once: the id, title, description, publish
    date and thumbnail of each record are those of its search result. *)
Theorem fetch_channel_videos_page_order {L} pages (w : W) out (l : L)
    cid sd ed max_videos category :
  ∃ s' df sub,
    fetch_channel_videos (S (length pages)) cid sd ed max_videos category
      (State (Scripted pages w) out l) = (s', Ok df) ∧
    sub `sublist_of` script_items pages ∧
    Forall2 copied_from sub df.
Proof.
  destruct (fetch_channel_videos_origin pages w out l cid sd ed max_videos category)
    as (s' & df & sc & sub & Hrun & _ & Hsub & Hrecs & _).
  exists s', df, sub. split_and!; [done..|].
  eapply Forall2_impl; [exact Hrecs|]. by intros item rec [? _].
Qed.

(** X2. All records of a run carry the same subscriber count, and that
    count is 0 unless the platform served it as the [subscriberCount] of
    the first item of the channel's statistics. *)
Theorem fetch_channel_videos_subscriber_stamp {L} pages (w : W) out (l : L)
    cid sd ed max_videos category :
  ∃ s' df sc,
    fetch_channel_videos (S (length pages)) cid sd ed max_videos category
      (State (Scripted pages w) out l) = (s', Ok df) ∧
    (sc = 0 ∨ subscribers_served (W := W) cid sc) ∧
    ∀ rec, rec ∈ df → current_subscriber_count rec = sc.
Proof.
  destruct (fetch_channel_videos_origin pages w out l cid sd ed max_videos category)
    as (s' & df & sc & sub & Hrun & Hsc & _ & Hrecs & _).
  exists s', df, sc. split_and!; [done..|].
  intros rec (k & Hk)%list_elem_of_lookup.
  destruct (Forall2_lookup_r _ _ _ _ _ Hrecs Hk) as (item & _ & _ & Hsc' & _).
  done.
Qed.

(** X3. The category name of every record is the name that the table has
    for the record's category id, and ["Unknown"] when the id is none of
    the table's. *)
Theorem fetch_channel_videos_category_names {L} pages (w : W) out (l : L)
    cid sd ed max_videos category :
  ∃ s' df,
    fetch_channel_videos (S (length pages)) cid sd ed max_videos category
      (State (Scripted pages w) out l) = (s', Ok df) ∧
    ∀ rec, rec ∈ df → table_name (category_id rec) (category_name rec).
Proof.
  destruct (fetch_channel_videos_origin pages w out l cid sd ed max_videos category)
    as (s' & df & sc & sub & Hrun & _ & _ & Hrecs & _).
  exists s', df. split; [done|].
  intros rec (k & Hk)%list_elem_of_lookup.
  destruct (Forall2_lookup_r _ _ _ _ _ Hrecs Hk) as (item & _ & _ & _ & ->).
  apply category_names_table_name.
Qed.

(** X4. With a category of the table as filter, every record carries the
    id of that category and its name. *)
Theorem fetch_channel_videos_filter_name {L} pages (w : W) out (l : L)
    cid sd ed max_videos c z :
  category_ids !! c = Some z →
  ∃ s' df,
    fetch_channel_videos (S (length pages)) cid sd ed max_videos (Some c)
      (State (Scripted pages w) out l) = (s', Ok df) ∧
    ∀ rec, rec ∈ df → category_id rec = pretty z ∧ category_name rec = c.
Proof.
  intros Hc. pose proof (category_ids_nonempty c z Hc) as Hne.
  destruct (fetch_channel_videos_origin pages w out l cid sd ed max_videos (Some c))
    as (s' & df & sc & sub & Hrun & _ & _ & Hrecs & Hpass).
  exists s', df. split; [done|].
  rewrite resolve_category_Some, Hc in Hpass by done. cbn [py_str] in Hpass.
  rewrite Forall_forall in Hpass.
  intros rec Hrec.
  assert (Hid : category_id rec = pretty z).
  { eapply passes_Some; [|by apply Hpass]. apply (py_str_nonempty (Some z)). }
  split; [done|].
  apply list_elem_of_lookup in Hrec as (k & Hk).
  destruct (Forall2_lookup_r _ _ _ _ _ Hrecs Hk) as (item & _ & _ & _ & ->).
  by rewrite Hid, (category_names_of_id c z).
Qed.
End record_theorems.

(** ** The search requests of [fetch_channel_videos] *)

Section request_lemmas.
Context {W : Type} `{!World W} `{!PyLib}.

Lemma on_recorded_calls {A} (f : W → W * A) w w' a :
  on_recorded f w = (w', a) → calls w' = calls w.
Proof. unfold on_recorded. destruct (f (recorded w)). by intros [= <- _]. Qed.

Lemma detail_calls_recorded (w w' : recording W) :
  detail_calls w w' → calls w' = calls w.
Proof.
  induction 1 as [|part id w w' r w'' Hcall _ IH|part id n w w' r w'' Hcall _ IH];
    [done|..]; rewrite IH; exact (on_recorded_calls _ _ _ _ Hcall).
Qed.

Lemma recorded_now (w w' : recording W) now :
  datetime_now w = (w', now) →
  ∃ i', datetime_now (recorded w) = (i', now) ∧ calls w' = calls w.
Proof.
  cbn. unfold on_recorded. destruct (datetime_now (recorded w)) as [i' n].
  intros [= <- <-]. by exists i'.
Qed.

Lemma fetch_setup_recorded {L} cid sd ed (s : state (recording W) L) :
  wp (fetch_setup cid sd ed)
     (λ s' r, calls (world s') = calls (world s) ∧ locals s' = locals s ∧
        ∃ pa pb sc, r = Ok (pa, pb, sc) ∧
                    window_bound sd days_365 pa ∧ window_bound ed 0 pb) s.
Proof.
  unfold fetch_setup. wp_go.
  all: repeat match goal with
         | Hn : datetime_now _ = (_, _) |- _ =>
             apply recorded_now in Hn as (? & ? & ?)
         end.
  all: repeat match goal with
         | Hc : _ = (_, _) |- _ => apply on_recorded_calls in Hc
         end.
  all: split_and!; [congruence|reflexivity|].
  all: eexists _, _, _; split_and!; [reflexivity|..].
  all: subst; cbn [window_bound]; try reflexivity.
  all: match goal with
       | Hn : datetime_now _ = (_, ?n) |- _ =>
           eexists _, _, n; split; [exact Hn|];
           first [reflexivity | by rewrite Z.sub_0_r]
       end.
Qed.

Lemma recorded_search rq (w w' : recording W) r :
  search_list rq w = (w', r) → calls w' = calls w ++ [(rq, r)].
Proof.
  cbn. destruct (search_list rq (recorded w)) as [i' r']. by intros [= <- <-].
Qed.

Lemma requests_post_nil fuel cid pa pb max_videos tok
    (s s' : state (recording W) (list video_record)) r :
  calls (world s') = calls (world s) →
  (max_videos ≤ len (locals s) → r = Ok tt) →
  requests_post fuel cid pa pb max_videos tok s s' r.
Proof.
  intros Hcalls Hr. exists []. split_and!; [by rewrite app_nil_r|constructor|done|cbn; lia|].
  intros Hmax. split; [done|by apply Hr].
Qed.

Lemma page_loop_requests fuel cid pa pb max_videos target sc tok
    (s : state (recording W) (list video_record)) :
  wp (page_loop fuel cid pa pb max_videos target sc tok)
     (requests_post fuel cid pa pb max_videos tok s) s.
Proof.
  revert tok s. induction fuel as [|fuel IH]; intros tok s; cbn [page_loop].
  { apply wp_bind, wp_get_locals. unfold then_wp.
    destruct (Z.ltb_spec (len (locals s)) max_videos).
    - apply wp_out_of_fuel, requests_post_nil; [done|lia].
    - by apply wp_ret, requests_post_nil. }
  apply wp_bind, wp_get_locals. unfold then_wp.
  destruct (Z.ltb_spec (len (locals s)) max_videos) as [Hlt|];
    [|by apply wp_ret, requests_post_nil].
  assert (Hlen : 0 ≤ len (locals s)) by (unfold len; lia).
  set (rq := {| rq_part := "id,snippet"; rq_q := None; rq_type := "video";
                rq_channelId := Some cid; rq_order := Some "date";
                rq_maxResults := Z.min 50 (max_videos - len (locals s));
                rq_publishedAfter := Some pa; rq_publishedBefore := Some pb;
                rq_pageToken := tok; rq_regionCode := None;
                rq_videoCategoryId := None |}).
  assert (Hrq : video_request cid pa pb max_videos rq).
  { unfold video_request, rq. cbn. split_and!; try done; lia. }
  assert (Hone : ∀ r0 (s1 : state (recording W) (list video_record)) r,
            calls (world s1) = calls (world s) ++ [(rq, r0)] →
            requests_post (S fuel) cid pa pb max_videos tok s s1 r).
  { intros r0 s1 r Hcalls. exists [(rq, r0)].
    split_and!; [done|by apply Forall_singleton|by split; [|left]|cbn; lia|lia]. }
  apply wp_bind, wp_call; intros w' x Hcall%recorded_search; unfold then_wp;
    [by eapply Hone|].
  apply wp_bind. eapply wp_mono; [apply for_each_fetch_item|].
  intros s1 r1 (_ & Hcalls%detail_calls_recorded & _ & _ & Hr).
  cbn [world stdout locals] in *. rewrite Hcall in Hcalls.
  destruct Hr as [->|[e ->]]; cbn [then_wp]; [|by eapply Hone].
  destruct (truthy (sr_nextPageToken x)) eqn:Htok; [|by eapply wp_ret, Hone].
  eapply wp_mono; [apply IH|].
  intros s2 r2 (new & Hnew & Hall & Hchain & Hcount & _).
  exists ((rq, inr x) :: new). split_and!.
  - by rewrite Hnew, Hcalls, <- app_assoc.
  - rewrite fmap_cons. by constructor.
  - split; [done|]. right. by exists x.
  - cbn. lia.
  - lia.
Qed.

Lemma fetch_channel_videos_requests_wp {L} fuel cid sd ed max_videos category
    (s : state (recording W) L) :
  wp (fetch_channel_videos fuel cid sd ed max_videos category)
     (fetch_requests_post fuel cid sd ed max_videos s) s.
Proof.
  unfold fetch_channel_videos. apply wp_frame, wp_bind.
  eapply wp_mono; [apply fetch_setup_recorded|].
  intros s1 r1 (Hcalls1 & Hl1 & pa & pb & sc & -> & Hpa & Hpb).
  cbn [world stdout locals then_wp] in *.
  apply wp_bind, wp_try_except.
  eapply wp_mono;
    [apply wp_and; [apply page_loop_requests|apply page_loop_post]|].
  intros s2 r2 [(new & Hnew & Hall & Hchain & Hcount & Hzero)
                (_ & _ & _ & Hstay)].
  rewrite Hl1 in Hzero, Hstay. change (len []) with 0 in *.
  assert (Hfinal : ∀ out r,
            (max_videos ≤ 0 → r = Ok (locals s2)) →
            fetch_requests_post fuel cid sd ed max_videos s
              (State (world s2) out (locals s)) r).
  { intros out r Hr. exists new, pa, pb. cbn [world].
    split_and!; [by rewrite Hnew, Hcalls1|done..|].
    intros Hmax. destruct (Hzero Hmax) as [-> _]. split; [done|].
    rewrite (Hr Hmax). destruct (Hstay Hmax) as [-> _]. by rewrite Hl1. }
  destruct r2 as [[]|e|]; cbn [catch_wp then_wp].
  - wp_go. destruct s2. by apply Hfinal.
  - wp_go. by apply Hfinal.
  - apply Hfinal. intros Hmax. by destruct (Hzero Hmax) as [_ ?].
Qed.

(** X5. Every search request of a run asks for videos of the channel,
    newest first, within the date window (the dates given, or else a
    reading of the clock and 365 days before a reading of the clock), and
    for between 1 and 50 results, never more than [max_videos]. *)
Theorem fetch_channel_videos_requests {L} fuel cid sd ed max_videos category
    (s : state (recording W) L) :
  ∃ new pa pb,
    calls (world (fetch_channel_videos fuel cid sd ed max_videos category s).1)
      = calls (world s) ++ new ∧
    window_bound sd days_365 pa ∧ window_bound ed 0 pb ∧
    Forall (video_request cid pa pb max_videos) new.*1.
Proof.
  destruct (fetch_channel_videos_requests_wp fuel cid sd ed max_videos category s)
    as (new & pa & pb & Hnew & Hpa & Hpb & Hall & _).
  by exists new, pa, pb.
Qed.

(** X6. The search calls of a run follow the continuation tokens: the
    first carries no token, and a call is followed by another only if it
    was answered with a non-empty token, which the next call carries. *)
Theorem fetch_channel_videos_token_chain {L} fuel cid sd ed max_videos category
    (s : state (recording W) L) :
  ∃ new,
    calls (world (fetch_channel_videos fuel cid sd ed max_videos category s).1)
      = calls (world s) ++ new ∧
    chained None new.
Proof.
  destruct (fetch_channel_videos_requests_wp fuel cid sd ed max_videos category s)
    as (new & pa & pb & Hnew & _ & _ & _ & Hchain & _).
  by exists new.
Qed.

(** X7. With a maximum of zero or less the function makes no search call
    and returns the empty frame, whatever the fuel. *)
Theorem fetch_channel_videos_no_quota {L} fuel cid sd ed max_videos category
    (s : state (recording W) L) :
  max_videos ≤ 0 →
  (fetch_channel_videos fuel cid sd ed max_videos category s).2 = Ok [] ∧
  calls (world (fetch_channel_videos fuel cid sd ed max_videos category s).1)
    = calls (world s).
Proof.
  intros Hmax.
  destruct (fetch_channel_videos_requests_wp fuel cid sd ed max_videos category s)
    as (new & pa & pb & Hnew & _ & _ & _ & _ & _ & Hzero).
  destruct (Hzero Hmax) as [-> Hr]. split; [done|]. by rewrite Hnew, app_nil_r.
Qed.
End request_lemmas.

(** ** The two directory functions *)

Lemma assigned_snoc entries id t :
  assigned (entries ++ [(id, t)]) = <[id := t]> (assigned entries).
Proof. unfold assigned. by rewrite reverse_snoc. Qed.

Lemma assigned_lookup entries id t :
  assigned entries !! id = Some t → (id, t) ∈ entries.
Proof.
  unfold assigned. intros Hin%elem_of_list_to_map_2. by apply elem_of_reverse.
Qed.

Lemma assigned_lookup_NoDup entries id t :
  NoDup entries.*1 → (id, t) ∈ entries → assigned entries !! id = Some t.
Proof.
  unfold assigned. intros Hnd Hin. apply elem_of_list_to_map_1.
  - by rewrite fmap_reverse, reverse_Permutation.
  - by apply elem_of_reverse.
Qed.

Lemma wp_run_is {W L A} (m : M W L A) s s' r :
  wp m (λ s1 r1, s1 = s' ∧ r1 = r) s → m s = (s', r).
Proof. unfold wp. intros [<- <-]. by destruct (m s). Qed.

Section directory_lemmas.
Context {W : Type} `{!World W} `{!PyLib}.

(** The loop of [get_guide_categories] over items that all have an id and
    a title. *)
Lemma for_each_categories items entries done
    (s : state W (gmap string string)) :
  Forall2 (λ category e, category_entry category = Some e) items entries →
  locals s = assigned done →
  wp (for_each
        (λ category,
           sn ← getitem "snippet" (rs_snippet category);
           t ← getitem "title" (sn_title sn);
           id ← getitem "id" (rs_id category);
           categories ← get_locals;
           set_locals (<[id := t]> categories);;
           mret Next)
        items)
     (λ s' r, s' = State (world s) (stdout s) (assigned (done ++ entries)) ∧
              r = Ok tt) s.
Proof.
  intros Hitems. revert done s.
  induction Hitems as [|category [id t] items entries Hentry _ IH];
    intros done s Hdone; cbn [for_each].
  { apply wp_ret. rewrite app_nil_r, <- Hdone. by destruct s. }
  unfold category_entry in Hentry.
  destruct (rs_snippet category) as [sn|] eqn:Hsn; [|done]. cbn in Hentry.
  destruct (sn_title sn) as [t'|] eqn:Ht; [|done]. cbn in Hentry.
  destruct (rs_id category) as [id'|] eqn:Hid; [|done]. cbn in Hentry.
  injection Hentry as -> ->.
  apply wp_bind. cbn beta. wp_go; simplify_eq; try congruence.
  repeat match goal with
         | H1 : ?x = Some ?a, H2 : ?x = Some ?b |- _ =>
             assert (a = b) by congruence; clear H2; simplify_eq
         end.
  match goal with
  | Hid : rs_id category = Some ?id |- _ =>
      eapply wp_mono;
      [ apply (IH (done ++ [(id, t)])); cbn [locals];
        by rewrite Hdone, assigned_snoc |]
  end.
  cbn [world stdout]. intros s' r [-> ->]. by rewrite <- app_assoc.
Qed.

(** X8. When every item of the category listing has an id and a title,
    [get_guide_categories] returns the dictionary that maps each id to the
    title of the last item with that id; it has no key that the listing
    does not have, and nothing is printed. *)
Theorem get_guide_categories_entries {L} part region (s : state W L)
    w' response entries :
  videoCategories_list part region (world s) = (w', inr response) →
  Forall2 (λ category e, category_entry category = Some e)
          (default [] (lr_items response)) entries →
  get_guide_categories part region s
    = (State w' (stdout s) (locals s), Ok (assigned entries)) ∧
  (∀ id t, assigned entries !! id = Some t → (id, t) ∈ entries) ∧
  (NoDup entries.*1 →
   ∀ id t, (id, t) ∈ entries → assigned entries !! id = Some t).
Proof.
  intros Hcall Hitems. split_and!.
  - unfold get_guide_categories.
    apply wp_run_is. apply wp_bind, wp_call;
      intros w'' x Hcall'; rewrite Hcall in Hcall'; simplify_eq.
    cbn [then_wp]. apply wp_frame, wp_bind. eapply wp_mono.
    { apply (for_each_categories _ entries []); [done|]. by cbn. }
    cbn [world stdout locals]. intros s1 r1 [-> ->]. cbn [then_wp].
    wp_go. by destruct s.
  - apply assigned_lookup.
  - intros Hnd id t. by apply assigned_lookup_NoDup.
Qed.
End directory_lemmas.

Section directory_errors.
Context {W : Type} `{!World W} `{!PyLib}.

(** One turn of the loop of [get_guide_categories]. *)
Lemma category_body category (s : state W (gmap string string)) :
  wp (sn ← getitem "snippet" (rs_snippet category);
      t ← getitem "title" (sn_title sn);
      id ← getitem "id" (rs_id category);
      categories ← get_locals;
      set_locals (<[id := t]> categories);;
      mret Next)
     (λ s' r,
        match category_entry category with
        | Some (id, t) =>
            s' = State (world s) (stdout s) (<[id := t]> (locals s)) ∧
            r = Ok Next
        | None =>
            s' = s ∧
            ∃ key, r = Raise (KeyError key) ∧ key ∈ ["snippet"; "title"; "id"]
        end) s.
Proof.
  unfold category_entry. wp_go.
  all: repeat (match goal with
               | H : _ = Some _ |- _ => rewrite H; clear H
               | H : _ = None |- _ => rewrite H; clear H
               end; cbn).
  all: try done.
  all: split; [done|eexists; split; [done|set_solver]].
Qed.

(** The loop of [get_guide_categories] stops at the first item that lacks
    its id or its title. *)
Lemma for_each_categories_raise good entries bad rest done
    (s : state W (gmap string string)) :
  Forall2 (λ category e, category_entry category = Some e) good entries →
  category_entry bad = None →
  locals s = assigned done →
  wp (for_each
        (λ category,
           sn ← getitem "snippet" (rs_snippet category);
           t ← getitem "title" (sn_title sn);
           id ← getitem "id" (rs_id category);
           categories ← get_locals;
           set_locals (<[id := t]> categories);;
           mret Next)
        (good ++ bad :: rest))
     (λ s' r, s' = State (world s) (stdout s) (assigned (done ++ entries)) ∧
              ∃ key, r = Raise (KeyError key) ∧
                     key ∈ ["snippet"; "title"; "id"]) s.
Proof.
  intros Hgood Hbad. revert done s.
  induction Hgood as [|category [id t] good entries Hentry _ IH];
    intros done s Hdone; cbn [for_each app].
  - apply wp_bind. eapply wp_mono; [apply category_body|].
    intros s' r. rewrite Hbad. intros [-> (key & -> & Hkey)]. cbn [then_wp].
    split; [|by exists key]. rewrite app_nil_r, <- Hdone. by destruct s.
  - apply wp_bind. eapply wp_mono; [apply category_body|].
    intros s' r. rewrite Hentry. intros [-> ->]. cbn [then_wp].
    eapply wp_mono.
    { apply (IH (done ++ [(id, t)])). cbn [locals].
      by rewrite Hdone, assigned_snoc. }
    cbn [world stdout]. intros s' r [-> Hr]. by rewrite <- app_assoc.
Qed.

(** One turn of the loop of [search_channels_by_category]. *)
Lemma hit_body item (s : state W (list channel_hit)) :
  wp (sn ← getitem "snippet" (si_snippet item);
      cid ← getitem "channelId" (sn_channelId sn);
      t ← getitem "title" (sn_title sn);
      d ← getitem "description" (sn_description sn);
      channels ← get_locals;
      set_locals (channels ++
        [ {| ch_channel_id := cid; ch_channel_title := t;
             ch_description := d |} ]);;
      mret Next)
     (λ s' r,
        match hit_of item with
        | Some h =>
            s' = State (world s) (stdout s) (locals s ++ [h]) ∧ r = Ok Next
        | None =>
            s' = s ∧
            ∃ key, r = Raise (KeyError key) ∧
                   key ∈ ["snippet"; "channelId"; "title"; "description"]
        end) s.
Proof.
  unfold hit_of. wp_go.
  all: repeat (match goal with
               | H : _ = Some _ |- _ => rewrite H; clear H
               | H : _ = None |- _ => rewrite H; clear H
               end; cbn).
  all: try done.
  all: split; [done|eexists; split; [done|set_solver]].
Qed.

(** The loop of [search_channels_by_category] over results that all have
    a channel id, a title and a description. *)
Lemma for_each_hits items hits (s : state W (list channel_hit)) :
  Forall2 (λ item h, hit_of item = Some h) items hits →
  wp (for_each
        (λ item,
           sn ← getitem "snippet" (si_snippet item);
           cid ← getitem "channelId" (sn_channelId sn);
           t ← getitem "title" (sn_title sn);
           d ← getitem "description" (sn_description sn);
           channels ← get_locals;
           set_locals (channels ++
             [ {| ch_channel_id := cid; ch_channel_title := t;
                  ch_description := d |} ]);;
           mret Next)
        items)
     (λ s' r, s' = State (world s) (stdout s) (locals s ++ hits) ∧
              r = Ok tt) s.
Proof.
  intros Hitems. revert s.
  induction Hitems as [|item h items hits Hhit _ IH]; intros s; cbn [for_each].
  { apply wp_ret. rewrite app_nil_r. by destruct s. }
  apply wp_bind. eapply wp_mono; [apply hit_body|].
  intros s' r. rewrite Hhit. intros [-> ->]. cbn [then_wp].
  eapply wp_mono; [apply IH|].
  cbn [world stdout locals]. intros s' r [-> ->]. by rewrite <- app_assoc.
Qed.

(** The loop of [search_channels_by_category] stops at the first result
    that lacks a field. *)
Lemma for_each_hits_raise good hits bad rest (s : state W (list channel_hit)) :
  Forall2 (λ item h, hit_of item = Some h) good hits →
  hit_of bad = None →
  wp (for_each
        (λ item,
           sn ← getitem "snippet" (si_snippet item);
           cid ← getitem "channelId" (sn_channelId sn);
           t ← getitem "title" (sn_title sn);
           d ← getitem "description" (sn_description sn);
           channels ← get_locals;
           set_locals (channels ++
             [ {| ch_channel_id := cid; ch_channel_title := t;
                  ch_description := d |} ]);;
           mret Next)
        (good ++ bad :: rest))
     (λ s' r, s' = State (world s) (stdout s) (locals s ++ hits) ∧
              ∃ key, r = Raise (KeyError key) ∧
                     key ∈ ["snippet"; "channelId"; "title"; "description"]) s.
Proof.
  intros Hgood Hbad. revert s.
  induction Hgood as [|item h good hits Hhit _ IH]; intros s;
    cbn [for_each app].
  - apply wp_bind. eapply wp_mono; [apply hit_body|].
    intros s' r. rewrite Hbad. intros [-> (key & -> & Hkey)]. cbn [then_wp].
    split; [|by exists key]. rewrite app_nil_r. by destruct s.
  - apply wp_bind. eapply wp_mono; [apply hit_body|].
    intros s' r. rewrite Hhit. intros [-> ->]. cbn [then_wp].
    eapply wp_mono; [apply IH|].
    cbn [world stdout locals]. intros s' r [-> Hr]. by rewrite <- app_assoc.
Qed.

(** X9. When one item of the category listing lacks its id or its title,
    [get_guide_categories] raises [KeyError] for the missing key: the
    entries of the items before it are lost, and nothing is printed. *)
Theorem get_guide_categories_missing_key {L} part region (s : state W L)
    w' response good entries bad rest :
  videoCategories_list part region (world s) = (w', inr response) →
  lr_items response = Some (good ++ bad :: rest) →
  Forall2 (λ category e, category_entry category = Some e) good entries →
  category_entry bad = None →
  ∃ key,
    get_guide_categories part region s
      = (State w' (stdout s) (locals s), Raise (KeyError key)) ∧
    key ∈ ["snippet"; "title"; "id"].
Proof.
  intros Hcall Hitems Hgood Hbad.
  assert (Hwp : wp (get_guide_categories part region)
            (λ s' r, s' = State w' (stdout s) (locals s) ∧
               ∃ key, r = Raise (KeyError key) ∧
                      key ∈ ["snippet"; "title"; "id"]) s).
  { unfold get_guide_categories.
    apply wp_bind, wp_call; intros w'' x Hcall'; rewrite Hcall in Hcall';
      simplify_eq.
    cbn [then_wp]. apply wp_frame, wp_bind. rewrite Hitems. cbn [default from_option id].
    eapply wp_mono.
    { by apply (for_each_categories_raise good entries bad rest []). }
    cbn [world stdout locals]. intros s1 r1 [-> (key & -> & Hkey)].
    cbn [then_wp world stdout]. split; [done|by exists key]. }
  apply wp_exists in Hwp as (s' & r & Hrun & -> & key & -> & Hkey).
  by exists key.
Qed.

(** X10. When every result of the search has a channel id, a title and a
    description, [search_channels_by_category] returns one entry per
    result, in the order of the response; a response without [items]
    gives the empty list.  Nothing is printed. *)
Theorem search_channels_by_category_hits {L} category_id max_results
    (s : state W L) w' response hits :
  search_list (category_search category_id max_results) (world s)
    = (w', inr response) →
  Forall2 (λ item h, hit_of item = Some h)
          (default [] (sr_items response)) hits →
  search_channels_by_category category_id max_results s
    = (State w' (stdout s) (locals s), Ok hits) ∧
  (sr_items response = None → hits = []).
Proof.
  intros Hcall Hitems. split.
  - unfold search_channels_by_category.
    apply wp_run_is. apply wp_bind, wp_call;
      intros w'' x Hcall'; rewrite Hcall in Hcall'; simplify_eq.
    cbn [then_wp]. apply wp_frame, wp_bind. eapply wp_mono.
    { by apply (for_each_hits _ hits). }
    cbn [world stdout locals]. intros s1 r1 [-> ->]. cbn [then_wp].
    wp_go. by destruct s.
  - intros Hnone. rewrite Hnone in Hitems. cbn in Hitems.
    by apply Forall2_nil_inv_l in Hitems.
Qed.

(** X11. When one result of the search lacks its snippet, channel id,
    title or description, [search_channels_by_category] raises [KeyError]
    for the missing key and returns none of the results before it. *)
Theorem search_channels_by_category_missing_key {L} category_id max_results
    (s : state W L) w' response good hits bad rest :
  search_list (category_search category_id max_results) (world s)
    = (w', inr response) →
  sr_items response = Some (good ++ bad :: rest) →
  Forall2 (λ item h, hit_of item = Some h) good hits →
  hit_of bad = None →
  ∃ key,
    search_channels_by_category category_id max_results s
      = (State w' (stdout s) (locals s), Raise (KeyError key)) ∧
    key ∈ ["snippet"; "channelId"; "title"; "description"].
Proof.
  intros Hcall Hitems Hgood Hbad.
  assert (Hwp : wp (search_channels_by_category category_id max_results)
            (λ s' r, s' = State w' (stdout s) (locals s) ∧
               ∃ key, r = Raise (KeyError key) ∧
                 key ∈ ["snippet"; "channelId"; "title"; "description"]) s).
  { unfold search_channels_by_category.
    apply wp_bind, wp_call; intros w'' x Hcall'; rewrite Hcall in Hcall';
      simplify_eq.
    cbn [then_wp]. apply wp_frame, wp_bind. rewrite Hitems. cbn [default from_option id].
    eapply wp_mono.
    { by apply (for_each_hits_raise good hits bad rest). }
    cbn [world stdout locals]. intros s1 r1 [-> (key & -> & Hkey)].
    cbn [then_wp world stdout]. split; [done|by exists key]. }
  apply wp_exists in Hwp as (s' & r & Hrun & -> & key & -> & Hkey).
  by exists key.
Qed.
End directory_errors.

(** ** The order of the result of the sampler *)

Lemma insert_desc_descending x l : descending l → descending (insert_desc x l).
Proof.
  unfold descending. induction 1 as [|y l Hl IH Hy]; cbn [insert_desc].
  { by repeat constructor. }
  destruct (Z.ltb_spec (subscriber_count x) (subscriber_count y)).
  - constructor; [done|].
    destruct Hy as [|z l Hz]; cbn [insert_desc].
    + constructor. lia.
    + destruct (Z.ltb_spec (subscriber_count x) (subscriber_count z));
        constructor; lia.
  - constructor; [by constructor|]. constructor. lia.
Qed.

Lemma sort_desc_is_descending l : descending (sort_desc l).
Proof.
  unfold sort_desc. induction l as [|x l IH]; cbn [foldr].
  - constructor.
  - by apply insert_desc_descending.
Qed.

Lemma descending_sublist l k : l `sublist_of` k → descending k → descending l.
Proof.
  unfold descending. intros Hsub Hk.
  assert (Htrans : Transitive (λ a b : channel_summary,
                      subscriber_count b ≤ subscriber_count a)).
  { intros a b c. lia. }
  apply (Sorted_StronglySorted _) in Hk.
  apply StronglySorted_Sorted.
  induction Hsub as [|x l k Hsub IH|x l k Hsub IH].
  - constructor.
  - apply StronglySorted_inv in Hk as [Hk Hx]. constructor; [by apply IH|].
    rewrite Forall_forall in Hx. apply Forall_forall. intros y Hy.
    by eapply Hx, elem_of_sublist.
  - apply StronglySorted_inv in Hk as [Hk Hx]. by apply IH.
Qed.

Lemma Forall2_with_l {A B} (P : A → Prop) (R : A → B → Prop) l k :
  Forall P l → Forall2 R l k → Forall2 (λ a b, P a ∧ R a b) l k.
Proof.
  intros HP HR. induction HR as [|a b l k Hab _ IH]; [constructor|].
  apply Forall_cons in HP as [Ha HP]. constructor; auto.
Qed.

(** The elements at strictly ascending positions of a list are a
    subsequence of it. *)
Lemma picks_sublist {A} (l : list A) js xs k :
  StronglySorted lt js →
  Forall2 (λ j x, (k ≤ j)%nat ∧ l !! (j - k)%nat = Some x) js xs →
  xs `sublist_of` l.
Proof.
  revert js xs k. induction l as [|a l IH]; intros js xs k Hsorted Hpick.
  { destruct Hpick as [|j x js xs [_ Hj] _]; [constructor|done]. }
  destruct Hpick as [|j x js xs [Hjk Hj] Hpick]; [apply sublist_nil_l|].
  apply StronglySorted_inv in Hsorted as [Hsorted Hj'].
  destruct (decide (j = k)) as [->|Hne].
  - rewrite Nat.sub_diag in Hj. cbn in Hj. simplify_eq.
    apply sublist_skip, (IH js xs (S k)); [done|].
    eapply Forall2_impl; [apply (Forall2_with_l _ _ _ _ Hj' Hpick)|].
    cbn. intros j' x' (Hlt & Hle & Hx). split; [lia|].
    by replace (j' - k)%nat with (S (j' - S k)) in Hx by lia.
  - apply sublist_cons, (IH (j :: js) (x :: xs) (S k)).
    { by constructor. }
    constructor.
    + split; [lia|]. by replace (j - k)%nat with (S (j - S k)) in Hj by lia.
    + eapply Forall2_impl; [apply (Forall2_with_l _ _ _ _ Hj' Hpick)|].
      cbn. intros j' x' (Hlt & Hle & Hx). split; [lia|].
      by replace (j' - k)%nat with (S (j' - S k)) in Hx by lia.
Qed.

Lemma ascending_positions indices :
  NoDup indices → Sorted Z.le indices → Forall (λ i, 0 ≤ i) indices →
  StronglySorted lt (Z.to_nat <$> indices).
Proof.
  intros Hnd Hsorted Hpos. apply (Sorted_StronglySorted _) in Hsorted.
  induction Hsorted as [|i indices Hsorted IH Hi]; [constructor|].
  apply NoDup_cons in Hnd as [Hnotin Hnd].
  apply Forall_cons in Hpos as [Hi0 Hpos].
  rewrite fmap_cons. constructor; [by apply IH|].
  apply Forall_fmap, Forall_forall. intros i' Hi'. cbn.
  rewrite Forall_forall in Hi, Hpos.
  pose proof (Hi _ Hi'). pose proof (Hpos _ Hi').
  assert (i ≠ i') by (intros ->; done). lia.
Qed.

(** What [at_index] picks at distinct ascending indices is a subsequence. *)
Lemma at_index_sublist {A} (l : list A) indices xs :
  NoDup indices → Sorted Z.le indices →
  Forall2 (at_index l) indices xs →
  xs `sublist_of` l.
Proof.
  intros Hnd Hsorted Hat.
  apply (picks_sublist l (Z.to_nat <$> indices) xs 0).
  - apply ascending_positions; [done..|].
    clear Hnd Hsorted. induction Hat as [|i x indices xs [Hi _] _ IH];
      constructor; [lia|done].
  - apply Forall2_fmap_l. eapply Forall2_impl; [apply Hat|].
    cbn. intros i x [_ Hx]. split; [lia|]. by rewrite Nat.sub_0_r.
Qed.

(** ** Loops that leave the world alone *)

Lemma wp_for_each_inv {W L A} (I : state W L → Prop)
    (body : A → M W L ctrl) xs (s : state W L) :
  (∀ x s, I s → wp (body x) (λ s' r, I s' ∧ r ≠ OutOfFuel) s) →
  I s →
  wp (for_each body xs) (λ s' r, I s' ∧ r ≠ OutOfFuel) s.
Proof.
  intros Hbody. revert s.
  induction xs as [|x xs IH]; intros s HI; cbn [for_each].
  { by apply wp_ret. }
  apply wp_bind. eapply wp_mono; [by apply Hbody|].
  intros s1 [[]| |] [HI1 Hr]; cbn [then_wp]; [|by apply wp_ret|done..].
  by apply IH.
Qed.

Lemma wp_comprehension_inv {W L A B} (I : state W L → Prop)
    (f : A → M W L B) xs (s : state W L) :
  (∀ x s, I s → wp (f x) (λ s' r, I s' ∧ r ≠ OutOfFuel) s) →
  I s →
  wp (comprehension f xs) (λ s' r, I s' ∧ r ≠ OutOfFuel) s.
Proof.
  intros Hf. revert s.
  induction xs as [|x xs IH]; intros s HI; cbn [comprehension].
  { by apply wp_ret. }
  apply wp_bind. eapply wp_mono; [by apply Hf|].
  intros s1 [b| |] [HI1 Hr]; cbn [then_wp]; [|done..].
  apply wp_bind. eapply wp_mono; [by apply IH|].
  intros s2 [bs| |] [HI2 Hr2]; cbn [then_wp]; [|done..].
  by apply wp_ret.
Qed.

Section top_channels.
Context {W : Type} `{!World W} `{!PyLib}.

(** Whatever the page loop has gathered, the function returns a
    subsequence of the sorted candidates. *)
Lemma get_top_channels_result {L} fuel category_id api_key sample_size
    (s : state W L) s1 :
  channel_loop fuel category_id sample_size None (State (world s) (stdout s) [])
    = (s1, Ok tt) →
  0 ≤ sample_size →
  ∃ s' l,
    get_top_channels_by_category fuel category_id api_key sample_size s
      = (s', Ok l) ∧
    l `sublist_of` sort_desc (locals s1) ∧
    descending l ∧
    len l ≤ sample_size ∧
    stdout s' = stdout s1 ∧
    locals s' = locals s.
Proof.
  intros Hloop Hsize.
  rewrite (get_top_channels_after_loop _ _ _ _ _ _ Hloop).
  destruct (Z.gtb_spec (len (sort_desc (locals s1))) sample_size) as [Hlen|Hlen].
  - pose proof (sample_channels_sampled sample_size (sort_desc (locals s1))
                  (State (world s1) (stdout s1) (sort_desc (locals s1)))
                  Hsize Hlen) as Hwp.
    apply wp_exists in Hwp
      as (s2 & r & -> & Hout & _ & indices & sampled & -> & Hn & Hnd & Hsorted & Hat).
    exists (State (world s2) (stdout s2) (locals s)), sampled.
    assert (sampled `sublist_of` sort_desc (locals s1))
      by by eapply at_index_sublist.
    split_and!; try done.
    eapply descending_sublist; [done|apply sort_desc_is_descending].
  - unfold sample_channels.
    destruct (Z.gtb_spec (len (sort_desc (locals s1))) sample_size); [lia|].
    eexists _, _. split_and!; try done. apply sort_desc_is_descending.
Qed.

(** The first call of the page loop. *)
Lemma channel_loop_first fuel category_id sample_size
    (s : state W (list channel_summary)) :
  locals s = [] → 0 < sample_size →
  channel_loop (S fuel) category_id sample_size None s =
    (next ← try_except
              (channel_page category_id None)
              (λ e, print ("Error fetching channels: " +:+ str_exn e);;
                    mret None);
     match next with
     | Some tok => channel_loop fuel category_id sample_size (Some tok)
     | None => mret tt
     end) s.
Proof.
  intros Hl Hsize. cbn [channel_loop].
  unfold mbind at 1, M_bind at 1, bind at 1, get_locals at 1. rewrite Hl.
  unfold len. cbn [length].
  destruct (Z.ltb_spec (Z.of_nat 0) (sample_size * 2)); [done|lia].
Qed.
End top_channels.

Section top_scripted.
Context {W : Type} `{!World W} `{!PyLib}.

(** A page of channels takes one response off the script, or raises. *)
Lemma channel_page_scripted category_id tok
    (s : state (scripted W) (list channel_summary)) :
  wp (channel_page category_id tok)
     (λ s' r, r ≠ OutOfFuel ∧
        ∀ v, r = Ok v →
          (length (script (world s')) < length (script (world s)))%nat) s.
Proof.
  unfold channel_page.
  apply wp_bind, wp_call; intros w1 x Hcall; cbn [then_wp]; [done|].
  apply search_list_script in Hcall as [Hcall|[? [=]]].
  apply wp_bind, wp_getitem; [intros _|intros items _]; cbn [then_wp]; [done|].
  apply wp_bind. eapply wp_mono.
  { apply (wp_comprehension_inv (λ s', world s' = w1)); [|done].
    intros item s0 Hw. wp_go; done. }
  intros s1 [ids| |] [Hw1 Hr]; cbn [then_wp]; [|done..].
  apply wp_bind, wp_call; intros w2 y Hcall'; cbn [then_wp]; [done|].
  rewrite Hw1 in Hcall'. apply on_inner_script in Hcall'.
  apply wp_bind, wp_getitem; [intros _|intros chs _]; cbn [then_wp]; [done|].
  apply wp_bind. eapply wp_mono.
  { apply (wp_for_each_inv (λ s', world s' = w2)); [|done].
    intros channel s0 Hw. wp_go; done. }
  intros s2 [[]| |] [Hw2 Hr2]; cbn [then_wp]; [|done..].
  cbn [world] in *.
  destruct (truthy _); apply wp_ret; (split; [done|]); intros _ _;
    rewrite Hw2, Hcall'; done.
Qed.

(** With more fuel than pages on the script the page loop of
    [get_top_channels_by_category] ends. *)
Lemma channel_loop_scripted fuel category_id sample_size tok
    (s : state (scripted W) (list channel_summary)) :
  (length (script (world s)) < fuel)%nat →
  wp (channel_loop fuel category_id sample_size tok) (λ _ r, r = Ok tt) s.
Proof.
  revert tok s. induction fuel as [|fuel IH]; intros tok s Hfuel; [lia|].
  cbn [channel_loop]. apply wp_bind, wp_get_locals. cbn [then_wp].
  destruct (_ <? _); [|by apply wp_ret].
  apply wp_bind, wp_try_except.
  eapply wp_mono; [apply channel_page_scripted|].
  intros s1 [[tok'|]|e|] [Hr Hlen]; cbn [catch_wp then_wp].
  - apply IH. specialize (Hlen _ eq_refl). lia.
  - by apply wp_ret.
  - by wp_go.
  - done.
Qed.
End top_scripted.

(** ** The pages of [get_top_channels_by_category] *)

Section channel_pages_lemmas.
Context {W : Type} `{!World W} `{!PyLib}.

(** The comprehension over the results of a page. *)
Lemma comprehension_channel_ids {L} items ids (s : state W L) :
  Forall2 (λ item id, hit_channel_id item = Some id) items ids →
  wp (comprehension
        (λ item, sn ← getitem "snippet" (si_snippet item);
                 getitem "channelId" (sn_channelId sn)) items)
     (λ s' r, s' = s ∧ r = Ok ids) s.
Proof.
  induction 1 as [|item id items ids Hid _ IH]; cbn [comprehension].
  { by apply wp_ret. }
  unfold hit_channel_id in Hid.
  destruct (si_snippet item) as [sn|] eqn:Hsn; [|done]. cbn in Hid.
  apply wp_bind, wp_bind, wp_ret. cbn [then_wp]. rewrite Hid.
  apply wp_ret. cbn [then_wp].
  apply wp_bind. eapply wp_mono; [apply IH|].
  intros s' r [-> ->]. cbn [then_wp]. by apply wp_ret.
Qed.

(** One turn of the loop over the channels of a page. *)
Lemma summary_body channel (s : state W (list channel_summary)) :
  wp (id ← getitem "id" (rs_id channel);
      sn ← getitem "snippet" (rs_snippet channel);
      t ← getitem "title" (sn_title sn);
      st ← getitem "statistics" (rs_statistics channel);
      sc ← getitem "subscriberCount" (subscriberCount st);
      sc ← lift (py_int sc);
      vc ← getitem "videoCount" (videoCount st);
      vc ← lift (py_int vc);
      wc ← getitem "viewCount" (viewCount st);
      wc ← lift (py_int wc);
      channels ← get_locals;
      set_locals (channels ++
        [ {| cs_channel_id := id; cs_title := t; subscriber_count := sc;
             video_count := vc; view_count := wc |} ]);;
      mret Next)
     (λ s' r,
        match summary_of channel with
        | Some c =>
            s' = State (world s) (stdout s) (locals s ++ [c]) ∧ r = Ok Next
        | None => s' = s ∧ ∃ e, r = Raise e
        end) s.
Proof.
  unfold summary_of, int_value. wp_go.
  all: repeat (match goal with
               | H : _ = Some _ |- _ => rewrite H; clear H
               | H : _ = None |- _ => rewrite H; clear H
               | H : _ = inl _ |- _ => rewrite H; clear H
               | H : _ = inr _ |- _ => rewrite H; clear H
               end; cbn).
  all: try done.
  all: split; [done|by eexists].
Qed.

(** The loop over channels that all have their fields. *)
Lemma for_each_summaries chs sums (s : state W (list channel_summary)) :
  Forall2 (λ channel c, summary_of channel = Some c) chs sums →
  wp (for_each
        (λ channel,
           id ← getitem "id" (rs_id channel);
           sn ← getitem "snippet" (rs_snippet channel);
           t ← getitem "title" (sn_title sn);
           st ← getitem "statistics" (rs_statistics channel);
           sc ← getitem "subscriberCount" (subscriberCount st);
           sc ← lift (py_int sc);
           vc ← getitem "videoCount" (videoCount st);
           vc ← lift (py_int vc);
           wc ← getitem "viewCount" (viewCount st);
           wc ← lift (py_int wc);
           channels ← get_locals;
           set_locals (channels ++
             [ {| cs_channel_id := id; cs_title := t; subscriber_count := sc;
                  video_count := vc; view_count := wc |} ]);;
           mret Next)
        chs)
     (λ s' r, s' = State (world s) (stdout s) (locals s ++ sums) ∧
              r = Ok tt) s.
Proof.
  intros Hchs. revert s.
  induction Hchs as [|channel c chs sums Hc _ IH]; intros s; cbn [for_each].
  { apply wp_ret. rewrite app_nil_r. by destruct s. }
  apply wp_bind. eapply wp_mono; [apply summary_body|].
  intros s' r. rewrite Hc. intros [-> ->]. cbn [then_wp].
  eapply wp_mono; [apply IH|].
  cbn [world stdout locals]. intros s' r [-> ->]. by rewrite <- app_assoc.
Qed.

(** The loop over channels stops at the first one that lacks a field or
    has a count that is no numeral. *)
Lemma for_each_summaries_raise good sums bad rest
    (s : state W (list channel_summary)) :
  Forall2 (λ channel c, summary_of channel = Some c) good sums →
  summary_of bad = None →
  wp (for_each
        (λ channel,
           id ← getitem "id" (rs_id channel);
           sn ← getitem "snippet" (rs_snippet channel);
           t ← getitem "title" (sn_title sn);
           st ← getitem "statistics" (rs_statistics channel);
           sc ← getitem "subscriberCount" (subscriberCount st);
           sc ← lift (py_int sc);
           vc ← getitem "videoCount" (videoCount st);
           vc ← lift (py_int vc);
           wc ← getitem "viewCount" (viewCount st);
           wc ← lift (py_int wc);
           channels ← get_locals;
           set_locals (channels ++
             [ {| cs_channel_id := id; cs_title := t; subscriber_count := sc;
                  video_count := vc; view_count := wc |} ]);;
           mret Next)
        (good ++ bad :: rest))
     (λ s' r, s' = State (world s) (stdout s) (locals s ++ sums) ∧
              ∃ e, r = Raise e) s.
Proof.
  intros Hgood Hbad. revert s.
  induction Hgood as [|channel c good sums Hc _ IH]; intros s;
    cbn [for_each app].
  - apply wp_bind. eapply wp_mono; [apply summary_body|].
    intros s' r. rewrite Hbad. intros [-> [e ->]]. cbn [then_wp].
    split; [|by exists e]. rewrite app_nil_r. by destruct s.
  - apply wp_bind. eapply wp_mono; [apply summary_body|].
    intros s' r. rewrite Hc. intros [-> ->]. cbn [then_wp].
    eapply wp_mono; [apply IH|].
    cbn [world stdout locals]. intros s' r [-> Hr]. by rewrite <- app_assoc.
Qed.

(** A page whose results and channels have all their fields. *)
Lemma channel_page_complete category_id tok (s : state W (list channel_summary))
    w1 w2 response items ids listing chs sums :
  search_list (top_channels_request category_id tok) (world s)
    = (w1, inr response) →
  sr_items response = Some items →
  Forall2 (λ item id, hit_channel_id item = Some id) items ids →
  channels_list "statistics,snippet" (String.concat "," ids) w1
    = (w2, inr listing) →
  lr_items listing = Some chs →
  Forall2 (λ channel c, summary_of channel = Some c) chs sums →
  wp (channel_page category_id tok)
     (λ s' r, s' = State w2 (stdout s) (locals s ++ sums) ∧
        r = Ok (if truthy (sr_nextPageToken response)
                then sr_nextPageToken response else None)) s.
Proof.
  intros Hsearch Hitems Hids Hlist Hchs Hsums. unfold channel_page.
  unfold top_channels_request in Hsearch.
  apply wp_bind, wp_call; intros w x Hcall;
    rewrite Hsearch in Hcall; simplify_eq.
  cbn [then_wp]. rewrite Hitems. apply wp_bind, wp_ret. cbn [then_wp].
  apply wp_bind. eapply wp_mono; [by apply comprehension_channel_ids|].
  intros s' r [-> ->]. cbn [then_wp].
  apply wp_bind, wp_call; intros w3 y Hcall; cbn [world] in Hcall;
    rewrite Hlist in Hcall; simplify_eq.
  cbn [then_wp]. rewrite Hchs. apply wp_bind, wp_ret. cbn [then_wp].
  apply wp_bind. eapply wp_mono; [by apply for_each_summaries|].
  cbn [world stdout locals]. intros s' r [-> ->]. cbn [then_wp].
  destruct (truthy _); by apply wp_ret.
Qed.

(** A page on which one channel lacks a field. *)
Lemma channel_page_incomplete category_id tok
    (s : state W (list channel_summary))
    w1 w2 response items ids listing good sums bad rest :
  search_list (top_channels_request category_id tok) (world s)
    = (w1, inr response) →
  sr_items response = Some items →
  Forall2 (λ item id, hit_channel_id item = Some id) items ids →
  channels_list "statistics,snippet" (String.concat "," ids) w1
    = (w2, inr listing) →
  lr_items listing = Some (good ++ bad :: rest) →
  Forall2 (λ channel c, summary_of channel = Some c) good sums →
  summary_of bad = None →
  wp (channel_page category_id tok)
     (λ s' r, s' = State w2 (stdout s) (locals s ++ sums) ∧
              ∃ e, r = Raise e) s.
Proof.
  intros Hsearch Hitems Hids Hlist Hchs Hsums Hbad. unfold channel_page.
  unfold top_channels_request in Hsearch.
  apply wp_bind, wp_call; intros w x Hcall;
    rewrite Hsearch in Hcall; simplify_eq.
  cbn [then_wp]. rewrite Hitems. apply wp_bind, wp_ret. cbn [then_wp].
  apply wp_bind. eapply wp_mono; [by apply comprehension_channel_ids|].
  intros s' r [-> ->]. cbn [then_wp].
  apply wp_bind, wp_call; intros w3 y Hcall; cbn [world] in Hcall;
    rewrite Hlist in Hcall; simplify_eq.
  cbn [then_wp]. rewrite Hchs. apply wp_bind, wp_ret. cbn [then_wp].
  apply wp_bind. eapply wp_mono; [by apply for_each_summaries_raise|].
  cbn [world stdout locals]. intros s' r [-> [e ->]]. cbn [then_wp].
  split; [done|by exists e].
Qed.

(** The function after a page loop of one turn. *)
Lemma get_top_channels_one_turn {L} fuel category_id api_key sample_size
    (s : state W L) w' out sums :
  0 < sample_size → len sums ≤ sample_size →
  wp (try_except
        (channel_page category_id None)
        (λ e, print ("Error fetching channels: " +:+ str_exn e);;
              mret None))
     (λ s' r, s' = State w' out sums ∧ r = Ok None)
     (State (world s) (stdout s) []) →
  get_top_channels_by_category (S fuel) category_id api_key sample_size s
    = (State w' out (locals s), Ok (sort_desc sums)).
Proof.
  intros Hsize Hlen Hturn.
  assert (Hloop : channel_loop (S fuel) category_id sample_size None
                    (State (world s) (stdout s) [])
                  = (State w' out sums, Ok tt)).
  { rewrite channel_loop_first by done.
    apply wp_exists in Hturn as (s1 & r1 & Hrun & -> & ->).
    unfold mbind at 1, M_bind at 1, bind at 1. by rewrite Hrun. }
  rewrite (get_top_channels_after_loop _ _ _ _ _ _ Hloop).
  cbn [world stdout locals]. unfold sample_channels.
  rewrite (len_perm _ _ (sort_desc_perm sums)).
  by destruct (Z.gtb_spec (len sums) sample_size); [lia|].
Qed.
End channel_pages_lemmas.

Section top_theorems.
Context {W : Type} `{!World W} `{!PyLib}.

(** X12. Whatever the page loop has gathered, for a sample size that is
    not negative [get_top_channels_by_category] returns a subsequence of
    the candidates sorted by subscribers: at most [sample_size] channels,
    in descending order of subscribers, none of them picked twice. *)
Theorem get_top_channels_subsequence {L} fuel category_id api_key sample_size
    (s : state W L) s1 :
  channel_loop fuel category_id sample_size None (State (world s) (stdout s) [])
    = (s1, Ok tt) →
  0 ≤ sample_size →
  ∃ s' l,
    get_top_channels_by_category fuel category_id api_key sample_size s
      = (s', Ok l) ∧
    l `sublist_of` sort_desc (locals s1) ∧
    descending l ∧
    len l ≤ sample_size.
Proof.
  intros Hloop Hsize.
  destruct (get_top_channels_result fuel category_id api_key sample_size s s1
              Hloop Hsize) as (s' & l & Hrun & Hsub & Hdesc & Hlen & _).
  by exists s', l.
Qed.

(** X14. With a sample size of zero the function returns the empty list,
    and with a negative one it raises [ValueError] (from the generator of
    the indices); in both cases it calls nothing, prints nothing and
    needs no turn of the loop. *)
Theorem get_top_channels_nonpositive {L} fuel category_id api_key sample_size
    (s : state W L) :
  sample_size ≤ 0 →
  get_top_channels_by_category fuel category_id api_key sample_size s
    = (s, if sample_size <? 0
          then Raise (ValueError "negative dimensions are not allowed")
          else Ok []).
Proof.
  intros Hsize.
  assert (Hloop : channel_loop fuel category_id sample_size None
                    (State (world s) (stdout s) [])
                  = (State (world s) (stdout s) [], Ok tt)).
  { destruct fuel; cbn [channel_loop];
      unfold mbind at 1, M_bind at 1, bind at 1, get_locals at 1;
      cbn [locals]; unfold len; cbn [length];
      by destruct (Z.ltb_spec (Z.of_nat 0) (sample_size * 2)); [lia|]. }
  rewrite (get_top_channels_after_loop _ _ _ _ _ _ Hloop).
  cbn [world stdout locals sort_desc foldr]. unfold sample_channels.
  unfold len. cbn [length].
  destruct (Z.ltb_spec sample_size 0).
  - destruct (Z.gtb_spec (Z.of_nat 0) sample_size); [|lia].
    unfold np_random_normal. cbn [Qle_bool Qnum Qden Z.of_nat].
    destruct (Z.ltb_spec sample_size 0); [|lia].
    unfold mbind, M_bind, bind, raise. by destruct s.
  - destruct (Z.gtb_spec (Z.of_nat 0) sample_size); [lia|]. by destruct s.
Qed.

(** X15. When the first search call raises, the function prints the error
    and returns the empty list: the caller cannot tell a failed request
    from a category without channels. *)
Theorem get_top_channels_first_call_fails {L} fuel category_id api_key
    sample_size (s : state W L) w' e :
  0 < sample_size →
  search_list (top_channels_request category_id None) (world s) = (w', inl e) →
  get_top_channels_by_category (S fuel) category_id api_key sample_size s
    = (State w' (stdout s ++ ["Error fetching channels: " +:+ str_exn e])
             (locals s),
       Ok []).
Proof.
  intros Hsize Hcall.
  apply (get_top_channels_one_turn fuel category_id api_key sample_size s
           w' (stdout s ++ ["Error fetching channels: " +:+ str_exn e]) []);
    [done|unfold len; cbn [length]; lia|].
  apply wp_try_except. unfold channel_page, top_channels_request in *.
  apply wp_bind, wp_call; intros w x Hcall'; cbn [world] in Hcall';
    rewrite Hcall in Hcall'; simplify_eq.
  cbn [then_wp catch_wp]. by wp_go.
Qed.

(** X16. When the first page has no token for a next one, all its results
    have a channel id and all the channels of the listing have their
    fields, the function returns the entries of the listing sorted by
    subscribers, as long as they are no more than the sample size. *)
Theorem get_top_channels_one_page {L} fuel category_id api_key sample_size
    (s : state W L) w1 w2 response items ids listing chs sums :
  0 < sample_size →
  search_list (top_channels_request category_id None) (world s)
    = (w1, inr response) →
  sr_items response = Some items →
  truthy (sr_nextPageToken response) = false →
  Forall2 (λ item id, hit_channel_id item = Some id) items ids →
  channels_list "statistics,snippet" (String.concat "," ids) w1
    = (w2, inr listing) →
  lr_items listing = Some chs →
  Forall2 (λ channel c, summary_of channel = Some c) chs sums →
  len sums ≤ sample_size →
  get_top_channels_by_category (S fuel) category_id api_key sample_size s
    = (State w2 (stdout s) (locals s), Ok (sort_desc sums)).
Proof.
  intros Hsize Hsearch Hitems Htok Hids Hlist Hchs Hsums Hlen.
  apply (get_top_channels_one_turn fuel category_id api_key sample_size s
           w2 (stdout s) sums); [done..|].
  apply wp_try_except. eapply wp_mono.
  { by eapply (channel_page_complete category_id None
                 (State (world s) (stdout s) [])). }
  cbn [world stdout locals]. rewrite Htok. intros s' r [-> ->].
  by cbn [catch_wp].
Qed.

(** A turn of the page loop in which a channel of the listing lacks a
    field: the loop ends there. *)
Lemma channel_loop_incomplete fuel category_id sample_size tok
    (s : state W (list channel_summary))
    w1 w2 response items ids listing good sums bad rest :
  len (locals s) < sample_size * 2 →
  search_list (top_channels_request category_id tok) (world s)
    = (w1, inr response) →
  sr_items response = Some items →
  Forall2 (λ item id, hit_channel_id item = Some id) items ids →
  channels_list "statistics,snippet" (String.concat "," ids) w1
    = (w2, inr listing) →
  lr_items listing = Some (good ++ bad :: rest) →
  Forall2 (λ channel c, summary_of channel = Some c) good sums →
  summary_of bad = None →
  ∃ e,
    channel_loop (S fuel) category_id sample_size tok s
      = (State w2 (stdout s ++ ["Error fetching channels: " +:+ str_exn e])
               (locals s ++ sums),
         Ok tt).
Proof.
  intros Hlen Hsearch Hitems Hids Hlist Hchs Hsums Hbad.
  pose proof (channel_page_incomplete category_id tok s _ _ _ _ _ _ _ _ _ _
                Hsearch Hitems Hids Hlist Hchs Hsums Hbad) as Hpage.
  apply wp_exists in Hpage as (s1 & r1 & Hrun & -> & e & ->).
  exists e. cbn [channel_loop].
  unfold mbind at 1, M_bind at 1, bind at 1, get_locals at 1.
  destruct (Z.ltb_spec (len (locals s)) (sample_size * 2)); [|lia].
  unfold mbind at 1, M_bind at 1, bind at 1, try_except.
  by rewrite Hrun.
Qed.

(** X17. In any turn of the page loop of [get_top_channels_by_category]:
    when the results of the search all have a channel id and a channel
    of the listing lacks a field or has a count that is no numeral (a
    hidden subscriber count, for one), the loop ends in that turn.  The
    error is printed; the candidates are those gathered before the turn
    followed by the channels listed before the incomplete one; the
    channels after it are dropped and no later page is asked for.  When
    this is the first turn, the function returns a sample of the channels
    listed before the incomplete one: a subsequence of them sorted by
    subscribers, of at most [sample_size], and all of them, sorted, when
    they are no more than [sample_size]. *)
Theorem get_top_channels_incomplete_channel {L} fuel category_id api_key
    sample_size tok (s : state W L) gathered_so_far
    w1 w2 response items ids listing good sums bad rest :
  len gathered_so_far < sample_size * 2 →
  search_list (top_channels_request category_id tok) (world s)
    = (w1, inr response) →
  sr_items response = Some items →
  Forall2 (λ item id, hit_channel_id item = Some id) items ids →
  channels_list "statistics,snippet" (String.concat "," ids) w1
    = (w2, inr listing) →
  lr_items listing = Some (good ++ bad :: rest) →
  Forall2 (λ channel c, summary_of channel = Some c) good sums →
  summary_of bad = None →
  ∃ e,
    channel_loop (S fuel) category_id sample_size tok
        (State (world s) (stdout s) gathered_so_far)
      = (State w2 (stdout s ++ ["Error fetching channels: " +:+ str_exn e])
               (gathered_so_far ++ sums),
         Ok tt) ∧
    (tok = None → gathered_so_far = [] →
     ∃ s' l,
       get_top_channels_by_category (S fuel) category_id api_key sample_size s
         = (s', Ok l) ∧
       stdout s' = stdout s ++ ["Error fetching channels: " +:+ str_exn e] ∧
       locals s' = locals s ∧
       l `sublist_of` sort_desc sums ∧
       descending l ∧
       len l ≤ sample_size ∧
       (len sums ≤ sample_size → l = sort_desc sums ∧ world s' = w2)).
Proof.
  intros Hlen Hsearch Hitems Hids Hlist Hchs Hsums Hbad.
  destruct (channel_loop_incomplete fuel category_id sample_size tok
              (State (world s) (stdout s) gathered_so_far)
              _ _ _ _ _ _ _ _ _ _ Hlen Hsearch Hitems Hids Hlist Hchs Hsums Hbad)
    as [e Hloop].
  cbn [world stdout locals] in Hloop.
  exists e. split; [done|]. intros -> ->.
  assert (Hsize : 0 ≤ sample_size) by (unfold len in Hlen; cbn in Hlen; lia).
  destruct (get_top_channels_result (S fuel) category_id api_key sample_size
              s _ Hloop Hsize)
    as (s' & l & Hrun & Hsub & Hdesc & Hl & Hout & Hlocals).
  cbn [world stdout locals app] in *.
  exists s', l. split_and!; try done.
  intros Hfew.
  rewrite (get_top_channels_after_loop _ _ _ _ _ _ Hloop) in Hrun.
  cbn [world stdout locals app] in Hrun. unfold sample_channels in Hrun.
  rewrite (len_perm _ _ (sort_desc_perm sums)) in Hrun.
  destruct (Z.gtb_spec (len sums) sample_size); [lia|].
  cbn in Hrun. by simplify_eq.
Qed.
End top_theorems.

Section top_scripted_theorems.
Context {W : Type} `{!World W} `{!PyLib}.

(** X13. Against a search endpoint that has finitely many pages to give,
    [get_top_channels_by_category] with a sample size that is not
    negative returns: it raises nothing, whatever the endpoints answer,
    and the list it returns has at most [sample_size] channels, in
    descending order of subscribers. *)
Theorem get_top_channels_terminates {L} pages (w : W) out (l : L)
    category_id api_key sample_size :
  0 ≤ sample_size →
  ∃ s' channels,
    get_top_channels_by_category (S (length pages)) category_id api_key
        sample_size (State (Scripted pages w) out l)
      = (s', Ok channels) ∧
    len channels ≤ sample_size ∧
    descending channels ∧
    locals s' = l.
Proof.
  intros Hsize.
  pose proof (channel_loop_scripted (S (length pages)) category_id sample_size
                None (State (Scripted pages w) out []) ltac:(cbn; lia)) as Hloop.
  apply wp_exists in Hloop as (s1 & r1 & Hloop & ->).
  destruct (get_top_channels_result (S (length pages)) category_id api_key
              sample_size (State (Scripted pages w) out l) s1 Hloop Hsize)
    as (s' & channels & Hrun & _ & Hdesc & Hlen & _ & Hl).
  by exists s', channels.
Qed.
End top_scripted_theorems.

Section category_of_video.
Context {W : Type} `{!World W} `{!PyLib}.

(** X18. [get_video_category] never raises.  It returns a category id
    exactly when the listing answers with a first item that has one, and
    then this id, with nothing printed; in every other case it returns
    [None], and it prints one line when the call raised or a key was
    missing. *)
Theorem get_video_category_spec {L} video_id (s : state W L) :
  ∃ s' v,
    get_video_category video_id s = (s', Ok v) ∧
    locals s' = locals s ∧
    (∀ cid, v = Some cid ↔
       ∃ w' response item rest sn,
         videos_list "snippet" video_id (world s) = (w', inr response) ∧
         lr_items response = Some (item :: rest) ∧
         rs_snippet item = Some sn ∧ sn_categoryId sn = Some cid) ∧
    (∀ cid, v = Some cid → stdout s' = stdout s) ∧
    (∀ w' response,
       videos_list "snippet" video_id (world s) = (w', inr response) →
       lr_items response = Some [] → v = None ∧ stdout s' = stdout s) ∧
    (∀ w' e,
       videos_list "snippet" video_id (world s) = (w', inl e) →
       v = None ∧
       stdout s' = stdout s ++ ["Error getting video category: " +:+ str_exn e]).
Proof.
  apply wp_returns. unfold get_video_category. wp_go.
  all: eexists; split; [reflexivity|].
  all: split_and!; try done.
  all: try (intros; split; congruence).
  all: try (intros; congruence).
  all: intros cid; split;
    [try done; intros; simplify_eq; repeat eexists; eauto; congruence
    |intros (? & ? & ? & ? & ? & ? & ? & ? & ?); congruence].
Qed.
End category_of_video.

(** ** The maximum, reached within a page *)

Section quota.
Context (api : stub) `{!PyLib}.

(** The item loop over complete items that fill the quota: it stops at
    the item that fills it. *)
Lemma for_each_complete_break max_videos sc items s :
  forallb (complete api) items = true →
  len (locals s) < max_videos ≤ len (locals s) + len items →
  wp (for_each (fetch_item (World0 := mock_world api) max_videos None sc) items)
     (λ s' r, world s' = world s ∧ stdout s' = stdout s ∧ r = Ok tt ∧
        ∃ recs, locals s' = locals s ++ recs ∧
                len (locals s') = max_videos ∧
                map (λ rec, Some (video_id rec)) recs
                  = map item_video_id
                      (take (Z.to_nat (max_videos - len (locals s))) items)) s.
Proof.
  revert s. induction items as [|item items IH]; intros s Hc Hlen;
    cbn [for_each forallb] in *.
  { unfold len in Hlen. cbn [length] in Hlen. lia. }
  apply andb_true_iff in Hc as [Hitem Hitems].
  apply wp_bind. eapply wp_mono; [by apply fetch_item_complete|].
  intros s1 r1 (Hw & Hout & rec & Hl & Hid & ->). cbn [then_wp].
  assert (Hcons : len (item :: items) = 1 + len items)
    by (unfold len; cbn [length]; lia).
  rewrite Hcons in Hlen.
  assert (Hl1 : len (locals s1) = len (locals s) + 1).
  { rewrite Hl, len_app. by change (len [rec]) with 1. }
  rewrite <- Hl.
  destruct (Z.geb_spec (len (locals s1)) max_videos) as [Hge|Hlt].
  - apply wp_ret. split_and!; [done..|]. exists [rec]. split_and!; [done|lia|].
    replace (Z.to_nat (max_videos - len (locals s))) with 1%nat by lia.
    cbn [take map]. by rewrite Hid.
  - eapply wp_mono; [apply IH; [done|lia]|].
    intros s2 r2 (Hw2 & Hout2 & -> & recs & Hl2 & Hfull & Hids).
    split_and!; [congruence..|done|]. exists (rec :: recs). split_and!.
    + by rewrite Hl2, Hl, <- app_assoc.
    + done.
    + replace (Z.to_nat (max_videos - len (locals s)))
        with (S (Z.to_nat (max_videos - len (locals s1)))) by lia.
      cbn [take map]. by rewrite Hid, Hids.
Qed.

(** X19. When the first page has at least [max_videos] complete videos,
    the function without a category filter returns the records of the
    first [max_videos] of them, in order, and makes no second search
    call, whether or not the page names a next one. *)
Theorem fetch_channel_videos_stops_at_max {L} fuel items tok rest normals out
    (l : L) cid sd ed max_videos :
  0 < max_videos ≤ len items →
  forallb (complete api) items = true →
  ∃ s' df,
    fetch_channel_videos (World0 := mock_world api) (S fuel) cid sd ed
        max_videos None
        (State (Scripted (page items tok :: rest) normals) out l)
      = (s', Ok df) ∧
    map (λ rec, Some (video_id rec)) df
      = map item_video_id (take (Z.to_nat max_videos) items) ∧
    script (world s') = rest.
Proof.
  intros Hmax Hc.
  apply wp_returns. unfold fetch_channel_videos. apply wp_frame, wp_bind.
  eapply wp_mono;
    [apply wp_and;
       [apply fetch_setup_ok|apply (fetch_setup_script (World0 := stub_world api))]|].
  intros s0 r0 [[Hl0 [[[pa pb] sc] ->]] Hscript].
  cbn [world locals then_wp script] in *. unfold page in Hscript.
  apply wp_bind, wp_try_except. cbn [resolve_category page_loop].
  apply wp_bind, wp_get_locals. cbn [then_wp]. rewrite Hl0.
  change (len []) with 0.
  destruct (Z.ltb_spec 0 max_videos); [|lia].
  apply wp_bind, wp_call; intros w' x Hcall; cbn in Hcall;
    rewrite Hscript in Hcall; simplify_eq.
  cbn [then_wp]. apply wp_bind. cbn [from_option sr_items id].
  eapply wp_mono.
  { apply for_each_complete_break; [done|]. cbn [locals]. rewrite Hl0.
    change (len []) with 0. lia. }
  cbn [world stdout locals]. rewrite Hl0. change (len []) with 0.
  intros s1 r1 (Hw & Hout & -> & recs & Hl1 & Hfull & Hids).
  cbn [then_wp app] in *. rewrite Z.sub_0_r in Hids.
  assert (Hdone : wp (page_loop (World0 := mock_world api) fuel cid pa pb
                        max_videos None sc tok)
                    (λ s' r, s' = s1 ∧ r = Ok tt) s1).
  { destruct fuel; cbn [page_loop]; apply wp_bind, wp_get_locals; cbn [then_wp];
      (destruct (Z.ltb_spec (len (locals s1)) max_videos); [lia|]);
      by apply wp_ret. }
  cbn [sr_nextPageToken].
  destruct (truthy tok).
  - eapply wp_mono; [apply Hdone|]. intros s2 r2 [-> ->].
    cbn [catch_wp then_wp]. wp_go. eexists. split; [done|].
    rewrite Hl1, Hw. by split.
  - apply wp_ret. cbn [catch_wp then_wp]. wp_go. eexists. split; [done|].
    rewrite Hl1, Hw. by split.
Qed.
End quota.

(** ** What the functions print *)

Section prints.
Context {W : Type} `{!World W} `{!PyLib}.

Lemma printed_refl out : printed out out [].
Proof. exists []. split; [by rewrite app_nil_r|constructor]. Qed.

Lemma printed_one out header e : printed out (out ++ [header +:+ str_exn e]) [header].
Proof. exists [header +:+ str_exn e]. split; [done|]. repeat constructor. by exists e. Qed.

Lemma printed_trans out1 out2 out3 hs1 hs2 :
  printed out1 out2 hs1 → printed out2 out3 hs2 → printed out1 out3 (hs1 ++ hs2).
Proof.
  intros (l1 & -> & H1) (l2 & -> & H2). exists (l1 ++ l2).
  split; [by rewrite app_assoc|by apply Forall2_app].
Qed.

Lemma fetch_setup_prints {L} cid sd ed (s : state W L) :
  wp (fetch_setup cid sd ed)
     (λ s' r, locals s' = locals s ∧
        ∃ hs, hs `sublist_of` ["Error fetching channel statistics: "] ∧
              printed (stdout s) (stdout s') hs) s.
Proof.
  unfold fetch_setup. wp_go.
  all: split; [reflexivity|].
  all: first
    [ by exists []; split; [apply sublist_nil_l|apply printed_refl]
    | eexists [_]; split; [reflexivity|apply printed_one] ].
Qed.

(** In every world [fetch_channel_videos] prints at most the line of the
    statistics handler and then the line of the loop's handler. *)
Lemma fetch_channel_videos_prints_wp {L} fuel cid sd ed max_videos category
    (s : state W L) :
  wp (fetch_channel_videos fuel cid sd ed max_videos category)
     (λ s' r, ∃ hs,
        hs `sublist_of` ["Error fetching channel statistics: ";
                         "Error fetching videos: "] ∧
        printed (stdout s) (stdout s') hs) s.
Proof.
  unfold fetch_channel_videos. apply wp_frame, wp_bind.
  eapply wp_mono; [apply wp_and; [apply fetch_setup_ok|apply fetch_setup_prints]|].
  intros s1 r1 [[_ [[[pa pb] sc] ->]] (_ & hs & Hhs & Hprinted)].
  cbn [world stdout locals then_wp] in *.
  assert (Hquiet : ∃ hs0,
            hs0 `sublist_of` ["Error fetching channel statistics: ";
                              "Error fetching videos: "] ∧
            printed (stdout s) (stdout s1) hs0).
  { exists hs. split; [|done].
    change ["Error fetching channel statistics: "; "Error fetching videos: "]
      with (["Error fetching channel statistics: "] ++ ["Error fetching videos: "]).
    by apply sublist_inserts_r. }
  assert (Hloud : ∀ e, ∃ hs0,
            hs0 `sublist_of` ["Error fetching channel statistics: ";
                              "Error fetching videos: "] ∧
            printed (stdout s)
                    (stdout s1 ++ ["Error fetching videos: " +:+ str_exn e]) hs0).
  { intros e. exists (hs ++ ["Error fetching videos: "]). split.
    - change ["Error fetching channel statistics: "; "Error fetching videos: "]
        with (["Error fetching channel statistics: "] ++ ["Error fetching videos: "]).
      by apply sublist_app.
    - eapply printed_trans; [done|apply printed_one]. }
  apply wp_bind, wp_try_except.
  eapply wp_mono; [apply page_loop_post|].
  intros s2 r2 (Hout & _). rewrite <- Hout in Hquiet, Hloud.
  destruct r2 as [[]|e|]; cbn [catch_wp then_wp]; wp_go; auto.
Qed.
End prints.

Section prints_scripted.
Context {W : Type} `{!World W} `{!PyLib}.

(** X20. [fetch_channel_videos] reports failures by printing only, and
    prints at most two lines: the line of the statistics handler, then the
    line of the loop's handler, each followed by the text of the error. *)
Theorem fetch_channel_videos_prints {L} pages (w : W) out (l : L)
    cid sd ed max_videos category :
  ∃ s' df hs,
    fetch_channel_videos (S (length pages)) cid sd ed max_videos category
      (State (Scripted pages w) out l) = (s', Ok df) ∧
    hs `sublist_of` ["Error fetching channel statistics: ";
                     "Error fetching videos: "] ∧
    printed out (stdout s') hs.
Proof.
  destruct (fetch_channel_videos_returns pages w out l cid sd ed max_videos category)
    as (s' & df & Hrun & _).
  destruct (wp_run_eq _ _ _ _ _
    (fetch_channel_videos_prints_wp (S (length pages)) cid sd ed max_videos
       category (State (Scripted pages w) out l)) Hrun) as (hs & Hhs & Hprinted).
  by exists s', df, hs.
Qed.
End prints_scripted.

(** ** The search requests of [get_top_channels_by_category] *)

Section top_prints.
Context {W : Type} `{!World W} `{!PyLib}.

Lemma channel_page_quiet category_id tok (s : state W (list channel_summary)) :
  wp (channel_page category_id tok) (λ s' _, stdout s' = stdout s) s.
Proof.
  unfold channel_page.
  apply wp_bind, wp_call; intros w1 x Hcall; cbn [then_wp]; [done|].
  apply wp_bind, wp_getitem; [intros _|intros items _]; cbn [then_wp]; [done|].
  apply wp_bind. eapply wp_mono.
  { apply (wp_comprehension_inv (λ s', stdout s' = stdout s)); [|done].
    intros item s0 Hout. wp_go; done. }
  intros s1 [ids| |] [Hout1 Hr]; cbn [then_wp]; [|done..].
  apply wp_bind, wp_call; intros w2 y Hcall'; cbn [then_wp]; [done|].
  apply wp_bind, wp_getitem; [intros _|intros chs _]; cbn [then_wp]; [done|].
  apply wp_bind. eapply wp_mono.
  { apply (wp_for_each_inv (λ s', stdout s' = stdout s)); [|done].
    intros channel s0 Hout. wp_go; done. }
  intros s2 [[]| |] [Hout2 Hr2]; cbn [then_wp]; [|done..].
  destruct (truthy _); by apply wp_ret.
Qed.

(** The page loop prints at most the line of its handler. *)
Lemma channel_loop_prints fuel category_id sample_size tok
    (s : state W (list channel_summary)) :
  wp (channel_loop fuel category_id sample_size tok)
     (λ s' _, ∃ hs, hs `sublist_of` ["Error fetching channels: "] ∧
                    printed (stdout s) (stdout s') hs) s.
Proof.
  assert (Hquiet : ∀ out, ∃ hs, hs `sublist_of` ["Error fetching channels: "] ∧
                                printed out out hs).
  { intros out. exists []. split; [apply sublist_nil_l|apply printed_refl]. }
  revert tok s. induction fuel as [|fuel IH]; intros tok s; cbn [channel_loop].
  { wp_go; apply Hquiet. }
  apply wp_bind, wp_get_locals. cbn [then_wp].
  destruct (_ <? _); [|apply wp_ret, Hquiet].
  apply wp_bind, wp_try_except.
  eapply wp_mono; [apply channel_page_quiet|].
  intros s1 [[tok'|]|e|] Hout; cbn [catch_wp then_wp].
  - rewrite <- Hout. apply IH.
  - apply wp_ret. rewrite Hout. apply Hquiet.
  - wp_go. rewrite Hout. eexists [_]. split; [reflexivity|apply printed_one].
  - rewrite Hout. apply Hquiet.
Qed.
End top_prints.

Section top_prints_scripted.
Context {W : Type} `{!World W} `{!PyLib}.

(** X21. [get_top_channels_by_category] prints at most one line, that of
    the handler of its loop followed by the text of the error. *)
Theorem get_top_channels_prints {L} pages (w : W) out (l : L)
    category_id api_key sample_size :
  0 ≤ sample_size →
  ∃ s' channels hs,
    get_top_channels_by_category (S (length pages)) category_id api_key
        sample_size (State (Scripted pages w) out l)
      = (s', Ok channels) ∧
    hs `sublist_of` ["Error fetching channels: "] ∧
    printed out (stdout s') hs.
Proof.
  intros Hsize.
  pose proof (channel_loop_scripted (S (length pages)) category_id sample_size
                None (State (Scripted pages w) out []) ltac:(cbn; lia)) as Hloop.
  apply wp_exists in Hloop as (s1 & r1 & Hloop & ->).
  destruct (wp_run_eq _ _ _ _ _
    (channel_loop_prints (S (length pages)) category_id sample_size None
       (State (Scripted pages w) out [])) Hloop) as (hs & Hhs & Hprinted).
  destruct (get_top_channels_result (S (length pages)) category_id api_key
              sample_size (State (Scripted pages w) out l) s1 Hloop Hsize)
    as (s' & channels & Hrun & _ & _ & _ & Hout & _).
  exists s', channels, hs. by rewrite Hout.
Qed.
End top_prints_scripted.

Section top_requests.
Context {W : Type} `{!World W} `{!PyLib}.

(** A page of channels makes one search call, that of the page. *)
Lemma channel_page_request category_id tok
    (s : state (recording W) (list channel_summary)) :
  wp (channel_page category_id tok)
     (λ s' r, ∃ r0,
        calls (world s') = calls (world s)
                             ++ [(top_channels_request category_id tok, r0)] ∧
        ∀ tok', r = Ok (Some tok') →
          ∃ response, r0 = inr response ∧
                      truthy (sr_nextPageToken response) = true ∧
                      sr_nextPageToken response = Some tok') s.
Proof.
  unfold channel_page.
  apply wp_bind, wp_call; intros w1 x Hcall%recorded_search; cbn [then_wp].
  { by eexists. }
  assert (Hraise : ∀ (s1 : state (recording W) (list channel_summary))
                     (r : result (option string)),
            calls (world s1) = calls w1 → (∀ v, r ≠ Ok v) →
            ∃ r0, calls (world s1) = calls (world s)
                    ++ [(top_channels_request category_id tok, r0)] ∧
                  ∀ tok', r = Ok (Some tok') →
                    ∃ response, r0 = inr response ∧
                                truthy (sr_nextPageToken response) = true ∧
                                sr_nextPageToken response = Some tok').
  { intros s1 r Hcalls Hr. eexists. split; [by rewrite Hcalls, Hcall|].
    intros tok' ->. by destruct (Hr (Some tok')). }
  apply wp_bind, wp_getitem; [intros _|intros items _]; cbn [then_wp];
    [by apply Hraise|].
  apply wp_bind. eapply wp_mono.
  { apply (wp_comprehension_inv (λ s', world s' = w1)); [|done].
    intros item s0 Hw. wp_go; done. }
  intros s1 [ids| |] [Hw1 Hr]; cbn [then_wp];
    [|apply Hraise; [by rewrite Hw1|done]..].
  apply wp_bind, wp_call; intros w2 y Hcall'; cbn [then_wp];
    rewrite Hw1 in Hcall'; apply on_recorded_calls in Hcall';
    [by apply Hraise|].
  apply wp_bind, wp_getitem; [intros _|intros chs _]; cbn [then_wp];
    [by apply Hraise|].
  apply wp_bind. eapply wp_mono.
  { apply (wp_for_each_inv (λ s', world s' = w2)); [|done].
    intros channel s0 Hw. wp_go; done. }
  intros s2 [[]| |] [Hw2 Hr2]; cbn [then_wp world] in *;
    [|apply Hraise; [by rewrite Hw2|done]..].
  destruct (truthy (sr_nextPageToken x)) eqn:Htok; apply wp_ret;
    (eexists; split; [by rewrite Hw2, Hcall', Hcall|]).
  - intros tok' [= Hnext]. by exists x.
  - by intros tok' [=].
Qed.

(** The search calls of the page loop. *)
Lemma channel_loop_requests fuel category_id sample_size tok
    (s : state (recording W) (list channel_summary)) :
  wp (channel_loop fuel category_id sample_size tok)
     (λ s' _, ∃ new,
        calls (world s') = calls (world s) ++ new ∧
        Forall (top_request category_id) new.*1 ∧
        chained tok new) s.
Proof.
  assert (Hnone : ∀ s0 : state (recording W) (list channel_summary),
            ∃ new, calls (world s0) = calls (world s0) ++ new ∧
                   Forall (top_request category_id) new.*1 ∧ chained tok new).
  { intros s0. exists []. split_and!; [by rewrite app_nil_r|constructor|done]. }
  revert tok s Hnone.
  induction fuel as [|fuel IH]; intros tok s Hnone; cbn [channel_loop].
  { wp_go; apply Hnone. }
  apply wp_bind, wp_get_locals. cbn [then_wp].
  destruct (_ <? _); [|apply wp_ret, Hnone].
  apply wp_bind, wp_try_except.
  eapply wp_mono; [apply channel_page_request|].
  intros s1 r1 (r0 & Hcalls & Hnext).
  assert (Hone : ∃ new,
            calls (world s1) = calls (world s) ++ new ∧
            Forall (top_request category_id) new.*1 ∧ chained tok new).
  { exists [(top_channels_request category_id tok, r0)].
    split_and!; [done|by apply Forall_singleton; exists tok|by split; [|left]]. }
  destruct r1 as [[tok'|]|e|]; cbn [catch_wp then_wp].
  - destruct (Hnext tok' eq_refl) as (response & -> & Htruthy & Htok).
    eapply wp_mono.
    { apply IH. intros s0. exists [].
      split_and!; [by rewrite app_nil_r|constructor|done]. }
    intros s2 r2 (new & Hnew & Hall & Hchain).
    exists ((top_channels_request category_id tok, inr response) :: new).
    split_and!.
    + by rewrite Hnew, Hcalls, <- app_assoc.
    + rewrite fmap_cons. constructor; [by exists tok|done].
    + split; [done|]. right. exists response.
      split_and!; [done..|by rewrite Htok].
  - by apply wp_ret.
  - by wp_go.
  - done.
Qed.

Lemma draws_calls {L} n (s : state (recording W) L) :
  wp (draws n) (λ s' _, calls (world s') = calls (world s)) s.
Proof.
  revert s. induction n as [|n IH]; intros s; cbn [draws].
  { by apply wp_ret. }
  apply wp_bind, wp_ask. intros w' z Hask%on_recorded_calls. cbn [then_wp].
  apply wp_bind. eapply wp_mono; [apply IH|].
  intros s1 [zs| |] Hcalls; cbn [then_wp world] in *; [|congruence..].
  apply wp_ret. congruence.
Qed.

(** The sampling step makes no search call. *)
Lemma sample_channels_calls {L} sample_size channels (s : state (recording W) L) :
  wp (sample_channels sample_size channels)
     (λ s' _, calls (world s') = calls (world s)) s.
Proof.
  unfold sample_channels. destruct (_ >? _); [|by apply wp_ret].
  apply wp_bind. unfold np_random_normal.
  destruct (Qle_bool _ _); [|by apply wp_raise].
  destruct (_ <? _); [by apply wp_raise|].
  apply wp_bind. eapply wp_mono; [apply draws_calls|].
  intros s1 [zs| |] Hcalls; cbn [then_wp]; [|done..].
  apply wp_ret. cbn [then_wp].
  apply wp_bind. eapply wp_mono.
  { apply (wp_comprehension_inv (λ s', world s' = world s1)); [|done].
    intros i s0 Hw. unfold py_index.
    destruct (_ && _); [|by apply wp_raise].
    destruct (_ !! _); [by apply wp_ret|by apply wp_raise]. }
  intros s2 [picked| |] [Hw2 _]; cbn [then_wp]; [|congruence..].
  apply wp_ret. congruence.
Qed.

(** X22. Every search request of [get_top_channels_by_category] asks for
    channels of the category (its id printed in decimal), ordered by view
    count, 50 to a page; the first request carries no page token, and a
    request is followed by another only if it was answered with a
    non-empty token, which the next request carries. *)
Theorem get_top_channels_requests {L} fuel category_id api_key sample_size
    (s : state (recording W) L) :
  ∃ new,
    calls (world (get_top_channels_by_category fuel category_id api_key
                    sample_size s).1)
      = calls (world s) ++ new ∧
    Forall (top_request category_id) new.*1 ∧
    chained None new.
Proof.
  apply (wp_run_post (λ s' _, ∃ new,
           calls (world s') = calls (world s) ++ new ∧
           Forall (top_request category_id) new.*1 ∧ chained None new)).
  unfold get_top_channels_by_category. apply wp_frame, wp_bind.
  eapply wp_mono; [apply channel_loop_requests|].
  cbn [world]. intros s1 r1 Hnew.
  destruct r1 as [[]|e|]; cbn [then_wp world]; [|done..].
  wp_go. eapply wp_mono; [apply sample_channels_calls|].
  cbn [world]. intros s2 r2 Hcalls. by rewrite Hcalls.
Qed.
End top_requests.

(** ** Further runs on the stubs *)

Ltac pairwise :=
  unfold demo_entries, demo_summaries;
  cbn [default from_option lr_items sr_items id map];
  repeat (constructor; [vm_compute; reflexivity|]);
  constructor.

(** X4, witness: the filter ["gaming"], whose id is 20. *)
Lemma fetch_channel_videos_filter_name_witness :
  ∃ s' df,
    demo_fetch 4 70 (Some "gaming") three_pages = (s', Ok df) ∧
    ∀ rec, rec ∈ df → category_id rec = pretty 20 ∧ category_name rec = "gaming".
Proof.
  apply (fetch_channel_videos_filter_name (World0 := stub_world demo_api)
           three_pages [] [] tt "UC1" (Some 0) (Some 1) 70 "gaming" 20).
  vm_compute. reflexivity.
Defined.

(** X7, witness: a maximum of zero. *)
Lemma fetch_channel_videos_no_quota_witness :
  (fetch_channel_videos (World0 := @recording_world _ (stub_world demo_api))
     3 "UC1" (Some 0) (Some 1) 0 None (recording_start tt)).2 = Ok [] ∧
  calls (world (fetch_channel_videos
                  (World0 := @recording_world _ (stub_world demo_api))
                  3 "UC1" (Some 0) (Some 1) 0 None (recording_start tt)).1)
    = calls (world (recording_start tt)).
Proof.
  apply (fetch_channel_videos_no_quota (World0 := stub_world demo_api)
           3 "UC1" (Some 0) (Some 1) 0 None (recording_start tt)).
  lia.
Defined.

(** X8, witness: the category listing of the region US. *)
Lemma get_guide_categories_entries_witness :
  get_guide_categories (World0 := stub_world directory_api) "snippet" "US"
      (State [] [] tt)
    = (State [] [] tt, Ok (assigned demo_entries)) ∧
  (∀ id t, assigned demo_entries !! id = Some t → (id, t) ∈ demo_entries) ∧
  (NoDup demo_entries.*1 →
   ∀ id t, (id, t) ∈ demo_entries → assigned demo_entries !! id = Some t).
Proof.
  apply (get_guide_categories_entries (World0 := stub_world directory_api)
           "snippet" "US" (State [] [] tt) []
           {| lr_items := Some [ demo_category "1" (Some "Film & Animation");
                                 demo_category "20" (Some "Gaming") ] |}
           demo_entries);
    [reflexivity|pairwise].
Defined.

(** X9, witness: the category listing of another region, whose second
    item has no title. *)
Lemma get_guide_categories_missing_key_witness :
  ∃ key,
    get_guide_categories (World0 := stub_world directory_api) "snippet" "DE"
        (State [] [] tt)
      = (State [] [] tt, Raise (KeyError key)) ∧
    key ∈ ["snippet"; "title"; "id"].
Proof.
  apply (get_guide_categories_missing_key (World0 := stub_world directory_api)
           "snippet" "DE" (State [] [] tt) []
           {| lr_items := Some [ demo_category "1" (Some "Film & Animation");
                                 demo_category "2" None;
                                 demo_category "20" (Some "Gaming") ] |}
           [demo_category "1" (Some "Film & Animation")]
           [("1", "Film & Animation")]
           (demo_category "2" None)
           [demo_category "20" (Some "Gaming")]);
    [reflexivity|reflexivity|pairwise|reflexivity].
Defined.

(** X10, witness: the search in category 20. *)
Lemma search_channels_by_category_hits_witness :
  search_channels_by_category (World0 := stub_world directory_api) "20" 50
      (State [] [] tt)
    = (State [] [] tt, Ok [demo_listing "a" "first"; demo_listing "b" ""]) ∧
  (sr_items {| sr_items := Some [ demo_listed "a" (Some "first");
                                  demo_listed "b" (Some "") ];
               sr_nextPageToken := Some "CDIQAA" |} = None →
   [demo_listing "a" "first"; demo_listing "b" ""] = []).
Proof.
  apply (search_channels_by_category_hits (World0 := stub_world directory_api)
           "20" 50 (State [] [] tt) []
           {| sr_items := Some [ demo_listed "a" (Some "first");
                                 demo_listed "b" (Some "") ];
              sr_nextPageToken := Some "CDIQAA" |}
           [demo_listing "a" "first"; demo_listing "b" ""]);
    [reflexivity|pairwise].
Defined.

(** X11, witness: the search in category 10, whose second result has no
    description. *)
Lemma search_channels_by_category_missing_key_witness :
  ∃ key,
    search_channels_by_category (World0 := stub_world directory_api) "10" 50
        (State [] [] tt)
      = (State [] [] tt, Raise (KeyError key)) ∧
    key ∈ ["snippet"; "channelId"; "title"; "description"].
Proof.
  apply (search_channels_by_category_missing_key
           (World0 := stub_world directory_api) "10" 50 (State [] [] tt) []
           {| sr_items := Some [ demo_listed "a" (Some "first");
                                 demo_listed "b" None;
                                 demo_listed "c" (Some "third") ];
              sr_nextPageToken := Some "CDIQAA" |}
           [demo_listed "a" (Some "first")] [demo_listing "a" "first"]
           (demo_listed "b" None) [demo_listed "c" (Some "third")]);
    [reflexivity|reflexivity|pairwise|reflexivity].
Defined.

(** X12, witness: five candidates, a sample size of 3 and the draws
    [demo_normals]. *)
Lemma get_top_channels_subsequence_witness :
  ∃ s' l,
    get_top_channels_by_category (World0 := stub_world demo_api) 2 20 "key" 3
        (State demo_normals [] tt)
      = (s', Ok l) ∧
    l `sublist_of` sort_desc (locals (gathered 3 demo_normals)) ∧
    descending l ∧
    len l ≤ 3.
Proof.
  apply (get_top_channels_subsequence (World0 := stub_world demo_api)
           2 20 "key" 3 (State demo_normals [] tt) (gathered 3 demo_normals));
    [vm_compute; reflexivity|lia].
Defined.

(** X13, witness: a script of one page of five channels and a sample size
    of 3. *)
Lemma get_top_channels_terminates_witness :
  ∃ s' channels,
    get_top_channels_by_category (World0 := mock_world demo_api) 2 20 "key" 3
        (State (Scripted channel_pages demo_normals) [] tt)
      = (s', Ok channels) ∧
    len channels ≤ 3 ∧
    descending channels ∧
    locals s' = tt.
Proof.
  apply (get_top_channels_terminates (World0 := stub_world demo_api)
           channel_pages demo_normals [] tt 20 "key" 3).
  lia.
Defined.

(** X14, witness: a sample size of -1, and no fuel. *)
Lemma get_top_channels_nonpositive_witness :
  get_top_channels_by_category (World0 := stub_world demo_api) 0 20 "key" (-1)
      (State [] [] tt)
    = (State [] [] tt,
       if -1 <? 0
       then Raise (ValueError "negative dimensions are not allowed")
       else Ok []).
Proof.
  apply (get_top_channels_nonpositive (World0 := stub_world demo_api)
           0 20 "key" (-1) (State [] [] tt)).
  lia.
Defined.

(** X15, witness: the search call is over quota. *)
Lemma get_top_channels_first_call_fails_witness :
  get_top_channels_by_category (World0 := mock_world demo_api) 1 20 "key" 3
      (start [inl (HttpError "quotaExceeded")] tt)
    = (State (Scripted [] [])
             ([] ++ ["Error fetching channels: "
                       +:+ str_exn (HttpError "quotaExceeded")]) tt,
       Ok []).
Proof.
  apply (get_top_channels_first_call_fails (World0 := mock_world demo_api)
           0 20 "key" 3 (start [inl (HttpError "quotaExceeded")] tt)
           (Scripted [] []) (HttpError "quotaExceeded"));
    [lia|reflexivity].
Defined.

(** X16, witness: the five channels of [demo_api] and a sample size of
    1000. *)
Lemma get_top_channels_one_page_witness :
  get_top_channels_by_category (World0 := stub_world demo_api) 1 20 "key" 1000
      (State [] [] tt)
    = (State [] [] tt, Ok (sort_desc demo_summaries)).
Proof.
  apply (get_top_channels_one_page (World0 := stub_world demo_api)
           0 20 "key" 1000 (State [] [] tt) [] []
           {| sr_items := Some (map demo_hit ["a"; "b"; "c"; "d"; "e"]);
              sr_nextPageToken := None |}
           (map demo_hit ["a"; "b"; "c"; "d"; "e"])
           ["a"; "b"; "c"; "d"; "e"]
           {| lr_items := Some
                [ demo_channel "a" "10"; demo_channel "b" "50";
                  demo_channel "c" "30"; demo_channel "d" "40";
                  demo_channel "e" "20" ] |}
           [ demo_channel "a" "10"; demo_channel "b" "50";
             demo_channel "c" "30"; demo_channel "d" "40";
             demo_channel "e" "20" ]
           demo_summaries);
    [lia|reflexivity|reflexivity|reflexivity|pairwise|reflexivity|reflexivity
    |pairwise|vm_compute; discriminate].
Defined.

(** X17, witness: the third channel of the listing hides its subscriber
    count, and the sample size is 1. *)
Lemma get_top_channels_incomplete_channel_witness :
  ∃ e,
    channel_loop (World0 := stub_world directory_api) 1 20 1 None
        (State [] [] [])
      = (State [] ([] ++ ["Error fetching channels: " +:+ str_exn e])
               ([] ++ [demo_summary "a" 10; demo_summary "b" 50]),
         Ok tt) ∧
    (@None string = None → @nil channel_summary = [] →
     ∃ s' l,
       get_top_channels_by_category (World0 := stub_world directory_api)
           1 20 "key" 1 (State [] [] tt)
         = (s', Ok l) ∧
       stdout s' = [] ++ ["Error fetching channels: " +:+ str_exn e] ∧
       locals s' = tt ∧
       l `sublist_of` sort_desc [demo_summary "a" 10; demo_summary "b" 50] ∧
       descending l ∧
       len l ≤ 1 ∧
       (len [demo_summary "a" 10; demo_summary "b" 50] ≤ 1 →
        l = sort_desc [demo_summary "a" 10; demo_summary "b" 50] ∧
        world s' = [])).
Proof.
  apply (get_top_channels_incomplete_channel
           (World0 := stub_world directory_api)
           0 20 "key" 1 None (State [] [] tt) [] [] []
           {| sr_items := Some [ demo_listed "a" (Some "first");
                                 demo_listed "b" (Some "") ];
              sr_nextPageToken := Some "CDIQAA" |}
           [ demo_listed "a" (Some "first"); demo_listed "b" (Some "") ]
           ["a"; "b"]
           {| lr_items := Some
                [ demo_channel "a" "10"; demo_channel "b" "50";
                  hidden_channel "c"; demo_channel "d" "40" ] |}
           [ demo_channel "a" "10"; demo_channel "b" "50" ]
           [ demo_summary "a" 10; demo_summary "b" 50 ]
           (hidden_channel "c") [ demo_channel "d" "40" ]);
    [vm_compute; reflexivity|vm_compute; reflexivity|reflexivity|pairwise
    |reflexivity|reflexivity|pairwise|vm_compute; reflexivity].
Defined.

(** X19, witness: a first page of 50 videos, a maximum of 20 and a second
    page that is never asked for. *)
Lemma fetch_channel_videos_stops_at_max_witness :
  ∃ s' df,
    fetch_channel_videos (World0 := mock_world demo_api) 1 "UC1"
        (Some 0) (Some 1) 20 None
        (State (Scripted (page (map demo_item (seq 0 50)) (Some "CDIQAA")
                            :: [demo_page 50 50 None]) []) [] tt)
      = (s', Ok df) ∧
    map (λ rec, Some (video_id rec)) df
      = map item_video_id (take (Z.to_nat 20) (map demo_item (seq 0 50))) ∧
    script (world s') = [demo_page 50 50 None].
Proof.
  apply (fetch_channel_videos_stops_at_max demo_api 0
           (map demo_item (seq 0 50)) (Some "CDIQAA") [demo_page 50 50 None]
           [] [] tt "UC1" (Some 0) (Some 1) 20);
    [split; [lia|vm_compute; discriminate]|vm_compute; reflexivity].
Defined.

(** X21, witness: the search call is over quota, and one line is printed. *)
Lemma get_top_channels_prints_witness :
  ∃ s' channels hs,
    get_top_channels_by_category (World0 := mock_world demo_api) 2 20 "key" 3
        (State (Scripted [inl (HttpError "quotaExceeded")] []) [] tt)
      = (s', Ok channels) ∧
    hs `sublist_of` ["Error fetching channels: "] ∧
    printed [] (stdout s') hs.
Proof.
  apply (get_top_channels_prints (World0 := stub_world demo_api)
           [inl (HttpError "quotaExceeded")] [] [] tt 20 "key" 3).
  lia.
Defined.
